(** * Loading of native fastText binaries and lock-factor masks

    A shallow embedding of [gensim/models/fasttext.py]: the [struct]-based
    readers ([_struct_unpack], [_load_model_params], [_load_vocab],
    [_load_matrix]), the lock-factor masks of [FastTextTrainables]
    ([init_ngrams_weights], [init_post_load], [_pad_ones]) and the guard of
    [FastText.build_vocab].

    Conventions.  A file handle is the list of bytes that remain to be read.
    Integers are [Z]; a C [double] or [float] is kept as its bit pattern (a
    [Z]), never interpreted.  The producing and the reading host are
    little-endian with the usual sizes (int 4, long long 8, double 8).  A
    Python exception is a value [Raise e]; a loop that never exits is
    [Diverge]. *)

From Stdlib Require Import ZArith Lia Ascii String.
From Stdlib Require Import Strings.Byte.
From stdpp Require Import gmap strings list fin_maps.

(** ** Outcomes of a Python call *)

Inductive exn : Type :=
| StructError                      (* struct.error: buffer of the wrong size *)
| UnpackError                      (* ValueError of a tuple unpacking of the wrong arity *)
| AssertionError (msg : string)
| NotImplementedError (msg : string)
| ValueError (msg : string)
| NameError (name : string)
| RuntimeError (msg : string)
| TypeError (msg : string)
| AttributeError (name : string)
| IndexError
| UnicodeDecodeError
| OverflowError.

Inductive outcome (A : Type) : Type :=
| Ok (a : A)
| Raise (e : exn)
| Diverge.
Arguments Ok {A} a.
Arguments Raise {A} e.
Arguments Diverge {A}.

#[global] Instance outcome_ret : MRet outcome := @Ok.
#[global] Instance outcome_bind : MBind outcome := λ A B k o,
  match o with
  | Ok a => k a
  | Raise e => Raise e
  | Diverge => Diverge
  end.

(** ** The file handle and the logger *)

Inductive level : Type := INFO | WARNING | CRITICAL.

Inductive logarg : Type := LInt (z : Z) | LStr (s : string).

Record log_entry : Type := LogEntry
  { lvl : level; template : string; args : list logarg }.

Record io : Type := IO
  { fname : string;             (* file_handle.name *)
    pending : list byte;        (* bytes not read yet *)
    logged : list log_entry }.  (* records emitted so far, oldest first *)

Definition M (A : Type) : Type := io → outcome (A * io).

Definition ret {A} (a : A) : M A := λ st, Ok (a, st).

Definition raise {A} (e : exn) : M A := λ _, Raise e.

Definition bind {A B} (k : A → M B) (m : M A) : M B :=
  λ st, match m st with
        | Ok (a, st') => k a st'
        | Raise e => Raise e
        | Diverge => Diverge
        end.

(** Sequencing is written with stdpp's [x ← m; k] and [m;; k]. *)
#[global] Instance M_ret : MRet M := @ret.
#[global] Instance M_bind : MBind M := @bind.

(** [file_handle.read(n)]: at most [n] bytes, fewer at the end of the file. *)
Definition read (n : nat) : M (list byte) :=
  λ st, Ok (take n (pending st),
            IO (fname st) (drop n (pending st)) (logged st)).

Definition logger (l : level) (tpl : string) (a : list logarg) : M unit :=
  λ st, Ok (tt, IO (fname st) (pending st) (logged st ++ [LogEntry l tpl a])).

Definition handle_name : M string := λ st, Ok (fname st, st).

(** A call that does not touch the file handle or the logger. *)
Definition lift {A} (o : outcome A) : M A :=
  λ st, match o with
        | Ok a => Ok (a, st)
        | Raise e => Raise e
        | Diverge => Diverge
        end.

(** [assert c, msg] *)
Definition assert (c : bool) (msg : string) : M unit :=
  if c then ret tt else raise (AssertionError msg).

(** ** The [struct] module, native mode *)

Inductive code : Type := c_i | c_q | c_d | c_b | c_bool.

Definition sizeof (c : code) : nat :=
  match c with c_i => 4 | c_q => 8 | c_d => 8 | c_b => 1 | c_bool => 1 end.

Definition code_of_ascii (a : Ascii.ascii) : option code :=
  if Ascii.eqb a "i"%char then Some c_i
  else if Ascii.eqb a "q"%char then Some c_q
  else if Ascii.eqb a "d"%char then Some c_d
  else if Ascii.eqb a "b"%char then Some c_b
  else if Ascii.eqb a "?"%char then Some c_bool
  else None.

Definition digit_of_ascii (a : Ascii.ascii) : option nat :=
  let n := nat_of_ascii a in
  if (48 <=? n)%nat && (n <=? 57)%nat then Some (n - 48) else None.

(** The items of a format string: an optional repeat count, then a code. *)
Fixpoint parse_items (s : string) (count : option nat) : option (list code) :=
  match s with
  | EmptyString => match count with None => Some [] | Some _ => None end
  | String a s' =>
      match digit_of_ascii a with
      | Some d => parse_items s' (Some (10 * default 0 count + d))
      | None =>
          match code_of_ascii a, parse_items s' None with
          | Some c, Some cs => Some (replicate (default 1 count) c ++ cs)
          | _, _ => None
          end
      end
  end.

Definition parse_fmt (s : string) : option (list code) :=
  match s with
  | String "@"%char s' => parse_items s' None
  | _ => None
  end.

(** Native alignment: every item starts at a multiple of its size; there is
    no padding after the last one. *)
Definition align (off a : nat) : nat := off + (a - off `mod` a) `mod` a.

Fixpoint layout (cs : list code) (off : nat) : list (nat * code) * nat :=
  match cs with
  | [] => ([], off)
  | c :: cs' =>
      let o := align off (sizeof c) in
      let '(l, e) := layout cs' (o + sizeof c) in
      ((o, c) :: l, e)
  end.

Definition calcsize (cs : list code) : nat := snd (layout cs 0).

Inductive pyval : Type :=
| PInt (z : Z)
| PFloat (bits : Z)
| PBool (b : bool).

Definition le_uint (bs : list byte) : Z :=
  foldr (λ b acc, Z.of_N (Byte.to_N b) + 256 * acc)%Z 0%Z bs.

Definition le_sint (bs : list byte) : Z :=
  let u := le_uint bs in
  let w := (8 * Z.of_nat (length bs))%Z in
  if (u <? 2 ^ (w - 1))%Z then u else (u - 2 ^ w)%Z.

Definition decode (c : code) (bs : list byte) : pyval :=
  match c with
  | c_i | c_q | c_b => PInt (le_sint bs)
  | c_d => PFloat (le_uint bs)
  | c_bool => PBool (negb (le_uint bs =? 0)%Z)
  end.

Definition field (bs : list byte) (oc : nat * code) : pyval :=
  decode (oc.2) (take (sizeof (oc.2)) (drop (oc.1) bs)).

Definition unpack (cs : list code) (bs : list byte) : list pyval :=
  map (field bs) (layout cs 0).1.

(** [_struct_unpack(file_handle, fmt)] *)
Definition _struct_unpack (fmt : string) : M (list pyval) :=
  match parse_fmt fmt with
  | None => raise StructError
  | Some cs =>
      let num_bytes := calcsize cs in
      bs ← read num_bytes;
      if (length bs =? num_bytes)%nat then ret (unpack cs bs)
      else raise StructError
  end.

(** ** Model parameters: [FastText._load_model_params], first half *)

Definition FASTTEXT_FILEFORMAT_MAGIC : Z := 793712314.

(** The locals bound by the two [_struct_unpack] calls of
    [_load_model_params], with [self.new_format]. *)
Record model_params : Type := ModelParams
  { new_format : bool;
    dim : Z; ws : Z; epoch : Z; min_count : Z; neg : Z; loss : Z;
    model : Z; bucket : Z; minn : Z; maxn : Z;
    t : Z }.

Definition _load_model_params_header : M model_params :=
  mv ← _struct_unpack "@2i";
  match mv with
  | [PInt magic; PInt version] =>
      if (magic =? FASTTEXT_FILEFORMAT_MAGIC)%Z then
        vs ← _struct_unpack "@12i1d";
        match vs with
        | [PInt dim; PInt ws; PInt epoch; PInt min_count; PInt neg; _;
           PInt loss; PInt model; PInt bucket; PInt minn; PInt maxn; _;
           PFloat t] =>
            ret (ModelParams true dim ws epoch min_count neg loss model
                   bucket minn maxn t)
        | _ => raise UnpackError
        end
      else
        let dim := magic in
        let ws := version in
        vs ← _struct_unpack "@10i1d";
        match vs with
        | [PInt epoch; PInt min_count; PInt neg; _; PInt loss; PInt model;
           PInt bucket; PInt minn; PInt maxn; _; PFloat t] =>
            ret (ModelParams false dim ws epoch min_count neg loss model
                   bucket minn maxn t)
        | _ => raise UnpackError
        end
  | _ => raise UnpackError
  end.

(** ** The vocabulary section: [_load_vocab] *)

(** The attributes of a [FastTextVocab] that this module reads or writes.
    [v_sample] and [v_min_count] are the constructor's [sample] and
    [min_count]; [raw_vocab] is the Python dict. *)
Record FastTextVocab : Type := Vocabulary
  { v_sample : Z;
    v_min_count : Z;
    vocab_size : Z;
    nwords : Z;
    raw_vocab : gmap string Z;
    old_vocab_len : Z }.

(** [bytes.decode(encoding)]: the caller's encoding, [None] on a byte
    sequence the encoding rejects. *)
Definition codec : Type := list byte → option string.

(** The inner [while char_byte != b'\x00'] loop over the bytes that remain.
    At the end of the file [read(1)] returns [b''], which is not
    [b'\x00']: the loop then appends nothing and never exits. *)
Fixpoint read_word_from (s word_bytes : list byte)
  : outcome (list byte * list byte) :=
  match s with
  | [] => Diverge
  | char_byte :: s' =>
      if Byte.eqb char_byte x00 then Ok (word_bytes, s')
      else read_word_from s' (word_bytes ++ [char_byte])
  end.

Definition read_word : M (list byte) :=
  λ st, match read_word_from (pending st) [] with
        | Ok (w, s') => Ok (w, IO (fname st) s' (logged st))
        | Raise e => Raise e
        | Diverge => Diverge
        end.

(** The body of [for i in range(v.vocab_size)], [n] more times. *)
Fixpoint load_entries (encoding : codec) (n : nat) (raw : gmap string Z)
  : M (gmap string Z) :=
  match n with
  | O => ret raw
  | S n' =>
      word_bytes ← read_word;
      match encoding word_bytes with
      | None => raise UnicodeDecodeError
      | Some word =>
          cf ← _struct_unpack "@qb";
          match cf with
          | [PInt count; _] => load_entries encoding n' (<[word := count]> raw)
          | _ => raise UnpackError
          end
      end
  end.

(** The body of [for j in range(pruneidx_size)], [n] more times. *)
Fixpoint skip_pairs (n : nat) : M unit :=
  match n with
  | O => ret tt
  | S n' => _struct_unpack "@2i";; skip_pairs n'
  end.

Definition _load_vocab (new_format : bool) (sample min_count : Z)
    (encoding : codec) : M FastTextVocab :=
  hdr ← _struct_unpack "@3i";
  match hdr with
  | [PInt vocab_size; PInt nwords; PInt nlabels] =>
      if (0 <? nlabels)%Z then
        raise (NotImplementedError "Supervised fastText models are not supported")
      else
        name ← handle_name;
        logger INFO "loading %s words for fastText model from %s"
          [LInt vocab_size; LStr name];;
        _struct_unpack "@1q";;
        pruneidx_size ←
          (if new_format then
             p ← _struct_unpack "@q";
             match p with [PInt n] => ret n | _ => raise UnpackError end
           else ret 0%Z);
        raw ← load_entries encoding (Z.to_nat vocab_size) ∅;
        (if new_format then skip_pairs (Z.to_nat pruneidx_size) else ret tt);;
        ret (Vocabulary sample min_count vocab_size nwords raw 0)
  | _ => raise UnpackError
  end.

(** ** Arrays *)

Inductive dtype : Type := float32 | float64.

Definition itemsize (d : dtype) : nat :=
  match d with float32 => 4 | float64 => 8 end.

(** A numpy array of one or two dimensions.  [Arr2 d c rows] has shape
    [(length rows, c)]; its elements are bit patterns. *)
Inductive ndarray : Type :=
| Arr1 (d : dtype) (v : list Z)
| Arr2 (d : dtype) (columns : nat) (rows : list (list Z)).

Definition shape (m : ndarray) : list nat :=
  match m with
  | Arr1 _ v => [length v]
  | Arr2 _ c rows => [length rows; c]
  end.

(** [len(m)] *)
Definition len (m : ndarray) : nat :=
  match m with
  | Arr1 _ v => length v
  | Arr2 _ _ rows => length rows
  end.

(** [m[i]] for a two-dimensional [m]. *)
Definition row (m : ndarray) (i : nat) : option (list Z) :=
  match m with
  | Arr1 _ _ => None
  | Arr2 _ _ rows => rows !! i
  end.

(** [REAL] is [float32]; [one] is the bit pattern of [1.0f]. *)
Definition REAL : dtype := float32.
Definition one : Z := 0x3F800000.

(** [ones(n, dtype=REAL)] and [ones((r, c), dtype=REAL)] *)
Definition ones1 (n : nat) : ndarray := Arr1 REAL (replicate n one).
Definition ones2 (r c : nat) : ndarray := Arr2 REAL c (replicate r (replicate c one)).

(** [r] consecutive groups of [c] elements. *)
Fixpoint chunks {A} (r c : nat) (l : list A) : list (list A) :=
  match r with
  | O => []
  | S r' => take c l :: chunks r' c (drop c l)
  end.

(** [np.fromfile(file_handle, dtype=dtype, count=count)]: [count] items, or
    as many whole items as the file still holds when that is fewer or
    [count] is negative.  [count] is converted to a C [ssize_t]: a count
    below [-2^63], or of [2^63] or more, raises [OverflowError].  No file
    holds [2^63] items, so the upper bound is modelled for the counts that go
    beyond the file.  The array is taken to fit in memory. *)
Definition np_fromfile (d : dtype) (count : Z) : M (list Z) :=
  λ st,
    let avail := (length (pending st) / itemsize d)%nat in
    if (count <? - 2 ^ 63)%Z
       || (2 ^ 63 <=? count)%Z && (Z.of_nat avail <? count)%Z then
      Raise OverflowError
    else
      let n := if (count <? 0)%Z then avail
               else Z.to_nat (Z.min count (Z.of_nat avail)) in
      Ok (map le_uint (chunks n (itemsize d) (pending st)),
          IO (fname st) (drop (n * itemsize d) (pending st)) (logged st)).

(** [matrix.reshape((r, c))] of a flat array.  One dimension may be
    negative: numpy takes it as the unknown one and infers it from the
    other. *)
Definition reshape (d : dtype) (v : list Z) (r c : Z) : M ndarray :=
  let size := Z.of_nat (length v) in
  let mk (r c : Z) := Arr2 d (Z.to_nat c) (chunks (Z.to_nat r) (Z.to_nat c) v) in
  if (0 <=? r)%Z && (0 <=? c)%Z then
    if (r * c =? size)%Z then ret (mk r c)
    else raise (ValueError "cannot reshape array")
  else if (r <? 0)%Z && (0 <? c)%Z && (size `mod` c =? 0)%Z then
    ret (mk (size / c)%Z c)
  else if (c <? 0)%Z && (0 <? r)%Z && (size `mod` r =? 0)%Z then
    ret (mk r (size / r)%Z)
  else raise (ValueError "cannot reshape array").

(** ** Matrices: [_load_matrix] *)

Section Host.

(** [struct.calcsize('@f')] on the host that reads the file. *)
Variable native_float_size : nat.

Definition _load_matrix (new_format : bool) (expected_vector_size : option Z)
  : M ndarray :=
  (if new_format then _struct_unpack "@?" else ret []);;
  nd ← _struct_unpack "@2q";
  match nd with
  | [PInt num_vectors; PInt dim] =>
      assert (match expected_vector_size with
              | None => true
              | Some e => (e =? dim)%Z
              end)
        "mismatch between vector size in model params and model vectors";;
      let float_size := native_float_size in
      dtype ←
        (if (float_size =? 4)%nat then ret float32
         else if (float_size =? 8)%nat then ret float64
         else raise (ValueError "Incompatible float size"));
      matrix ← np_fromfile dtype (num_vectors * dim);
      reshape dtype matrix num_vectors dim
  | _ => raise UnpackError
  end.

End Host.

(** ** Byte strings for examples *)

Definition byte_of_Z (z : Z) : byte :=
  default x00 (Byte.of_N (Z.to_N (z `mod` 256))).

(** [n] bytes, least significant first (two's complement). *)
Fixpoint le_bytes (n : nat) (z : Z) : list byte :=
  match n with
  | O => []
  | S n' => byte_of_Z z :: le_bytes n' (z / 256)
  end.

Definition i32 : Z → list byte := le_bytes 4.
Definition i64 : Z → list byte := le_bytes 8.
Definition cstr (s : string) : list byte := list_byte_of_string s ++ [x00].
Definition latin1 : codec := λ bs, Some (string_of_list_byte bs).
Definition on_file (bs : list byte) : io := IO "model.bin" bs [].

(** ** The objects of a model *)

(** [gensim.models.keyedvectors.Vocab] *)
Record Vocab : Type := VocabItem { count : Z; index : nat }.

(** The attributes of a [FastTextKeyedVectors] used here.  An array
    attribute that was not assigned yet is [None]. *)
Record FastTextKeyedVectors : Type := KeyedVectors
  { vocab : gmap string Vocab;
    index2word : list string;
    vector_size : Z;
    min_n : Z;
    max_n : Z;
    wv_bucket : Z;
    compatible_hash : bool;
    vectors : option ndarray;
    vectors_vocab : option ndarray;
    vectors_ngrams : option ndarray;
    hash2index : gmap Z nat }.

(** [FastTextKeyedVectors(size, min_n, max_n, bucket, compatible_hash)] *)
Definition KeyedVectors_new (size min_n max_n bucket : Z) (compatible : bool)
  : FastTextKeyedVectors :=
  KeyedVectors ∅ [] size min_n max_n bucket compatible None None None ∅.

(** The attributes of a [FastTextTrainables] used here; a mask or a
    matrix that was never assigned is [None]. *)
Record FastTextTrainables : Type := Trainables
  { seed : Z;
    tr_bucket : Z;
    vectors_lockf : option ndarray;
    vectors_vocab_lockf : option ndarray;
    vectors_ngrams_lockf : option ndarray;
    syn1 : option ndarray;
    syn1neg : option ndarray;
    layer1_size : Z;
    old_hash2index_len : Z }.

Record FastText : Type := Model
  { wv : FastTextKeyedVectors;
    vocabulary : FastTextVocab;
    trainables : FastTextTrainables;
    file_name : string;
    self_new_format : bool;
    self_vector_size : Z;
    window : Z;
    epochs : Z;
    negative : Z;
    hs : bool;
    sg : bool;
    num_original_vectors : nat }.

Definition with_wv (wv' : FastTextKeyedVectors) (self : FastText) : FastText :=
  Model wv' (vocabulary self) (trainables self) (file_name self)
    (self_new_format self) (self_vector_size self) (window self) (epochs self)
    (negative self) (hs self) (sg self) (num_original_vectors self).

Definition with_vocabulary (v : FastTextVocab) (self : FastText) : FastText :=
  Model (wv self) v (trainables self) (file_name self)
    (self_new_format self) (self_vector_size self) (window self) (epochs self)
    (negative self) (hs self) (sg self) (num_original_vectors self).

Definition with_trainables (tr : FastTextTrainables) (self : FastText) : FastText :=
  Model (wv self) (vocabulary self) tr (file_name self)
    (self_new_format self) (self_vector_size self) (window self) (epochs self)
    (negative self) (hs self) (sg self) (num_original_vectors self).

Definition with_file_name (f : string) (self : FastText) : FastText :=
  Model (wv self) (vocabulary self) (trainables self) f
    (self_new_format self) (self_vector_size self) (window self) (epochs self)
    (negative self) (hs self) (sg self) (num_original_vectors self).

Definition with_num_original_vectors (n : nat) (self : FastText) : FastText :=
  Model (wv self) (vocabulary self) (trainables self) (file_name self)
    (self_new_format self) (self_vector_size self) (window self) (epochs self)
    (negative self) (hs self) (sg self) n.

Definition with_vectors_ngrams (m : ndarray) (w : FastTextKeyedVectors)
  : FastTextKeyedVectors :=
  KeyedVectors (vocab w) (index2word w) (vector_size w) (min_n w) (max_n w)
    (wv_bucket w) (compatible_hash w) (vectors w) (vectors_vocab w) (Some m)
    (hash2index w).

Definition with_old_vocab_len (n : Z) (v : FastTextVocab) : FastTextVocab :=
  Vocabulary (v_sample v) (v_min_count v) (vocab_size v) (nwords v)
    (raw_vocab v) n.

Definition with_old_hash2index_len (n : Z) (tr : FastTextTrainables)
  : FastTextTrainables :=
  Trainables (seed tr) (tr_bucket tr) (vectors_lockf tr)
    (vectors_vocab_lockf tr) (vectors_ngrams_lockf tr) (syn1 tr) (syn1neg tr)
    (layer1_size tr) n.

Definition with_tr_bucket (b : Z) (tr : FastTextTrainables) : FastTextTrainables :=
  Trainables (seed tr) b (vectors_lockf tr) (vectors_vocab_lockf tr)
    (vectors_ngrams_lockf tr) (syn1 tr) (syn1neg tr) (layer1_size tr)
    (old_hash2index_len tr).

Definition with_vectors_vocab_lockf (m : ndarray) (tr : FastTextTrainables)
  : FastTextTrainables :=
  Trainables (seed tr) (tr_bucket tr) (vectors_lockf tr) (Some m)
    (vectors_ngrams_lockf tr) (syn1 tr) (syn1neg tr) (layer1_size tr)
    (old_hash2index_len tr).

Definition with_vectors_ngrams_lockf (m : ndarray) (tr : FastTextTrainables)
  : FastTextTrainables :=
  Trainables (seed tr) (tr_bucket tr) (vectors_lockf tr)
    (vectors_vocab_lockf tr) (Some m) (syn1 tr) (syn1neg tr) (layer1_size tr)
    (old_hash2index_len tr).

(** ** Name resolution *)

(** The names bound at the top level of [fasttext.py]: its imports, the
    fallbacks of the failed imports, its constant, classes and functions. *)
Definition module_globals : list string :=
  ["logging"; "struct"; "np"; "ones"; "vstack"; "empty"; "REAL"; "np_sum";
   "Word2VecVocab"; "Word2VecTrainables"; "train_sg_pair"; "train_cbow_pair";
   "Vocab"; "FastTextKeyedVectors"; "BaseWordEmbeddingsModel";
   "_compute_ngrams"; "_ft_hash"; "_ft_hash_broken"; "deprecated";
   "call_on_class_only"; "logger"; "train_batch_sg"; "train_batch_cbow";
   "FAST_VERSION"; "MAX_WORDS_IN_BATCH"; "train_epoch_sg"; "train_epoch_cbow";
   "CORPUSFILE_VERSION"; "FASTTEXT_FILEFORMAT_MAGIC"; "FastText";
   "_struct_unpack"; "_load_matrix"; "FastTextVocab"; "_load_vocab";
   "FastTextTrainables"; "_pad_ones"; "_load_fasttext_format"; "_check_model"].

(** The builtins the module calls. *)
Definition builtins : list string :=
  ["len"; "range"; "int"; "bool"; "hash"; "set"; "sum"; "tuple"; "enumerate";
   "max"; "super"; "open"; "hasattr"; "property"; "classmethod";
   "RuntimeError"; "ValueError"; "NotImplementedError"; "AttributeError";
   "ImportError"].

(** Reading the name [x] in a function whose local names are [locals]. *)
Definition resolve_name (locals : list string) (x : string) : M unit :=
  if bool_decide (x ∈ locals ++ module_globals ++ builtins) then ret tt
  else raise (NameError x).

(** The parameters and local variables of [FastText._load_model_params]. *)
Definition _load_model_params_locals : list string :=
  ["self"; "file_handle"; "encoding"; "magic"; "version"; "dim"; "ws";
   "epoch"; "min_count"; "neg"; "_"; "loss"; "model"; "bucket"; "minn";
   "maxn"; "t"].

(** ** numpy helpers *)

Definition np_ones1 (n : Z) : outcome ndarray :=
  if (n <? 0)%Z then Raise (ValueError "negative dimensions are not allowed")
  else Ok (ones1 (Z.to_nat n)).

Definition np_ones2 (r c : Z) : outcome ndarray :=
  if (r <? 0)%Z || (c <? 0)%Z
  then Raise (ValueError "negative dimensions are not allowed")
  else Ok (ones2 (Z.to_nat r) (Z.to_nat c)).

Definition atleast_2d (m : ndarray) : ndarray :=
  match m with
  | Arr1 d v => Arr2 d (length v) [v]
  | Arr2 _ _ _ => m
  end.

(** [m.take(indices, axis=0)] on a two-dimensional array. *)
Definition take_rows (m : ndarray) (indices : list nat) : outcome ndarray :=
  match m with
  | Arr1 _ _ => Raise IndexError
  | Arr2 d c rows =>
      match mapM (λ i, rows !! i) indices with
      | Some picked => Ok (Arr2 d c picked)
      | None => Raise IndexError
      end
  end.

Section Trainables.

(** Conversion of the bit pattern of a C float to that of the equal
    double, which numpy applies when it stacks arrays of both types. *)
Variable widen : Z → Z.

(** [vstack([a, b])]: the rows of [a], then the rows of [b]. *)
Definition vstack (a b : ndarray) : outcome ndarray :=
  match atleast_2d a, atleast_2d b with
  | Arr2 da ca ra, Arr2 db cb rb =>
      if (ca =? cb)%nat then
        match da, db with
        | float32, float32 => Ok (Arr2 float32 ca (ra ++ rb))
        | float64, float64 => Ok (Arr2 float64 ca (ra ++ rb))
        | float64, float32 => Ok (Arr2 float64 ca (ra ++ map (map widen) rb))
        | float32, float64 => Ok (Arr2 float64 ca (map (map widen) ra ++ rb))
        end
      else Raise (ValueError "all the input array dimensions must match")
  | _, _ => Raise (ValueError "all the input array dimensions must match")
  end.

Definition _pad_ones (m : ndarray) (new_rows : Z) : outcome ndarray :=
  match shape m with
  | [rows; columns] =>
      suffix ← np_ones2 new_rows (Z.of_nat columns);
      vstack m suffix
  | _ => Raise UnpackError
  end.

(** [FastTextKeyedVectors.init_ngrams_weights(seed)], of
    [keyedvectors.py]: it returns [ngram_indices] and fills the tables of
    [wv]. *)
Variable wv_init_ngrams_weights :
  Z → FastTextKeyedVectors → outcome (list nat * FastTextKeyedVectors).

(** The n-gram hasher of [utils_any2vec.py] applied to one word of a
    model: the bucket index of each of its character n-grams. *)
Variable bucket_indices : FastTextKeyedVectors → string → list Z.

(** The pseudo-random initial value of a table cell: element type, seed,
    row position, column. *)
Variable uniform : dtype → Z → nat → nat → Z.

Definition activate (h : gmap Z nat) (b : Z) : gmap Z nat :=
  match h !! b with
  | Some _ => h
  | None => <[b := size h]> h
  end.

(** Modelled from the spec: [FastTextKeyedVectors.update_ngrams_weights]
    is defined in [keyedvectors.py], which is not among the sources.
    Section 4.5, grow: it "appends freshly-initialized rows to
    VocabularyVectorTable for each new vocabulary entry (same
    initialization rule as allocate, using that entry's own seed
    derivation)"; the "bucket-table size is fixed at construction and
    never grows (only which buckets are reachable from the live
    vocabulary may change, tracked via 4.4's hasher)".  Section 3: growth
    may "extend an auxiliary structure mapping active bucket positions",
    which is [hash2index]. *)
Definition update_ngrams_weights (seed : Z) (old_vocab_len : Z)
    (w : FastTextKeyedVectors) : outcome FastTextKeyedVectors :=
  match vectors_vocab w with
  | Some (Arr2 d c rows) =>
      let new_vocab := Z.to_nat (Z.of_nat (size (vocab w)) - old_vocab_len) in
      let fresh :=
        map (λ i, map (uniform d seed i) (seq 0 c))
          (seq (length rows) new_vocab) in
      let new_words := drop (Z.to_nat old_vocab_len) (index2word w) in
      Ok (KeyedVectors (vocab w) (index2word w) (vector_size w) (min_n w)
            (max_n w) (wv_bucket w) (compatible_hash w) (vectors w)
            (Some (Arr2 d c (rows ++ fresh))) (vectors_ngrams w)
            (foldl activate (hash2index w) (new_words ≫= bucket_indices w)))
  | _ => Raise (TypeError "vectors_vocab is not a matrix")
  end.

(** Using an array attribute that was never assigned. *)
Definition attr {A} (name : string) (o : option A) : outcome A :=
  match o with
  | Some a => Ok a
  | None => Raise (AttributeError name)
  end.

(** A step of a method that assigns attributes as it goes: when the step
    raises, the objects stay as the assignments made so far left them. *)
Definition carry {A B S} (o : outcome A) (s : S) (k : A → outcome B * S)
  : outcome B * S :=
  match o with
  | Ok a => k a
  | Raise e => (Raise e, s)
  | Diverge => (Diverge, s)
  end.

(** [FastTextTrainables.init_ngrams_weights(wv, update, vocabulary)] with
    the objects it leaves: what the call returns or raises, and [self] and
    [wv] after it. *)
Definition init_ngrams_weights_state (self : FastTextTrainables)
    (wv : FastTextKeyedVectors) (update : bool) (vocabulary : FastTextVocab)
  : outcome unit * (FastTextTrainables * FastTextKeyedVectors) :=
  if negb update then
    carry (wv_init_ngrams_weights (seed self) wv) (self, wv)
      (λ '(ngram_indices, wv),
         carry (np_ones2 (Z.of_nat (size (vocab wv))) (vector_size wv)) (self, wv)
           (λ vocab_lockf,
              let self := with_vectors_vocab_lockf vocab_lockf self in
              carry (np_ones2 (tr_bucket self) (vector_size wv)) (self, wv)
                (λ ngrams_lockf,
                   let self := with_vectors_ngrams_lockf ngrams_lockf self in
                   carry (take_rows ngrams_lockf ngram_indices) (self, wv)
                     (λ taken,
                        (Ok tt, (with_vectors_ngrams_lockf taken self, wv))))))
  else
    let old_hash2index_len_ := Z.of_nat (size (hash2index wv)) in
    carry (update_ngrams_weights (seed self) (old_vocab_len vocabulary) wv)
      (self, wv)
      (λ wv,
         let new_vocab :=
           (Z.of_nat (size (vocab wv)) - old_vocab_len vocabulary)%Z in
         carry (m ← attr "vectors_vocab_lockf" (vectors_vocab_lockf self);
                _pad_ones m new_vocab) (self, wv)
           (λ vocab_lockf,
              let self := with_vectors_vocab_lockf vocab_lockf self in
              let new_ngrams :=
                (Z.of_nat (size (hash2index wv)) - old_hash2index_len_)%Z in
              carry (m ← attr "vectors_ngrams_lockf" (vectors_ngrams_lockf self);
                     _pad_ones m new_ngrams) (self, wv)
                (λ ngrams_lockf,
                   (Ok tt, (with_vectors_ngrams_lockf ngrams_lockf self, wv))))).

(** The same call seen from a caller that goes on only when it returns:
    the pair of [self] and [wv] after the call. *)
Definition init_ngrams_weights (self : FastTextTrainables)
    (wv : FastTextKeyedVectors) (update : bool) (vocabulary : FastTextVocab)
  : outcome (FastTextTrainables * FastTextKeyedVectors) :=
  match init_ngrams_weights_state self wv update vocabulary with
  | (Ok _, after) => Ok after
  | (Raise e, _) => Raise e
  | (Diverge, _) => Diverge
  end.

End Trainables.

(** [FastTextTrainables.init_post_load(model, hidden_output)] *)
Definition init_post_load (self : FastTextTrainables) (model : FastText)
    (hidden_output : ndarray) : M FastTextTrainables :=
  v ← lift (attr "wv.vectors" (vectors (wv model)));
  let num_vectors := Z.of_nat (len v) in
  let vocab_size := Z.of_nat (size (vocab (wv model))) in
  let vector_size := vector_size (wv model) in
  assert (0 <? num_vectors)%Z "expected num_vectors to be initialized already";;
  assert (0 <? vocab_size)%Z "expected vocab_size to be initialized already";;
  lockf ← lift (np_ones1 num_vectors);
  ngrams_lockf ← lift (np_ones2 num_vectors vector_size);
  logger CRITICAL "len(self.wv.vocab): %r" [LInt vocab_size];;
  logger CRITICAL "self.wv.vector_size: %r" [LInt vector_size];;
  vocab_lockf ← lift (np_ones2 vocab_size vector_size);
  let syn1' := if hs model then Some hidden_output else syn1 self in
  let syn1neg' :=
    if negb (negative model =? 0)%Z then Some hidden_output else syn1neg self in
  ret (Trainables (seed self) (tr_bucket self) (Some lockf) (Some vocab_lockf)
         (Some ngrams_lockf) syn1' syn1neg' vector_size
         (old_hash2index_len self)).

(** [_check_model(m)], the checks of [_load_fasttext_format]; its local
    names are its parameter only.  No code of [fasttext.py] assigns [None] to
    [syn1neg]: the attribute holds a matrix or was never assigned, and
    reading it then raises [AttributeError] before the test against
    [None]. *)
Definition _check_model (m : FastText) : M unit :=
  ngrams ← lift (attr "wv.vectors_ngrams" (vectors_ngrams (wv m)));
  match shape ngrams with
  | [_; columns] =>
      assert (vector_size (wv m) =? Z.of_nat columns)%Z
        "mismatch between vector size in model params and model vectors";;
      match syn1neg (trainables m) with
      | Some (Arr2 _ columns _) =>
          assert (vector_size (wv m) =? Z.of_nat columns)%Z
            "mismatch between vector size in model params and trainables"
      | Some (Arr1 _ _) => raise IndexError
      | None => raise (AttributeError "syn1neg")
      end;;
      let final := Z.of_nat (size (vocab (wv m))) in
      assert (final =? nwords (vocabulary m))%Z
        "mismatch between final vocab size and expected number of words";;
      if negb (final =? vocab_size (vocabulary m))%Z then
        resolve_name ["m"] "vocabulary";;
        logger WARNING
          "mismatch between final vocab size (%s words), and expected vocab size (%s words)"
          [LInt final; LInt (vocab_size (vocabulary m))]
      else ret tt
  | _ => raise IndexError
  end.

(** ** Loading a native binary *)

(** [s.endswith(suffix)] *)
Definition endswith (s suffix : string) : bool :=
  let n := String.length s in
  let k := String.length suffix in
  (k <=? n)%nat && String.eqb (substring (n - k) k s) suffix.

(** [file_handle.read()]: everything that remains. *)
Definition read_all : M (list byte) :=
  λ st, Ok (pending st, IO (fname st) [] (logged st)).

Section Loading.

Variable native_float_size : nat.

(** [Word2VecVocab.prepare_vocab(hs, negative, wv, update, min_count)], of
    [word2vec.py]: it moves the raw table of the vocabulary into [wv]. *)
Variable prepare_vocab :
  FastTextVocab → bool → Z → FastTextKeyedVectors → bool → Z →
  outcome (FastTextVocab * FastTextKeyedVectors).

(** [FastTextKeyedVectors.init_ngrams_post_load(file_name)] and
    [FastTextKeyedVectors.init_vectors_vocab()], of [keyedvectors.py]. *)
Variable init_ngrams_post_load :
  string → FastTextKeyedVectors → outcome FastTextKeyedVectors.
Variable init_vectors_vocab :
  FastTextKeyedVectors → outcome FastTextKeyedVectors.

(** [cls()]: a model built with the defaults of [FastText.__init__]. *)
Variable default_model : FastText.

Definition _load_model_params (self : FastText) (encoding : codec)
  : M FastText :=
  p ← _load_model_params_header;
  let hs' := (loss p =? 1)%Z in
  let sg' := (model p =? 2)%Z in
  let tr := with_tr_bucket (bucket p) (trainables self) in
  let wv0 := KeyedVectors_new (dim p) (minn p) (maxn p) (bucket p) true in
  v ← _load_vocab (new_format p) (t p) (min_count p) encoding;
  '(v, wv1) ← lift (prepare_vocab v hs' (neg p) wv0 true (min_count p));
  let final := Z.of_nat (size (vocab wv1)) in
  assert (final =? nwords v)%Z
    "mismatch between final vocab size and expected number of words";;
  (if negb (final =? vocab_size v)%Z then
     (* the arguments of the call are evaluated first; the second one
        reads the name [vocabulary] *)
     resolve_name _load_model_params_locals "vocabulary";;
     logger WARNING
       "mismatch between final vocab size (%s words), and expected vocab size (%s words)"
       [LInt final; LInt (vocab_size v)]
   else ret tt);;
  ret (Model wv1 v tr (file_name self) (new_format p) (dim p) (ws p)
         (epoch p) (neg p) hs' sg' (num_original_vectors self)).

Definition _load_vectors (self : FastText) : M FastText :=
  m ← _load_matrix native_float_size (self_new_format self)
        (Some (vector_size (wv self)));
  let self := with_wv (with_vectors_ngrams m (wv self)) self in
  let self := with_num_original_vectors (len m) self in
  let expected_shape :=
    [(tr_bucket (trainables self) + Z.of_nat (size (vocab (wv self))))%Z;
     vector_size (wv self)] in
  assert (bool_decide (Z.of_nat <$> shape m = expected_shape))
    "mismatch between actual weight matrix shape and expected shape";;
  ret self.

Definition _load_trainables (self : FastText) : M FastText :=
  wv1 ← lift (init_ngrams_post_load (file_name self) (wv self));
  let self := with_wv wv1 self in
  hidden_output ← _load_matrix native_float_size (self_new_format self)
                    (Some (vector_size (wv self)));
  rest ← read_all;
  assert (bool_decide (rest = [])) "expected to have reached EOF";;
  wv2 ← lift (init_vectors_vocab (wv self));
  let self := with_wv wv2 self in
  tr ← init_post_load (trainables self) self hidden_output;
  ret (with_trainables tr self).

(** [load_binary_data], on the content of the file [self.file_name]. *)
Definition load_binary_data (self : FastText) (encoding : codec) : M FastText :=
  self ← _load_model_params self encoding;
  self ← _load_vectors self;
  _load_trainables self.

(** [FastText.load_fasttext_format(model_file, encoding)], where [content]
    is what the file of that name holds.  The result is the model that
    the call returns, with the records it logged. *)
Definition load_fasttext_format (model_file : string) (encoding : codec)
    (content : list byte) : outcome (FastText * list log_entry) :=
  let model := default_model in
  let model_file :=
    if endswith model_file ".bin" then model_file
    else (model_file ++ ".bin")%string in
  let model := with_file_name model_file model in
  match load_binary_data model encoding (IO model_file content []) with
  | Ok (model, st) => Ok (model, logged st)
  | Raise e => Raise e
  | Diverge => Diverge
  end.

End Loading.

(** ** Online vocabulary update: [FastText.build_vocab] *)

(** The arguments of [build_vocab]. *)
Record build_args : Type := BuildArgs
  { sentences : option (list (list string));
    corpus_file : option string;
    update : bool;
    progress_per : Z;
    keep_raw_vocab : bool }.

Section BuildVocab.

(** [BaseWordEmbeddingsModel.build_vocab], of [base_any2vec.py]: what it
    raises or returns, and the model it leaves. *)
Variable base_build_vocab : FastText → build_args → outcome unit * FastText.

(** The result is what the call raises or returns, and [self] after it. *)
Definition build_vocab (self : FastText) (a : build_args)
  : outcome unit * FastText :=
  if update a then
    if (size (vocab (wv self)) =? 0)%nat then
      (Raise (RuntimeError
                "You cannot do an online vocabulary-update of a model which has no prior vocabulary. First build the vocabulary of your model with a corpus before doing an online update."),
       self)
    else
      let v := with_old_vocab_len (Z.of_nat (size (vocab (wv self))))
                 (vocabulary self) in
      let tr := with_old_hash2index_len
                  (Z.of_nat (size (hash2index (wv self)))) (trainables self) in
      base_build_vocab (with_trainables tr (with_vocabulary v self)) a
  else base_build_vocab self a.

End BuildVocab.

(** ** Vocabulary for the statements *)

(** The 32-bit integer and the 64-bit float stored at a byte offset. *)
Definition int32_at (s : list byte) (off : nat) : Z := le_sint (take 4 (drop off s)).
Definition int64_at (s : list byte) (off : nat) : Z := le_sint (take 8 (drop off s)).
Definition float64_at (s : list byte) (off : nat) : Z := le_uint (take 8 (drop off s)).


(** The record that [_load_vocab] logs. *)
Definition loading_message (vocab_size : Z) (name : string) : log_entry :=
  LogEntry INFO "loading %s words for fastText model from %s"
    [LInt vocab_size; LStr name].

(** The length of the parameter block of a file: magic, version and 12
    integers and a float, or 12 integers and a float. *)
Definition header_size (s : list byte) : nat :=
  if (int32_at s 0 =? FASTTEXT_FILEFORMAT_MAGIC)%Z then 64 else 56.

(** One entry of the vocabulary section as it lies in the file: the bytes of
    the word, the 8 bytes of the count, the trailing byte. *)
Record entry : Type := Entry
  { e_word : list byte; e_count : list byte; e_flag : byte }.

Definition entry_bytes (e : entry) : list byte :=
  e_word e ++ [x00] ++ e_count e ++ [e_flag e].

Definition entry_ok (encoding : codec) (e : entry) : Prop :=
  (x00 ∉ (e_word e)) ∧ length (e_count e) = 8 ∧ is_Some (encoding (e_word e)).

Definition entry_word (encoding : codec) (e : entry) : string :=
  default EmptyString (encoding (e_word e)).

Definition entry_count (e : entry) : Z := le_sint (e_count e).

(** [raw_vocab[word] = count] *)
Definition record_entry (encoding : codec) (raw : gmap string Z) (e : entry)
  : gmap string Z :=
  <[entry_word encoding e := entry_count e]> raw.

(** The count carried by the last entry of [es] whose word is [w]. *)
Definition last_count (encoding : codec) (es : list entry) (w : string)
  : option Z :=
  entry_count <$> last (filter (λ e, entry_word encoding e = w) es).

(** What a reader leaves: the word-to-count table and the unread bytes. *)
Definition table_and_rest {A} (table : A → gmap string Z)
    (o : outcome (A * io)) : outcome (list (string * Z) * list byte) :=
  match o with
  | Ok (a, st) => Ok (map_to_list (table a), pending st)
  | Raise e => Raise e
  | Diverge => Diverge
  end.

(** The vocabulary reader as section 4.3 of the specification words it:
    three 32-bit integers, a failure when the label count is positive, a
    discarded 64-bit integer, in the new format a 64-bit table size and
    that many skipped pairs of 32-bit integers, then one entry for each of
    the declared word count. *)
Definition read_vocabulary_spec (is_new_format : bool) (encoding : codec)
  : M (gmap string Z) :=
  hdr ← _struct_unpack "@3i";
  match hdr with
  | [PInt vocab_size; PInt word_count; PInt label_count] =>
      if (0 <? label_count)%Z then
        raise (NotImplementedError "Supervised fastText models are not supported")
      else
        _struct_unpack "@q";;
        (if is_new_format then
           p ← _struct_unpack "@q";
           match p with
           | [PInt n] => skip_pairs (Z.to_nat n)
           | _ => raise UnpackError
           end
         else ret tt);;
        load_entries encoding (Z.to_nat word_count) ∅
  | _ => raise UnpackError
  end.

(** The element type that a host float size selects. *)
Definition dtype_of_size (float_size : nat) : dtype :=
  if (float_size =? 4)%nat then float32 else float64.

(** ** Sample files and objects *)

(** The bit pattern of the double 1e-4. *)
Definition sample_t : Z := 0x3F1A36E2EB1C432D.

(** dim 4, window 5, epoch 5, min_count 1, negatives 5, loss 2, model 1,
    bucket 10, min_n 3, max_n 3. *)
Definition legacy_header : list byte :=
  i32 4 ++ i32 5 ++ i32 5 ++ i32 1 ++ i32 5 ++ i32 0 ++ i32 2 ++ i32 1 ++
  i32 10 ++ i32 3 ++ i32 3 ++ i32 0 ++ i64 sample_t.

Definition new_header : list byte :=
  i32 FASTTEXT_FILEFORMAT_MAGIC ++ i32 12 ++ legacy_header.

Definition entry_of (w : string) (c : Z) : entry :=
  Entry (list_byte_of_string w) (i64 c) x00.

(** A new-format vocabulary section laid out as fastText writes it: sizes,
    token count, one pruned-index pair announced, the entry of "a", then the
    pair. *)
Definition vocab_pairs_last : list byte :=
  i32 1 ++ i32 1 ++ i32 0 ++ i64 5 ++ i64 1 ++
  entry_bytes (entry_of "a" 5) ++ (i32 7 ++ i32 9).

(** The same section with the pair placed before the entry. *)
Definition vocab_pairs_first : list byte :=
  i32 1 ++ i32 1 ++ i32 0 ++ i64 5 ++ i64 1 ++
  (i32 7 ++ i32 9) ++ entry_bytes (entry_of "a" 5).

(** A legacy vocabulary section that declares a vocabulary size of 2 and a
    word count of 1, and holds two entries. *)
Definition vocab_two_declared : list byte :=
  i32 2 ++ i32 1 ++ i32 0 ++ i64 12 ++
  entry_bytes (entry_of "a" 5) ++ entry_bytes (entry_of "b" 7).

(** A new-format matrix of one row and two columns of 4-byte floats (1.0 and
    2.0) whose quantization flag is set. *)
Definition matrix_flagged : list byte :=
  [x01] ++ i64 1 ++ i64 2 ++ i32 0x3F800000 ++ i32 0x40000000.

(** A new-format matrix of one row and two columns of 4-byte floats (1.0 and
    2.0) whose quantization flag is clear. *)
Definition matrix_plain : list byte :=
  [x00] ++ i64 1 ++ i64 2 ++ i32 0x3F800000 ++ i32 0x40000000.

(** Modelled from the spec: [Word2VecVocab.prepare_vocab] is defined in
    [word2vec.py], which is not among the sources, and the pruning policy
    is outside the specification.  Section 7 speaks of the vocabulary
    "actually reconstructable from the raw table": here every word of the
    raw table that [wv] does not hold yet becomes an entry with the next
    free index, and a word it holds has its count increased. *)
Definition prepare_vocab_all (v : FastTextVocab) (hs : bool) (negative : Z)
    (w : FastTextKeyedVectors) (update : bool) (min_count : Z)
  : outcome (FastTextVocab * FastTextKeyedVectors) :=
  let add (acc : gmap string Vocab * list string) (wc : string * Z) :=
    let '(items, words) := acc in
    let '(word, c) := wc in
    match items !! word with
    | Some item =>
        (insert word (VocabItem (count item + c) (index item)) items, words)
    | None =>
        (insert word (VocabItem c (length words)) items, words ++ [word])
    end in
  let r := foldl add (vocab w, index2word w) (map_to_list (raw_vocab v)) in
  Ok (v, KeyedVectors (r.1) (r.2) (vector_size w) (min_n w) (max_n w)
           (wv_bucket w) (compatible_hash w) (vectors w) (vectors_vocab w)
           (vectors_ngrams w) (hash2index w)).

(** A model without vocabulary or tables. *)
Definition blank_model : FastText :=
  Model (KeyedVectors_new 100 3 6 2000000 true)
    (Vocabulary 0 5 0 0 ∅ 0)
    (Trainables 1 2000000 None None None None None 100 0)
    EmptyString true 100 5 5 5 false false 0.

(** A new-format file whose vocabulary section declares a vocabulary size of
    2 and a word count of 1 and holds the word "a" twice. *)
Definition mismatch_file : list byte :=
  new_header ++ i32 2 ++ i32 1 ++ i32 0 ++ i64 12 ++ i64 0 ++
  entry_bytes (entry_of "a" 5) ++ entry_bytes (entry_of "a" 7).

(** A new-format file of a supervised model: one label. *)
Definition supervised_file : list byte :=
  new_header ++ i32 2 ++ i32 1 ++ i32 1 ++ i64 12 ++ i64 0 ++
  entry_bytes (entry_of "a" 5) ++ entry_bytes (entry_of "__label__x" 7).

(** A legacy vocabulary section that declares a vocabulary size of 2 and a
    word count of 1, and holds the word "a" twice. *)
Definition vocab_twice : list byte :=
  i32 2 ++ i32 1 ++ i32 0 ++ i64 12 ++
  entry_bytes (entry_of "a" 5) ++ entry_bytes (entry_of "a" 7).

(** A model as [_load_trainables] hands it to [init_post_load]: one word,
    "cat", of dimension 4, with min_n = max_n = 3; its vocabulary tables
    hold one row, its n-gram table the three rows of the n-grams of
    "<cat>". *)
Definition cat_wv : FastTextKeyedVectors :=
  KeyedVectors {[ "cat"%string := VocabItem 5 0 ]} ["cat"%string] 4 3 3 10 true
    (Some (Arr2 float32 4 [[11; 12; 13; 14]%Z]))
    (Some (Arr2 float32 4 [[11; 12; 13; 14]%Z]))
    (Some (Arr2 float32 4
             [[21; 22; 23; 24]%Z; [31; 32; 33; 34]%Z; [41; 42; 43; 44]%Z]))
    {[ 2%Z := 0; 5%Z := 1; 7%Z := 2 ]}.

Definition cat_model : FastText :=
  Model cat_wv (Vocabulary sample_t 1 1 1 ∅ 0)
    (Trainables 1 10 None None None None None 100 0)
    "model.bin" true 4 5 5 5 false false 11.

Definition cat_hidden_output : ndarray := Arr2 float32 4 [[51; 52; 53; 54]%Z].

(** The same tables with masks as [init_ngrams_weights] allocates them, after
    the vocabulary has received the second word "dog". *)
Definition cat_dog_wv : FastTextKeyedVectors :=
  KeyedVectors
    {[ "cat"%string := VocabItem 5 0; "dog"%string := VocabItem 3 1 ]}
    ["cat"%string; "dog"%string] 4 3 3 10 true
    (vectors cat_wv) (vectors_vocab cat_wv) (vectors_ngrams cat_wv)
    (hash2index cat_wv).

Definition cat_trainables : FastTextTrainables :=
  Trainables 1 10 None (Some (ones2 1 4)) (Some (ones2 3 4)) None None 4 3.

Definition cat_vocabulary : FastTextVocab := Vocabulary sample_t 1 1 1 ∅ 1.

(** ** Further sample encodings and files *)

(** The encoding "ascii": bytes below 128 only. *)
Definition ascii_codec : codec :=
  λ bs, if forallb (λ b, (Byte.to_N b <? 128)%N) bs
        then Some (string_of_list_byte bs) else None.

(** A legacy vocabulary section of two entries whose second word is the
    single byte 0xE9. *)
Definition vocab_accent : list byte :=
  i32 2 ++ i32 2 ++ i32 0 ++ i64 12 ++
  entry_bytes (entry_of "a" 5) ++ [xe9; x00] ++ i64 7 ++ [x00].

(** The 4-byte floats whose bit patterns are given. *)
Definition floats (bits : list Z) : list byte := bits ≫= i32.

(** A whole new-format file: the parameter block of [new_header] (dim 4,
    bucket 10), a vocabulary of the single word "a", an input matrix of
    10 + 1 rows and an output matrix of one row. *)
Definition whole_vocab : list byte :=
  i32 1 ++ i32 1 ++ i32 0 ++ i64 5 ++ i64 0 ++ entry_bytes (entry_of "a" 5).

Definition whole_input : list byte :=
  [x00] ++ i64 11 ++ i64 4 ++ floats (Z.of_nat <$> seq 100 44).

Definition whole_output : list byte :=
  [x00] ++ i64 1 ++ i64 4 ++ floats [51; 52; 53; 54]%Z.

Definition whole_file : list byte :=
  new_header ++ whole_vocab ++ whole_input ++ whole_output.

(** The model after [_load_model_params] on [whole_file]. *)
Definition whole_wv : FastTextKeyedVectors :=
  KeyedVectors {[ "a"%string := VocabItem 5 0 ]} ["a"%string] 4 3 3 10 true
    None None None ∅.

Definition whole_model : FastText :=
  Model whole_wv (Vocabulary sample_t 1 1 1 {[ "a"%string := 5%Z ]} 0)
    (Trainables 1 10 None None None None None 100 0)
    "model.bin" true 4 5 5 5 false false 0.

(** A stand-in for [init_ngrams_post_load] and [init_vectors_vocab]: the
    vocabulary tables get one row per word. *)
Definition fill_vocab_tables (w : FastTextKeyedVectors)
  : outcome FastTextKeyedVectors :=
  let table :=
    Arr2 float32 (Z.to_nat (vector_size w))
      (replicate (size (vocab w)) (replicate (Z.to_nat (vector_size w)) 0%Z)) in
  Ok (KeyedVectors (vocab w) (index2word w) (vector_size w) (min_n w) (max_n w)
        (wv_bucket w) (compatible_hash w) (Some table) (Some table)
        (vectors_ngrams w) (hash2index w)).

(** Models that [init_post_load] refuses: one whose [wv.vectors] has no
    row, one whose vocabulary is empty. *)
Definition no_rows_model : FastText :=
  with_wv (KeyedVectors ∅ [] 4 3 3 10 true (Some (ones2 0 4)) None None ∅)
    blank_model.

Definition no_words_model : FastText :=
  with_wv (KeyedVectors ∅ [] 4 3 3 10 true (Some (ones2 2 4)) None None ∅)
    blank_model.

(** [whole_wv] with its vocabulary tables filled. *)
Definition whole_filled_wv : FastTextKeyedVectors :=
  KeyedVectors {[ "a"%string := VocabItem 5 0 ]} ["a"%string] 4 3 3 10 true
    (Some (Arr2 float32 4 [[0; 0; 0; 0]%Z]))
    (Some (Arr2 float32 4 [[0; 0; 0; 0]%Z])) None ∅.

(** [whole_model] once its tables are filled: an n-gram matrix of 11 rows
    and the output matrix as [syn1neg]. *)
Definition whole_loaded_model : FastText :=
  with_trainables
    (Trainables 1 10 None None None None (Some cat_hidden_output) 4 0)
    (with_wv (with_vectors_ngrams (ones2 11 4) whole_filled_wv) whole_model).

(** A new-format matrix that announces [2^62] rows of 4 columns and holds
    one row of 4-byte floats. *)
Definition matrix_huge : list byte :=
  [x00] ++ i64 (2 ^ 62) ++ i64 4 ++ floats [1; 2; 3; 4]%Z.

(** The value that fills the rows appended to a mask of a given element
    type: the float 1.0, widened for a mask of 8-byte floats. *)
Definition pad_value (widen : Z → Z) (d : dtype) : Z :=
  match d with float32 => one | float64 => widen one end.

(** ** Reviving a saved model: [FastText.load] *)

(** What the base class's [load] hands back: the model, with the two
    attributes that [FastText.load] reads and the records above do not
    hold, each [None] when the object lacks it. *)
Record unpickled : Type := Unpickled
  { u_model : FastText;
    u_trainables_vectors : option ndarray;   (* model.trainables.vectors *)
    u_compatible_hash : option bool }.       (* model.compatible_hash *)

(** What [FastText.load] returns: the model, its [compatible_hash] and its
    [trainables_compatible_hash], each [None] when never assigned. *)
Record revived : Type := Revived
  { r_model : FastText;
    r_compatible_hash : option bool;
    r_trainables_compatible_hash : option bool }.

Definition with_wv_compatible_hash (b : bool) (w : FastTextKeyedVectors)
  : FastTextKeyedVectors :=
  KeyedVectors (vocab w) (index2word w) (vector_size w) (min_n w) (max_n w)
    (wv_bucket w) b (vectors w) (vectors_vocab w) (vectors_ngrams w)
    (hash2index w).

(** [hasattr(obj, name)] for an attribute kept as an option. *)
Definition hasattr {A} (o : option A) : bool :=
  match o with Some _ => true | None => false end.

Section Load.

(** the base class's [load], of [utils.py], and
    [load_old_fasttext], of [deprecated/fasttext.py]. *)
Variable base_load : outcome unpickled.
Variable load_old_fasttext : outcome revived.

(** The body of the [try] block. *)
Definition load_try : M revived :=
  u ← lift base_load;
  let model := u_model u in
  tr ← (if negb (hasattr (vectors_vocab_lockf (trainables model)))
           && hasattr (vectors_vocab (wv model))
        then
          v ← lift (attr "vectors" (u_trainables_vectors u));
          ret (with_vectors_vocab_lockf (ones1 (len v)) (trainables model))
        else ret (trainables model));
  tr ← (if negb (hasattr (vectors_ngrams_lockf tr))
           && hasattr (vectors_ngrams (wv model))
        then
          v ← lift (attr "vectors" (u_trainables_vectors u));
          ret (with_vectors_ngrams_lockf (ones1 (len v)) tr)
        else ret tr);
  let model := with_trainables tr model in
  if negb (hasattr (u_compatible_hash u)) then
    logger WARNING "this older model was trained with a buggy hash function, "
      [LStr "please consider retraining"];;
    ret (Revived (with_wv (with_wv_compatible_hash false (wv model)) model)
           (Some false) (Some false))
  else ret (Revived model (u_compatible_hash u) None).

(** [FastText.load]: the [try] block, and the handler of
    [AttributeError]. *)
Definition load : M revived :=
  λ st,
    match load_try st with
    | Raise (AttributeError _) =>
        (logger INFO
           "Model saved using code from earlier Gensim Version. Re-loading old model in a compatible way."
           [];;
         lift load_old_fasttext) st
    | o => o
    end.

End Load.

(** ** The memory estimate: [FastText.estimate_memory] *)

(** The result of [estimate_memory]: the report and the records it logged,
    or the [ZeroDivisionError] of a zero bucket count. *)
Inductive estimate : Type :=
| Estimated (report : gmap string Z) (records : list log_entry)
| ZeroDivisionError.

(** What a hash function of [utils_any2vec.py] returns: a Python int, or a
    [numpy.uint32] as its pure Python version does. *)
Inductive hashed : Type :=
| PyInt (h : Z)
| Uint32 (h : Z).

Definition hash_value (h : hashed) : Z :=
  match h with
  | PyInt z => z
  | Uint32 z => z
  end.

(** [h % bucket].  By zero a Python int raises [ZeroDivisionError]; a numpy
    integer gives 0, with a warning of the [warnings] module, which is not
    a record of the logger. *)
Definition remainder (h : hashed) (bucket : Z) : option Z :=
  if (bucket =? 0)%Z then
    match h with
    | PyInt _ => None
    | Uint32 _ => Some 0%Z
    end
  else Some (hash_value h `mod` bucket)%Z.

Section EstimateMemory.

(** [_compute_ngrams(word, min_n, max_n)], [_ft_hash] and [_ft_hash_broken],
    of [utils_any2vec.py]. *)
Variable _compute_ngrams : string → Z → Z → list string.
Variable _ft_hash : string → hashed.
Variable _ft_hash_broken : string → hashed.

(** [buckets.update(hash_fn(ng) % bucket for ng in ngrams)]: a remainder is
    taken, and may fail, for each n-gram. *)
Definition update_buckets (hash_fn : string → hashed) (bucket : Z)
    (buckets : gset Z) (ngrams : list string) : option (gset Z) :=
  match mapM (λ ng, remainder (hash_fn ng) bucket) ngrams with
  | Some found => Some (buckets ∪ list_to_set found)
  | None => None
  end.

(** The loop [for word in self.wv.vocab] over the words that remain, with
    the set of buckets and the number of n-grams so far. *)
Fixpoint scan_words (hash_fn : string → hashed) (min_n max_n bucket : Z)
    (words : list string) (buckets : gset Z) (num_ngrams : Z)
  : option (gset Z * Z) :=
  match words with
  | [] => Some (buckets, num_ngrams)
  | word :: words' =>
      let ngrams := _compute_ngrams word min_n max_n in
      match update_buckets hash_fn bucket buckets ngrams with
      | None => None
      | Some buckets' =>
          scan_words hash_fn min_n max_n bucket words' buckets'
            (num_ngrams + Z.of_nat (length ngrams))
      end
  end.

(** [sum(report.values())] *)
Definition sum_values (report : gmap string Z) : Z :=
  map_fold (λ _ v acc, v + acc)%Z 0%Z report.

(** [estimate_memory(vocab_size, report)]; [word_ngrams] and
    [compatible_hash] are the attributes of [self] of these names, and an
    omitted [report] is the empty one. *)
Definition estimate_memory (self : FastText) (word_ngrams : Z)
    (compatible_hash : bool) (vocab_size : option Z) (report : gmap string Z)
  : estimate :=
  let hash_fn := if compatible_hash then _ft_hash else _ft_hash_broken in
  let words := Z.of_nat (size (vocab (wv self))) in
  let vec_size := (self_vector_size self * 4)%Z in
  let l1_size := (layer1_size (trainables self) * 4)%Z in
  let report := <["vocab"%string := (words * (if hs self then 700 else 500))%Z]> report in
  let report := <["syn0_vocab"%string := (words * vec_size)%Z]> report in
  let num_buckets := tr_bucket (trainables self) in
  let report := if hs self then <["syn1"%string := (words * l1_size)%Z]> report
                else report in
  let report := if negb (negative self =? 0)%Z
                then <["syn1neg"%string := (words * l1_size)%Z]> report
                else report in
  let finish (report : gmap string Z) (num_buckets : Z) (records : list log_entry) :=
    let report := <["total"%string := sum_values report]> report in
    Estimated report
      (records ++
       [LogEntry INFO
          "estimated required memory for %i words, %i buckets and %i dimensions: %i bytes"
          [LInt words; LInt num_buckets; LInt (self_vector_size self);
           LInt (default 0%Z (report !! "total"%string))]]) in
  if (0 <? word_ngrams)%Z && negb (size (vocab (wv self)) =? 0)%nat then
    match scan_words hash_fn (min_n (wv self)) (max_n (wv self))
            (tr_bucket (trainables self))
            (map_to_list (vocab (wv self))).*1 ∅ 0%Z with
    | None => ZeroDivisionError
    | Some (buckets, num_ngrams) =>
        let num_buckets := Z.of_nat (size buckets) in
        let report := <["syn0_ngrams"%string := (num_buckets * vec_size)%Z]> report in
        let report := <["buckets_word"%string := (48 * words + 8 * num_ngrams)%Z]> report in
        finish report num_buckets []
    end
  else if (0 <? word_ngrams)%Z then
    finish report num_buckets
      [LogEntry WARNING
         "subword information is enabled, but no vocabulary could be found, estimated required memory might be inaccurate!"
         []]
  else finish report num_buckets [].

End EstimateMemory.

(** A pickle of [cat_model] from a version that stored no mask and no
    [compatible_hash]: its trainables carry a [vectors] array of 7 rows. *)
Definition old_pickle : unpickled :=
  Unpickled cat_model (Some (ones2 7 4)) None.

(** The same pickle without [trainables.vectors]. *)
Definition older_pickle : unpickled := Unpickled cat_model None None.

(** A pickle of a current model. *)
Definition current_pickle : unpickled :=
  Unpickled (with_trainables cat_trainables cat_model) None (Some true).

(** A stand-in for the n-grams of a word: its one-character substrings. *)
Definition letters (word : string) (min_n max_n : Z) : list string :=
  (λ b, string_of_list_byte [b]) <$> list_byte_of_string word.

(** A stand-in for the hash of an n-gram: the code of its first byte, as a
    [numpy.uint32] and as a Python int. *)
Definition first_byte (ng : string) : hashed :=
  match list_byte_of_string ng with
  | b :: _ => Uint32 (Z.of_N (Byte.to_N b))
  | [] => Uint32 0
  end.

Definition first_byte_int (ng : string) : hashed :=
  PyInt (hash_value (first_byte ng)).

(** [cat_model] with a bucket count of zero. *)
Definition cat_model_no_bucket : FastText :=
  with_trainables (with_tr_bucket 0 (trainables cat_model)) cat_model.
(** * Properties *)

(** ** Reading fixed-size records *)

Lemma slice_of_prefix {A} (l : list A) (n o m : nat) :
  o + n ≤ m → take n (drop o (take m l)) = take n (drop o l).
Proof.
  intros Hle. rewrite skipn_firstn_comm, take_take. f_equal. lia.
Qed.

Lemma struct_unpack_ok (fmt : string) (cs : list code) (st : io) :
  parse_fmt fmt = Some cs →
  calcsize cs ≤ length (pending st) →
  _struct_unpack fmt st
  = Ok (unpack cs (take (calcsize cs) (pending st)),
        IO (fname st) (drop (calcsize cs) (pending st)) (logged st)).
Proof.
  intros Hfmt Hlen. unfold _struct_unpack. rewrite Hfmt.
  unfold mbind, M_bind, bind, read. cbv zeta.
  rewrite length_take_le by exact Hlen. by rewrite Nat.eqb_refl.
Qed.

Lemma struct_unpack_short (fmt : string) (cs : list code) (st : io) :
  parse_fmt fmt = Some cs →
  length (pending st) < calcsize cs →
  _struct_unpack fmt st = Raise StructError.
Proof.
  intros Hfmt Hlen. unfold _struct_unpack. rewrite Hfmt.
  unfold mbind, M_bind, bind, read. cbv zeta.
  rewrite length_take_ge by lia.
  by destruct (Nat.eqb_spec (length (pending st)) (calcsize cs)); [lia |].
Qed.

(** Rewrites a field of a record that was cut out of the stream into a
    field of the stream. *)
Ltac fields_of_stream :=
  unfold field; cbn [fst snd sizeof decode];
  repeat rewrite slice_of_prefix by lia;
  repeat rewrite drop_drop;
  cbn [Nat.add].

(** ** The parameter block *)

Lemma header_new_format (st : io) :
  let s := pending st in
  int32_at s 0 = FASTTEXT_FILEFORMAT_MAGIC → 64 ≤ length s →
  _load_model_params_header st
  = Ok (ModelParams true
          (int32_at s 8) (int32_at s 12) (int32_at s 16) (int32_at s 20)
          (int32_at s 24) (int32_at s 32) (int32_at s 36) (int32_at s 40)
          (int32_at s 44) (int32_at s 48) (float64_at s 56),
        IO (fname st) (drop 64 s) (logged st)).
Proof.
  intros s. unfold int32_at, float64_at. subst s. intros Hmagic Hlen.
  unfold _load_model_params_header, mbind, M_bind, bind.
  rewrite (struct_unpack_ok "@2i" [c_i; c_i]) by (done || (cbn; lia)).
  change (unpack [c_i; c_i]) with
    (λ bs, [field bs (0, c_i); field bs (4, c_i)]).
  change (calcsize [c_i; c_i]) with 8. fields_of_stream.
  rewrite Hmagic. cbn [Z.eqb Pos.eqb FASTTEXT_FILEFORMAT_MAGIC].
  rewrite (struct_unpack_ok "@12i1d" (replicate 12 c_i ++ [c_d]))
    by (done || (cbn [pending]; rewrite length_drop; cbn; lia)).
  cbn [pending fname logged].
  change (calcsize (replicate 12 c_i ++ [c_d])) with 56.
  change (unpack (replicate 12 c_i ++ [c_d])) with
    (λ bs, map (field bs)
             [(0, c_i); (4, c_i); (8, c_i); (12, c_i); (16, c_i); (20, c_i);
              (24, c_i); (28, c_i); (32, c_i); (36, c_i); (40, c_i);
              (44, c_i); (48, c_d)]).
  cbn [map]. fields_of_stream. reflexivity.
Qed.

Lemma header_legacy_format (st : io) :
  let s := pending st in
  int32_at s 0 ≠ FASTTEXT_FILEFORMAT_MAGIC → 56 ≤ length s →
  _load_model_params_header st
  = Ok (ModelParams false
          (int32_at s 0) (int32_at s 4) (int32_at s 8) (int32_at s 12)
          (int32_at s 16) (int32_at s 24) (int32_at s 28) (int32_at s 32)
          (int32_at s 36) (int32_at s 40) (float64_at s 48),
        IO (fname st) (drop 56 s) (logged st)).
Proof.
  intros s. unfold int32_at, float64_at. subst s. intros Hmagic Hlen.
  unfold _load_model_params_header, mbind, M_bind, bind.
  rewrite (struct_unpack_ok "@2i" [c_i; c_i]) by (done || (cbn; lia)).
  change (unpack [c_i; c_i]) with
    (λ bs, [field bs (0, c_i); field bs (4, c_i)]).
  change (calcsize [c_i; c_i]) with 8. fields_of_stream.
  apply Z.eqb_neq in Hmagic. rewrite Hmagic.
  rewrite (struct_unpack_ok "@10i1d" (replicate 10 c_i ++ [c_d]))
    by (done || (cbn [pending]; rewrite length_drop; cbn; lia)).
  cbn [pending fname logged].
  change (calcsize (replicate 10 c_i ++ [c_d])) with 48.
  change (unpack (replicate 10 c_i ++ [c_d])) with
    (λ bs, map (field bs)
             [(0, c_i); (4, c_i); (8, c_i); (12, c_i); (16, c_i); (20, c_i);
              (24, c_i); (28, c_i); (32, c_i); (36, c_i); (40, c_d)]).
  cbn [map]. fields_of_stream. reflexivity.
Qed.

(** Whatever the format, a file that holds a whole parameter block yields
    parameters and leaves the handle right after the block. *)
Lemma header_consumed (st : io) :
  header_size (pending st) ≤ length (pending st) →
  ∃ p, _load_model_params_header st
       = Ok (p, IO (fname st) (drop (header_size (pending st)) (pending st))
                  (logged st))
       ∧ new_format p
         = (int32_at (pending st) 0 =? FASTTEXT_FILEFORMAT_MAGIC)%Z.
Proof.
  unfold header_size.
  destruct (Z.eqb_spec (int32_at (pending st) 0) FASTTEXT_FILEFORMAT_MAGIC)
    as [Hm | Hm]; intros Hlen.
  - eexists. split; [by apply header_new_format | done].
  - eexists. split; [by apply header_legacy_format | done].
Qed.

(** C1. [_load_model_params] first reads two 32-bit integers.  When the
    first is the magic constant 793712314 the file has the new format: the
    second integer is the version, and 12 more 32-bit integers and a 64-bit
    float follow, read as dim, window, epoch, min_count, negatives, unused,
    loss, model type, bucket, min_n, max_n, unused, sampling threshold.
    Otherwise the file has the legacy format: the two integers are dim and
    window, and 10 more 32-bit integers and a 64-bit float follow in the
    same order. *)
Theorem load_model_params_header_layout (st : io) :
  let s := pending st in
  (int32_at s 0 = FASTTEXT_FILEFORMAT_MAGIC → 64 ≤ length s →
   _load_model_params_header st
   = Ok (ModelParams true
           (int32_at s 8) (int32_at s 12) (int32_at s 16) (int32_at s 20)
           (int32_at s 24) (int32_at s 32) (int32_at s 36) (int32_at s 40)
           (int32_at s 44) (int32_at s 48) (float64_at s 56),
         IO (fname st) (drop 64 s) (logged st)))
  ∧
  (int32_at s 0 ≠ FASTTEXT_FILEFORMAT_MAGIC → 56 ≤ length s →
   _load_model_params_header st
   = Ok (ModelParams false
           (int32_at s 0) (int32_at s 4) (int32_at s 8) (int32_at s 12)
           (int32_at s 16) (int32_at s 24) (int32_at s 28) (int32_at s 32)
           (int32_at s 36) (int32_at s 40) (float64_at s 48),
         IO (fname st) (drop 56 s) (logged st))).
Proof.
  split; [apply header_new_format | apply header_legacy_format].
Qed.

Lemma load_model_params_header_layout_witness :
  _load_model_params_header (on_file new_header)
  = Ok (ModelParams true 4 5 5 1 5 2 1 10 3 3 sample_t, IO "model.bin" [] [])
  ∧ _load_model_params_header (on_file legacy_header)
    = Ok (ModelParams false 4 5 5 1 5 2 1 10 3 3 sample_t, IO "model.bin" [] []).
Proof.
  split.
  - etransitivity.
    + apply (proj1 (load_model_params_header_layout (on_file new_header)));
        [vm_compute; reflexivity | vm_compute; lia].
    + vm_compute; reflexivity.
  - etransitivity.
    + apply (proj2 (load_model_params_header_layout (on_file legacy_header)));
        [vm_compute; discriminate | vm_compute; lia].
    + vm_compute; reflexivity.
Defined.

(** ** The vocabulary section *)

Lemma struct_unpack_prefix (fmt : string) (cs : list code) (name : string)
    (bs rest : list byte) (lg : list log_entry) :
  parse_fmt fmt = Some cs →
  length bs = calcsize cs →
  _struct_unpack fmt (IO name (bs ++ rest) lg) = Ok (unpack cs bs, IO name rest lg).
Proof.
  intros Hfmt Hlen.
  rewrite (struct_unpack_ok fmt cs) by (done || (cbn; rewrite length_app; lia)).
  cbn [pending fname logged]. rewrite <- Hlen.
  by rewrite take_app_length, drop_app_length.
Qed.

Lemma read_word_from_ok (w acc rest : list byte) :
  x00 ∉ w → read_word_from (w ++ x00 :: rest) acc = Ok (acc ++ w, rest).
Proof.
  revert acc. induction w as [| b w IH]; intros acc Hnul; cbn.
  - by rewrite app_nil_r.
  - apply not_elem_of_cons in Hnul as [Hb Hw].
    destruct (Byte.eqb b x00) eqn:Heq.
    + apply Byte.byte_dec_bl in Heq. congruence.
    + rewrite IH by done. by rewrite <- app_assoc.
Qed.

(** Without a terminating zero byte the word loop never exits. *)
Lemma read_word_from_diverges (w acc : list byte) :
  x00 ∉ w → read_word_from w acc = Diverge.
Proof.
  revert acc. induction w as [| b w IH]; intros acc Hnul; cbn; [done |].
  apply not_elem_of_cons in Hnul as [Hb Hw].
  destruct (Byte.eqb b x00) eqn:Heq; [| by apply IH].
  apply Byte.byte_dec_bl in Heq. congruence.
Qed.

Lemma load_entries_ok (enc : codec) (es : list entry) (raw : gmap string Z)
    (name : string) (rest : list byte) (lg : list log_entry) :
  Forall (entry_ok enc) es →
  load_entries enc (length es) raw
    (IO name (concat (entry_bytes <$> es) ++ rest) lg)
  = Ok (foldl (record_entry enc) raw es, IO name rest lg).
Proof.
  revert raw. induction es as [| e es IH]; intros raw Hok; [done |].
  apply Forall_cons in Hok as [(Hnul & Hcnt & [w Hw]) Hes].
  cbn [length load_entries fmap list_fmap concat foldl].
  unfold mbind at 1, M_bind at 1, bind at 1, read_word at 1.
  cbn [pending fname logged]. unfold entry_bytes at 1.
  rewrite <- !app_assoc. cbn [app].
  rewrite read_word_from_ok by done. cbn [app]. rewrite Hw.
  unfold mbind, M_bind, bind.
  replace (e_count e ++ e_flag e :: concat (entry_bytes <$> es) ++ rest)
    with ((e_count e ++ [e_flag e]) ++ concat (entry_bytes <$> es) ++ rest)
    by (by rewrite <- app_assoc).
  rewrite (struct_unpack_prefix "@qb" [c_q; c_b])
    by (done || (rewrite length_app, Hcnt; done)).
  change (unpack [c_q; c_b]) with
    (λ bs, [field bs (0, c_q); field bs (8, c_b)]).
  cbn beta. unfold field at 1. cbn [fst snd sizeof decode drop].
  rewrite drop_0, <- Hcnt, take_app_length.
  rewrite IH by done.
  replace (record_entry enc raw e) with (<[w := le_sint (e_count e)]> raw);
    [done |].
  unfold record_entry, entry_word, entry_count. by rewrite Hw.
Qed.

Lemma skip_pairs_ok (k : nat) (name : string) (pairs rest : list byte)
    (lg : list log_entry) :
  length pairs = 8 * k →
  skip_pairs k (IO name (pairs ++ rest) lg) = Ok (tt, IO name rest lg).
Proof.
  revert pairs. induction k as [| k IH]; intros pairs Hlen.
  - by destruct pairs.
  - cbn [skip_pairs]. unfold mbind, M_bind, bind.
    rewrite <- (take_drop 8 pairs), <- app_assoc.
    rewrite (struct_unpack_prefix "@2i" [c_i; c_i])
      by (done || (rewrite length_take; change (calcsize [c_i; c_i]) with 8; lia)).
    apply IH. rewrite length_drop. lia.
Qed.

(** The three integers that open the section. *)
Lemma load_vocab_sizes (st : io) :
  12 ≤ length (pending st) →
  _struct_unpack "@3i" st
  = Ok ([PInt (int32_at (pending st) 0); PInt (int32_at (pending st) 4);
         PInt (int32_at (pending st) 8)],
        IO (fname st) (drop 12 (pending st)) (logged st)).
Proof.
  intros Hlen.
  rewrite (struct_unpack_ok "@3i" [c_i; c_i; c_i]) by done.
  change (calcsize [c_i; c_i; c_i]) with 12.
  change (unpack [c_i; c_i; c_i]) with
    (λ bs, [field bs (0, c_i); field bs (4, c_i); field bs (8, c_i)]).
  cbn beta. fields_of_stream. reflexivity.
Qed.

Lemma load_vocab_supervised (new_format : bool) (sample min_count : Z)
    (enc : codec) (st : io) :
  12 ≤ length (pending st) →
  (0 < int32_at (pending st) 8)%Z →
  _load_vocab new_format sample min_count enc st
  = Raise (NotImplementedError "Supervised fastText models are not supported").
Proof.
  intros Hlen Hlabels. unfold _load_vocab, mbind at 1, M_bind at 1, bind at 1.
  rewrite load_vocab_sizes by done.
  apply Z.ltb_lt in Hlabels. by rewrite Hlabels.
Qed.

(** A section laid out as sizes, token count, (new format) table size,
    entries, (new format) pairs is read to its end. *)
Lemma load_vocab_ok (new_format : bool) (sample min_count : Z) (enc : codec)
    (name : string) (lg : list log_entry)
    (hdr tok pr : list byte) (es : list entry) (pairs rest : list byte) :
  length hdr = 12 → length tok = 8 → length pr = 8 →
  (int32_at hdr 8 ≤ 0)%Z →
  Z.to_nat (int32_at hdr 0) = length es →
  Forall (entry_ok enc) es →
  length pairs = 8 * Z.to_nat (le_sint pr) →
  _load_vocab new_format sample min_count enc
    (IO name
       (hdr ++ tok ++ (if new_format then pr else []) ++
        concat (entry_bytes <$> es) ++
        (if new_format then pairs else []) ++ rest) lg)
  = Ok (Vocabulary sample min_count (int32_at hdr 0) (int32_at hdr 4)
          (foldl (record_entry enc) ∅ es) 0,
        IO name rest (lg ++ [loading_message (int32_at hdr 0) name])).
Proof.
  intros Hhdr Htok Hpr Hlabels Hsize Hes Hpairs.
  unfold _load_vocab, mbind at 1, M_bind at 1, bind at 1.
  rewrite (struct_unpack_prefix "@3i" [c_i; c_i; c_i]) by done.
  change (unpack [c_i; c_i; c_i]) with
    (λ bs, [field bs (0, c_i); field bs (4, c_i); field bs (8, c_i)]).
  cbn beta. unfold field. cbn [fst snd sizeof decode].
  fold (int32_at hdr 0) (int32_at hdr 4) (int32_at hdr 8).
  apply Z.ltb_ge in Hlabels. rewrite Hlabels.
  unfold mbind, M_bind, bind, handle_name, logger. cbn [pending fname logged].
  rewrite (struct_unpack_prefix "@1q" [c_q]) by done.
  destruct new_format.
  - rewrite (struct_unpack_prefix "@q" [c_q]) by done.
    change (unpack [c_q] pr) with [field pr (0, c_q)].
    unfold field. cbn [fst snd sizeof decode drop].
    rewrite <- Hpr at 1. rewrite firstn_all. unfold ret.
    rewrite Hsize, load_entries_ok by done.
    by rewrite skip_pairs_ok.
  - unfold ret. cbn [app]. by rewrite Hsize, load_entries_ok.
Qed.

(** C9. [_load_vocab] reads three 32-bit integers, the declared vocabulary
    size, the word count and the label count, and raises
    [NotImplementedError] whenever the label count is greater than zero.
    The exception leaves [load_fasttext_format]: the load is aborted and no
    model is returned. *)
Theorem supervised_model_aborts_load (native_float_size : nat)
    (prepare_vocab :
       FastTextVocab → bool → Z → FastTextKeyedVectors → bool → Z →
       outcome (FastTextVocab * FastTextKeyedVectors))
    (init_ngrams_post_load :
       string → FastTextKeyedVectors → outcome FastTextKeyedVectors)
    (init_vectors_vocab : FastTextKeyedVectors → outcome FastTextKeyedVectors)
    (default_model : FastText) (model_file : string) (enc : codec)
    (content : list byte) :
  let h := header_size content in
  let section := drop h content in
  h + 12 ≤ length content →
  (0 < int32_at section 8)%Z →
  (∀ new_format sample min_count name lg,
     _load_vocab new_format sample min_count enc (IO name section lg)
     = Raise (NotImplementedError "Supervised fastText models are not supported"))
  ∧ load_fasttext_format native_float_size prepare_vocab init_ngrams_post_load
      init_vectors_vocab default_model model_file enc content
    = Raise (NotImplementedError "Supervised fastText models are not supported").
Proof.
  intros h section Hlen Hlabels.
  assert (Hsec : 12 ≤ length section)
    by (unfold section; rewrite length_drop; lia).
  split.
  - intros. by apply load_vocab_supervised.
  - unfold load_fasttext_format, load_binary_data.
    unfold mbind at 1, M_bind at 1, bind at 1.
    unfold _load_model_params, mbind at 1, M_bind at 1, bind at 1.
    match goal with
    | |- context [_load_model_params_header ?st] =>
        destruct (header_consumed st) as (p & -> & _); [cbn; fold h; lia |]
    end.
    cbn [pending fname logged]. fold h. fold section.
    unfold mbind at 1, M_bind at 1, bind at 1.
    by rewrite load_vocab_supervised.
Qed.

Lemma supervised_model_aborts_load_witness :
  load_fasttext_format 4 prepare_vocab_all (λ _ w, Ok w) (λ w, Ok w)
    blank_model "model" latin1 supervised_file
  = Raise (NotImplementedError "Supervised fastText models are not supported").
Proof.
  apply (supervised_model_aborts_load 4 prepare_vocab_all (λ _ w, Ok w)
           (λ w, Ok w) blank_model "model" latin1 supervised_file).
  - vm_compute. lia.
  - vm_compute. reflexivity.
Defined.

(** ** Online update of an empty vocabulary *)

(** C10. [build_vocab] with [update=True] on a model whose vocabulary is
    empty always raises [RuntimeError], and the model, its vocabulary and
    its tables are what they were before the call. *)
Theorem build_vocab_update_needs_vocabulary
    (base_build_vocab : FastText → build_args → outcome unit * FastText)
    (self : FastText) (a : build_args) :
  update a = true →
  size (vocab (wv self)) = 0 →
  ∃ msg, build_vocab base_build_vocab self a = (Raise (RuntimeError msg), self).
Proof.
  intros Hupdate Hempty. unfold build_vocab. rewrite Hupdate, Hempty.
  by eexists.
Qed.

Lemma build_vocab_update_needs_vocabulary_witness :
  ∃ msg,
    build_vocab (λ self _, (Ok tt, self)) blank_model
      (BuildArgs (Some [["dude"; "say"; "wazzup!"]]) None true 10000 false)
    = (Raise (RuntimeError msg), blank_model).
Proof.
  apply (build_vocab_update_needs_vocabulary (λ self _, (Ok tt, self))
           blank_model
           (BuildArgs (Some [["dude"; "say"; "wazzup!"]]) None true 10000 false)).
  - reflexivity.
  - vm_compute. reflexivity.
Defined.

(** ** Matrices *)

(** C8, as the code has it.  On a new-format read [_load_matrix] consumes
    exactly one byte, the quantization flag, before the row and column
    counts, and ignores its value: whatever the flag, the read goes on as a
    legacy read of the bytes after it. *)
Theorem load_matrix_ignores_quant_flag (native_float_size : nat)
    (expected_vector_size : option Z) (flag : byte) (name : string)
    (rest : list byte) (lg : list log_entry) :
  _load_matrix native_float_size true expected_vector_size
    (IO name (flag :: rest) lg)
  = _load_matrix native_float_size false expected_vector_size (IO name rest lg).
Proof.
  unfold _load_matrix, mbind, M_bind.
  unfold bind at 1.
  rewrite (struct_unpack_prefix "@?" [c_bool] name [flag] rest) by done.
  reflexivity.
Qed.

(** C8 as stated fails: a new-format matrix whose flag says "quantized" is
    read as an ordinary matrix, without any error. *)
Lemma load_matrix_quant_flag_counterexample :
  _load_matrix 4 true None (on_file matrix_flagged)
  = Ok (Arr2 float32 2 [[0x3F800000; 0x40000000]%Z], IO "model.bin" [] []).
Proof. vm_compute. reflexivity. Qed.

Lemma length_chunks {A} (r c : nat) (l : list A) : length (chunks r c l) = r.
Proof. revert l. induction r as [| r IH]; intros l; cbn; [done | by rewrite IH]. Qed.

(** The flag (new format) and the two counts that open a matrix. *)
Lemma load_matrix_counts (new_format : bool) (st : io) :
  let s := pending st in
  let o := if new_format then 1 else 0 in
  o + 16 ≤ length s →
  ((if new_format then _struct_unpack "@?" else ret []);; _struct_unpack "@2q") st
  = Ok ([PInt (int64_at s o); PInt (int64_at s (o + 8))],
        IO (fname st) (drop (o + 16) s) (logged st)).
Proof.
  intros s o Hlen. subst s o. unfold mbind, M_bind, bind, int64_at.
  destruct new_format.
  - rewrite (struct_unpack_ok "@?" [c_bool]) by (done || (cbn; lia)).
    rewrite (struct_unpack_ok "@2q" [c_q; c_q])
      by (done || (cbn [pending]; rewrite length_drop; cbn; lia)).
    cbn [pending fname logged].
    change (calcsize [c_bool]) with 1. change (calcsize [c_q; c_q]) with 16.
    change (unpack [c_q; c_q]) with
      (λ bs, [field bs (0, c_q); field bs (8, c_q)]).
    cbn beta. fields_of_stream. reflexivity.
  - unfold ret. rewrite (struct_unpack_ok "@2q" [c_q; c_q]) by (done || (cbn; lia)).
    change (calcsize [c_q; c_q]) with 16.
    change (unpack [c_q; c_q]) with
      (λ bs, [field bs (0, c_q); field bs (8, c_q)]).
    cbn beta. fields_of_stream. reflexivity.
Qed.

(** C5, as the code has it.  [_load_matrix] takes the float width from the
    host that reads the file ([struct.calcsize('@f')]), not from the file.
    Once the counts are read and the column count is the expected one, it
    raises [ValueError] whenever that width is neither 4 nor 8; with a width
    of 4 (the usual one) it reads 4-byte floats, with a width of 8 it reads
    8-byte floats, row after row. *)
Theorem load_matrix_float_width (native_float_size : nat) (new_format : bool)
    (expected_vector_size : option Z) (st : io) :
  let s := pending st in
  let o := if new_format then 1 else 0 in
  let num_vectors := int64_at s o in
  let dim := int64_at s (o + 8) in
  let count := Z.to_nat (num_vectors * dim) in
  o + 16 ≤ length s →
  expected_vector_size = None ∨ expected_vector_size = Some dim →
  (native_float_size ≠ 4 → native_float_size ≠ 8 →
   _load_matrix native_float_size new_format expected_vector_size st
   = Raise (ValueError "Incompatible float size"))
  ∧
  (native_float_size = 4 ∨ native_float_size = 8 →
   (0 ≤ num_vectors)%Z → (0 ≤ dim)%Z →
   o + 16 + count * native_float_size ≤ length s →
   _load_matrix native_float_size new_format expected_vector_size st
   = Ok (Arr2 (dtype_of_size native_float_size) (Z.to_nat dim)
           (chunks (Z.to_nat num_vectors) (Z.to_nat dim)
              (map le_uint (chunks count native_float_size (drop (o + 16) s)))),
         IO (fname st) (drop (o + 16 + count * native_float_size) s)
           (logged st))).
Proof.
  intros s o num_vectors dim count Hlen Hexp.
  assert (Hassert :
    assert (match expected_vector_size with
            | None => true
            | Some e => (e =? dim)%Z
            end)
      "mismatch between vector size in model params and model vectors"
    = ret tt).
  { destruct Hexp as [-> | ->]; [done |]. by rewrite Z.eqb_refl. }
  pose proof (load_matrix_counts new_format st Hlen) as Hcounts.
  cbv zeta in Hcounts. fold s o num_vectors dim in Hcounts.
  unfold mbind, M_bind in Hcounts.
  split.
  - intros H4 H8. unfold _load_matrix, mbind, M_bind.
    unfold bind at 1. unfold bind at 1 in Hcounts.
    destruct (if new_format then _struct_unpack "@?" else ret []) as [[a st1] | |];
      try discriminate.
    cbn beta iota. unfold bind at 1.
    rewrite Hcounts. fold dim. rewrite Hassert.
    apply Nat.eqb_neq in H4, H8. unfold bind, ret. by rewrite H4, H8.
  - intros Hsize Hrows Hcols Hdata. unfold _load_matrix, mbind, M_bind.
    unfold bind at 1. unfold bind at 1 in Hcounts.
    destruct (if new_format then _struct_unpack "@?" else ret []) as [[a st1] | |];
      try discriminate.
    cbn beta iota. unfold bind at 1.
    rewrite Hcounts. fold dim. rewrite Hassert.
    assert (Hitem : itemsize (dtype_of_size native_float_size) = native_float_size)
      by (by destruct Hsize as [-> | ->]).
    assert (Hdtype :
      (if (native_float_size =? 4)%nat then ret float32
       else if (native_float_size =? 8)%nat then ret float64
       else raise (ValueError "Incompatible float size"))
      = (ret (dtype_of_size native_float_size) : M dtype))
      by (by destruct Hsize as [-> | ->]).
    unfold bind at 1. unfold ret at 1. unfold bind at 1. rewrite Hdtype.
    unfold ret at 1. unfold bind at 1, np_fromfile. cbn [pending fname logged].
    rewrite Hitem.
    assert (Hnonneg : (0 ≤ num_vectors * dim)%Z) by lia.
    assert (Havail :
      count ≤ length (drop (o + 16) s) `div` native_float_size).
    { apply Nat.div_le_lower_bound; [lia |]. rewrite length_drop. lia. }
    replace (Z.of_nat (length (drop (o + 16) s) `div` native_float_size)
             <? num_vectors * dim)%Z
      with false by (symmetry; apply Z.ltb_ge; unfold count in Havail; lia).
    replace (num_vectors * dim <? - 2 ^ 63)%Z with false
      by (symmetry; apply Z.ltb_ge; lia).
    rewrite andb_false_r. cbn [orb].
    apply Z.ltb_ge in Hnonneg as Hltb. rewrite Hltb.
    replace (Z.to_nat (Z.min (num_vectors * dim)
               (Z.of_nat (length (drop (o + 16) s) `div` native_float_size))))
      with count by (unfold count; lia).
    unfold reshape. rewrite length_map, length_chunks.
    assert (Hr : (0 <=? num_vectors)%Z = true) by (by apply Z.leb_le).
    assert (Hc : (0 <=? dim)%Z = true) by (by apply Z.leb_le).
    rewrite Hr, Hc. cbn [andb].
    replace (num_vectors * dim =? Z.of_nat count)%Z with true
      by (symmetry; apply Z.eqb_eq; unfold count; lia).
    unfold ret. by rewrite drop_drop.
Qed.

Lemma load_matrix_float_width_witness :
  _load_matrix 2 true None (on_file matrix_plain)
  = Raise (ValueError "Incompatible float size")
  ∧ _load_matrix 4 true None (on_file matrix_plain)
    = Ok (Arr2 float32 2 [[0x3F800000; 0x40000000]%Z], IO "model.bin" [] []).
Proof.
  split.
  - apply (proj1 (load_matrix_float_width 2 true None (on_file matrix_plain)
                    ltac:(vm_compute; lia) (or_introl eq_refl))); lia.
  - etransitivity.
    + apply (proj2 (load_matrix_float_width 4 true None (on_file matrix_plain)
                      ltac:(vm_compute; lia) (or_introl eq_refl)));
        [by left | vm_compute; discriminate | vm_compute; discriminate
        | vm_compute; lia].
    + vm_compute. reflexivity.
Defined.

(** C5 as stated fails: one and the same file is read as a matrix of 4-byte
    floats on a host whose float has 4 bytes, as 8-byte floats (too few of
    them) on a host whose float has 8 bytes, and is refused for its float
    width on a host whose float has 2 bytes.  No field of the file decides
    the width. *)
Lemma load_matrix_float_width_counterexample :
  _load_matrix 4 true None (on_file matrix_plain)
  = Ok (Arr2 float32 2 [[0x3F800000; 0x40000000]%Z], IO "model.bin" [] [])
  ∧ _load_matrix 8 true None (on_file matrix_plain)
    = Raise (ValueError "cannot reshape array")
  ∧ _load_matrix 2 true None (on_file matrix_plain)
    = Raise (ValueError "Incompatible float size").
Proof. vm_compute. done. Qed.

(** ** Entries of the vocabulary section *)

Lemma foldl_record_lookup (enc : codec) (es : list entry)
    (raw : gmap string Z) (w : string) :
  foldl (record_entry enc) raw es !! w
  = match last_count enc es w with
    | Some c => Some c
    | None => raw !! w
    end.
Proof.
  unfold last_count. induction es as [| e es IH] using rev_ind; [done |].
  rewrite foldl_app, filter_app. cbn [foldl]. unfold record_entry at 1.
  destruct (decide (entry_word enc e = w)) as [Heq | Hne].
  - rewrite filter_cons_True, filter_nil by done.
    rewrite last_snoc. cbn. rewrite <- Heq. apply lookup_insert_eq.
  - rewrite filter_cons_False, filter_nil, app_nil_r by done.
    by rewrite lookup_insert_ne.
Qed.

(** C4, as the code has it.  In the new format [_load_vocab] reads the
    64-bit size of the pruned-index table, then the entries of the words,
    and only after the entries skips that many pairs of 32-bit integers:
    the layout it reads is sizes, token count, table size, entries,
    pairs. *)
Theorem load_vocab_pairs_follow_entries (sample min_count : Z) (enc : codec)
    (name : string) (lg : list log_entry)
    (hdr tok pr : list byte) (es : list entry) (pairs rest : list byte) :
  length hdr = 12 → length tok = 8 → length pr = 8 →
  (int32_at hdr 8 ≤ 0)%Z →
  Z.to_nat (int32_at hdr 0) = length es →
  Forall (entry_ok enc) es →
  length pairs = 8 * Z.to_nat (le_sint pr) →
  _load_vocab true sample min_count enc
    (IO name (hdr ++ tok ++ pr ++ concat (entry_bytes <$> es) ++ pairs ++ rest) lg)
  = Ok (Vocabulary sample min_count (int32_at hdr 0) (int32_at hdr 4)
          (foldl (record_entry enc) ∅ es) 0,
        IO name rest (lg ++ [loading_message (int32_at hdr 0) name])).
Proof. apply (load_vocab_ok true). Qed.

Lemma entry_of_a_ok : Forall (entry_ok latin1) [entry_of "a" 5].
Proof.
  repeat constructor; cbn.
  - intros Hin. apply list_elem_of_singleton in Hin. discriminate.
  - by eexists.
Defined.

Lemma load_vocab_pairs_follow_entries_witness :
  table_and_rest raw_vocab
    (_load_vocab true 0 1 latin1 (on_file vocab_pairs_last))
  = Ok ([("a"%string, 5%Z)], []).
Proof.
  pose proof (load_vocab_pairs_follow_entries 0 1 latin1 "model.bin" []
                (i32 1 ++ i32 1 ++ i32 0) (i64 5) (i64 1) [entry_of "a" 5]
                (i32 7 ++ i32 9) []
                eq_refl eq_refl eq_refl ltac:(vm_compute; discriminate)
                eq_refl entry_of_a_ok eq_refl) as Hrun.
  change (on_file vocab_pairs_last) with
    (IO "model.bin"
       ((i32 1 ++ i32 1 ++ i32 0) ++ i64 5 ++ i64 1 ++
        concat (entry_bytes <$> [entry_of "a" 5]) ++ (i32 7 ++ i32 9) ++ []) []).
  rewrite Hrun. vm_compute. reflexivity.
Defined.

(** C4 as stated fails: on a section whose pairs come before the entries,
    the reader worded by the specification finds the word "a", while
    [_load_vocab] takes the bytes of the pair for an entry. *)
Lemma load_vocab_pairs_first_counterexample :
  table_and_rest id (read_vocabulary_spec true latin1 (on_file vocab_pairs_first))
  = Ok ([("a"%string, 5%Z)], [])
  ∧ table_and_rest raw_vocab
      (_load_vocab true 0 1 latin1 (on_file vocab_pairs_first))
    = Ok ([(string_of_list_byte [x07], 27303072741523456%Z)], []).
Proof. vm_compute. done. Qed.

(** C7, as the code has it.  [_load_vocab] reads as many entries as the
    declared vocabulary size, the first of the three integers, whatever the
    word count says.  Each entry is a zero-terminated byte sequence decoded
    with the caller's encoding, a 64-bit count and one discarded byte, and
    the table maps each word to the count of the last entry that carries
    it. *)
Theorem load_vocab_entries (new_format : bool) (sample min_count : Z)
    (enc : codec) (name : string) (lg : list log_entry)
    (hdr tok pr : list byte) (es : list entry) (pairs rest : list byte) :
  length hdr = 12 → length tok = 8 → length pr = 8 →
  (int32_at hdr 8 ≤ 0)%Z →
  Z.to_nat (int32_at hdr 0) = length es →
  Forall (entry_ok enc) es →
  length pairs = 8 * Z.to_nat (le_sint pr) →
  ∃ v st',
    _load_vocab new_format sample min_count enc
      (IO name
         (hdr ++ tok ++ (if new_format then pr else []) ++
          concat (entry_bytes <$> es) ++
          (if new_format then pairs else []) ++ rest) lg)
    = Ok (v, st')
    ∧ vocab_size v = int32_at hdr 0
    ∧ nwords v = int32_at hdr 4
    ∧ Z.to_nat (vocab_size v) = length es
    ∧ pending st' = rest
    ∧ ∀ w, raw_vocab v !! w = last_count enc es w.
Proof.
  intros Hhdr Htok Hpr Hlabels Hsize Hes Hpairs.
  eexists _, _. split; [by apply load_vocab_ok |].
  cbn [vocab_size nwords raw_vocab pending]. repeat split; try done.
  intros w. rewrite foldl_record_lookup.
  by destruct (last_count enc es w).
Qed.

Lemma entries_twice_ok :
  Forall (entry_ok latin1) [entry_of "a" 5; entry_of "a" 7].
Proof.
  repeat constructor; cbn;
    try (intros Hin; apply list_elem_of_singleton in Hin; discriminate);
    by eexists.
Defined.

Lemma load_vocab_entries_witness :
  ∃ v st',
    _load_vocab false 0 1 latin1 (on_file vocab_twice) = Ok (v, st')
    ∧ vocab_size v = 2%Z ∧ nwords v = 1%Z ∧ pending st' = []
    ∧ raw_vocab v !! "a"%string = Some 7%Z.
Proof.
  destruct (load_vocab_entries false 0 1 latin1 "model.bin" []
              (i32 2 ++ i32 1 ++ i32 0) (i64 12) (i64 0)
              [entry_of "a" 5; entry_of "a" 7] [] []
              eq_refl eq_refl eq_refl ltac:(vm_compute; discriminate)
              eq_refl entries_twice_ok eq_refl)
    as (v & st' & Hrun & Hsize & Hwords & _ & Hrest & Hlast).
  exists v, st'. split; [exact Hrun |].
  rewrite Hsize, Hwords, Hrest, Hlast. vm_compute. done.
Defined.

(** C7 as stated fails: a section that declares a vocabulary size of 2 and a
    word count of 1 has two entries read, not one; the reader worded by the
    specification stops after the first. *)
Lemma load_vocab_entries_counterexample :
  int32_at vocab_two_declared 0 = 2%Z
  ∧ int32_at vocab_two_declared 4 = 1%Z
  ∧ table_and_rest raw_vocab
      (_load_vocab false 0 1 latin1 (on_file vocab_two_declared))
    = Ok ([("a"%string, 5%Z); ("b"%string, 7%Z)], [])
  ∧ table_and_rest id
      (read_vocabulary_spec false latin1 (on_file vocab_two_declared))
    = Ok ([("a"%string, 5%Z)], entry_bytes (entry_of "b" 7)).
Proof. vm_compute. done. Qed.

(** ** The size check after the vocabulary *)

(** C3 fails on the code.  When the vocabulary built from the file has the
    declared word count but not the declared vocabulary size,
    [_load_model_params] does not log a warning and go on: the second
    argument of the [logger.warning] call reads the name [vocabulary],
    which is bound neither in the method nor in the module, and the load
    ends with [NameError]. *)
Theorem load_model_params_size_mismatch
    (prepare_vocab :
       FastTextVocab → bool → Z → FastTextKeyedVectors → bool → Z →
       outcome (FastTextVocab * FastTextKeyedVectors))
    (self : FastText) (enc : codec) (st st1 st2 : io) (p : model_params)
    (v v' : FastTextVocab) (wv1 : FastTextKeyedVectors) :
  _load_model_params_header st = Ok (p, st1) →
  _load_vocab (new_format p) (t p) (min_count p) enc st1 = Ok (v, st2) →
  prepare_vocab v (loss p =? 1)%Z (neg p)
    (KeyedVectors_new (dim p) (minn p) (maxn p) (bucket p) true) true
    (min_count p) = Ok (v', wv1) →
  Z.of_nat (size (vocab wv1)) = nwords v' →
  Z.of_nat (size (vocab wv1)) ≠ vocab_size v' →
  _load_model_params prepare_vocab self enc st = Raise (NameError "vocabulary").
Proof.
  intros Hheader Hvocab Hprepare Hwords Hsize.
  unfold _load_model_params, mbind, M_bind.
  unfold bind at 1. rewrite Hheader.
  unfold bind at 1. rewrite Hvocab.
  unfold bind at 1, lift at 1. rewrite Hprepare.
  apply Z.eqb_eq in Hwords. apply Z.eqb_neq in Hsize.
  rewrite Hwords, Hsize. reflexivity.
Qed.

Lemma load_model_params_size_mismatch_witness :
  _load_model_params prepare_vocab_all blank_model latin1 (on_file mismatch_file)
  = Raise (NameError "vocabulary").
Proof.
  eapply (load_model_params_size_mismatch prepare_vocab_all blank_model latin1
            (on_file mismatch_file)).
  - vm_compute. reflexivity.
  - vm_compute. reflexivity.
  - vm_compute. reflexivity.
  - vm_compute. reflexivity.
  - vm_compute. discriminate.
Defined.

(** The same argument of the same call in [_check_model] has the same
    effect. *)
Lemma check_model_size_mismatch (m : FastText) (st : io) (d d' : dtype)
    (rows rows' : list (list Z)) :
  vectors_ngrams (wv m) = Some (Arr2 d (Z.to_nat (vector_size (wv m))) rows) →
  (0 ≤ vector_size (wv m))%Z →
  syn1neg (trainables m)
  = Some (Arr2 d' (Z.to_nat (vector_size (wv m))) rows') →
  Z.of_nat (size (vocab (wv m))) = nwords (vocabulary m) →
  Z.of_nat (size (vocab (wv m))) ≠ vocab_size (vocabulary m) →
  _check_model m st = Raise (NameError "vocabulary").
Proof.
  intros Hngrams Hdim Hneg Hwords Hsize.
  unfold _check_model, mbind, M_bind.
  unfold bind at 1, lift at 1. rewrite Hngrams. cbn [attr shape].
  rewrite Z2Nat.id, Z.eqb_refl, Hneg by done.
  apply Z.eqb_eq in Hwords. apply Z.eqb_neq in Hsize.
  cbn. rewrite Z2Nat.id, Z.eqb_refl by done. cbn. by rewrite Hwords, Hsize.
Qed.

(** ** Lock-factor masks *)

(** C6 fails on the code.  [init_post_load], which sets the masks of a model
    loaded from a native binary, gives the n-gram mask as many rows as
    [wv.vectors], the table of the vocabulary words, has: whenever the
    n-gram table [wv.vectors_ngrams] has another number of rows, the mask
    and the table it guards differ in shape. *)
Theorem init_post_load_ngrams_mask_shape (self : FastTextTrainables)
    (model : FastText) (hidden_output : ndarray) (st : io)
    (v ngrams : ndarray) :
  vectors (wv model) = Some v →
  vectors_ngrams (wv model) = Some ngrams →
  0 < len v →
  0 < size (vocab (wv model)) →
  (0 ≤ vector_size (wv model))%Z →
  len ngrams ≠ len v →
  ∃ tr st' mask,
    init_post_load self model hidden_output st = Ok (tr, st')
    ∧ vectors_ngrams_lockf tr = Some mask
    ∧ shape mask = [len v; Z.to_nat (vector_size (wv model))]
    ∧ shape mask ≠ shape ngrams.
Proof.
  intros Hv Hng Hrows Hwords Hdim Hne.
  unfold init_post_load, mbind, M_bind.
  unfold bind at 1, lift at 1. rewrite Hv. cbn [attr].
  unfold assert.
  replace (0 <? Z.of_nat (len v))%Z with true by (symmetry; apply Z.ltb_lt; lia).
  replace (0 <? Z.of_nat (size (vocab (wv model))))%Z with true
    by (symmetry; apply Z.ltb_lt; lia).
  unfold np_ones1, np_ones2.
  replace (Z.of_nat (len v) <? 0)%Z with false by (symmetry; apply Z.ltb_ge; lia).
  replace (Z.of_nat (size (vocab (wv model))) <? 0)%Z with false
    by (symmetry; apply Z.ltb_ge; lia).
  replace (vector_size (wv model) <? 0)%Z with false
    by (symmetry; apply Z.ltb_ge; lia).
  cbn. eexists _, _, _. split; [reflexivity |]. split; [reflexivity |].
  cbn. rewrite length_replicate, Nat2Z.id. split; [done |].
  destruct ngrams as [d l | d c rows]; cbn in *; congruence.
Qed.

Lemma init_post_load_ngrams_mask_shape_witness :
  ∃ tr st' mask,
    init_post_load (trainables cat_model) cat_model cat_hidden_output
      (on_file [])
    = Ok (tr, st')
    ∧ vectors_ngrams_lockf tr = Some mask
    ∧ shape mask = [1; 4]
    ∧ shape mask ≠ [3; 4].
Proof.
  apply (init_post_load_ngrams_mask_shape (trainables cat_model) cat_model
           cat_hidden_output (on_file [])
           (Arr2 float32 4 [[11; 12; 13; 14]%Z])
           (Arr2 float32 4
              [[21; 22; 23; 24]%Z; [31; 32; 33; 34]%Z; [41; 42; 43; 44]%Z])).
  - reflexivity.
  - reflexivity.
  - cbn. lia.
  - vm_compute. lia.
  - vm_compute. discriminate.
  - cbn. lia.
Defined.

Section Growth.

Variable widen : Z → Z.
Variable wv_init_ngrams_weights :
  Z → FastTextKeyedVectors → outcome (list nat * FastTextKeyedVectors).
Variable bucket_indices : FastTextKeyedVectors → string → list Z.
Variable uniform : dtype → Z → nat → nat → Z.

Lemma size_activate (h : gmap Z nat) (b : Z) : size h ≤ size (activate h b).
Proof.
  unfold activate. destruct (h !! b) eqn:Hb; [done |].
  rewrite map_size_insert_None by done. lia.
Qed.

Lemma size_foldl_activate (bs : list Z) (h : gmap Z nat) :
  size h ≤ size (foldl activate h bs).
Proof.
  revert h. induction bs as [| b bs IH]; intros h; cbn; [done |].
  etransitivity; [apply (size_activate h b) | apply IH].
Qed.

(** Padding a matrix appends rows and leaves the rows it had. *)
Lemma pad_ones_rows (d : dtype) (c : nat) (rows : list (list Z)) (k : Z) :
  (0 ≤ k)%Z →
  ∃ d' suffix,
    _pad_ones widen (Arr2 d c rows) k = Ok (Arr2 d' c (rows ++ suffix))
    ∧ length suffix = Z.to_nat k.
Proof.
  intros Hk. unfold _pad_ones. cbn [shape]. unfold np_ones2.
  replace (k <? 0)%Z with false by (symmetry; apply Z.ltb_ge; lia).
  replace (Z.of_nat c <? 0)%Z with false by (symmetry; apply Z.ltb_ge; lia).
  cbn. rewrite Nat2Z.id, Nat.eqb_refl.
  destruct d; eexists _, _; (split; [reflexivity |]);
    by rewrite ?length_map, length_replicate.
Qed.

(** What [init_ngrams_weights] hands to a caller that goes on, step by
    step. *)
Lemma init_ngrams_weights_value (self : FastTextTrainables)
    (wv : FastTextKeyedVectors) (update : bool) (vocabulary : FastTextVocab) :
  init_ngrams_weights widen wv_init_ngrams_weights bucket_indices uniform
    self wv update vocabulary
  = if negb update then
      '(ngram_indices, wv) ← wv_init_ngrams_weights (seed self) wv;
      vocab_lockf ← np_ones2 (Z.of_nat (size (vocab wv))) (vector_size wv);
      ngrams_lockf ← np_ones2 (tr_bucket self) (vector_size wv);
      ngrams_lockf ← take_rows ngrams_lockf ngram_indices;
      Ok (Trainables (seed self) (tr_bucket self) (vectors_lockf self)
            (Some vocab_lockf) (Some ngrams_lockf) (syn1 self) (syn1neg self)
            (layer1_size self) (old_hash2index_len self), wv)
    else
      let old_hash2index_len_ := Z.of_nat (size (hash2index wv)) in
      wv ← update_ngrams_weights bucket_indices uniform (seed self)
              (old_vocab_len vocabulary) wv;
      let new_vocab :=
        (Z.of_nat (size (vocab wv)) - old_vocab_len vocabulary)%Z in
      m ← attr "vectors_vocab_lockf" (vectors_vocab_lockf self);
      vocab_lockf ← _pad_ones widen m new_vocab;
      let new_ngrams :=
        (Z.of_nat (size (hash2index wv)) - old_hash2index_len_)%Z in
      m ← attr "vectors_ngrams_lockf" (vectors_ngrams_lockf self);
      ngrams_lockf ← _pad_ones widen m new_ngrams;
      Ok (Trainables (seed self) (tr_bucket self) (vectors_lockf self)
            (Some vocab_lockf) (Some ngrams_lockf) (syn1 self) (syn1neg self)
            (layer1_size self) (old_hash2index_len self), wv).
Proof.
  unfold init_ngrams_weights, init_ngrams_weights_state, carry, mbind,
    outcome_bind.
  destruct update; cbn [negb].
  - destruct (update_ngrams_weights _ _ _ _ wv) as [wv' | |]; try done.
    destruct (attr "vectors_vocab_lockf" (vectors_vocab_lockf self))
      as [m | |]; try done.
    destruct (_pad_ones widen m _) as [vocab_lockf | |]; try done.
    cbn [with_vectors_vocab_lockf vectors_ngrams_lockf].
    destruct (attr "vectors_ngrams_lockf" (vectors_ngrams_lockf self))
      as [m' | |]; try done.
    by destruct (_pad_ones widen m' _).
  - destruct (wv_init_ngrams_weights (seed self) wv) as [[indices wv'] | |];
      try done.
    destruct (np_ones2 (Z.of_nat (size (vocab wv'))) (vector_size wv'))
      as [vocab_lockf | |]; try done.
    cbn [with_vectors_vocab_lockf tr_bucket].
    destruct (np_ones2 (tr_bucket self) (vector_size wv'))
      as [ngrams_lockf | |]; try done.
    by destruct (take_rows ngrams_lockf indices).
Qed.

(** On masks that are matrices a growth event that adds [k] vocabulary
    entries, that is [init_ngrams_weights] with [update=True] on a
    vocabulary that holds [k] words more than [old_vocab_len], makes the
    vocabulary vector table and its lock-factor mask [k] rows longer, and
    every row they had keeps its position and its content; the indices of
    the words are unchanged. *)
Lemma grow_appends_rows (self : FastTextTrainables)
    (wv : FastTextKeyedVectors) (vocabulary : FastTextVocab) (k : nat)
    (d dm dn : dtype) (c cm cn : nat) (rows mrows nrows : list (list Z)) :
  vectors_vocab wv = Some (Arr2 d c rows) →
  vectors_vocab_lockf self = Some (Arr2 dm cm mrows) →
  vectors_ngrams_lockf self = Some (Arr2 dn cn nrows) →
  Z.of_nat (size (vocab wv)) = (old_vocab_len vocabulary + Z.of_nat k)%Z →
  ∃ self' wv' table mask,
    init_ngrams_weights widen wv_init_ngrams_weights bucket_indices uniform
      self wv true vocabulary
    = Ok (self', wv')
    ∧ vectors_vocab wv' = Some table
    ∧ vectors_vocab_lockf self' = Some mask
    ∧ len table = length rows + k
    ∧ len mask = length mrows + k
    ∧ (∀ i, i < length rows → row table i = rows !! i)
    ∧ (∀ i, i < length mrows → row mask i = mrows !! i)
    ∧ vocab wv' = vocab wv.
Proof.
  intros Htable Hmask Hnmask Hsize.
  rewrite init_ngrams_weights_value. cbn [negb].
  unfold update_ngrams_weights. rewrite Htable.
  unfold mbind, outcome_bind. cbn [vocab hash2index vectors_vocab].
  rewrite Hmask, Hnmask. cbn [attr].
  replace (Z.of_nat (size (vocab wv)) - old_vocab_len vocabulary)%Z
    with (Z.of_nat k) by lia.
  destruct (pad_ones_rows dm cm mrows (Z.of_nat k)) as (dm' & ms & -> & Hms);
    [lia |].
  match goal with
  | |- context [_pad_ones widen (Arr2 dn cn nrows) ?n] =>
      destruct (pad_ones_rows dn cn nrows n) as (dn' & ns & -> & Hns)
  end.
  { apply Z.le_0_sub, inj_le, size_foldl_activate. }
  eexists _, _, _, _. split; [reflexivity |].
  cbn [vectors_vocab vectors_vocab_lockf vocab len row].
  split; [reflexivity |]. split; [reflexivity |].
  unfold len, row.
  rewrite !length_app, length_map, length_seq, Hms, !Nat2Z.id.
  repeat split; try done.
  - intros i Hi. by apply lookup_app_l.
  - intros i Hi. by apply lookup_app_l.
Qed.

End Growth.

Lemma grow_appends_rows_witness :
  ∃ self' wv' table mask,
    init_ngrams_weights (λ z, z) (λ _ w, Ok ([], w)) (λ _ _, [])
      (λ _ _ _ _, 0%Z) cat_trainables cat_dog_wv true cat_vocabulary
    = Ok (self', wv')
    ∧ vectors_vocab wv' = Some table
    ∧ vectors_vocab_lockf self' = Some mask
    ∧ len table = 1 + 1
    ∧ len mask = 1 + 1
    ∧ (∀ i, i < 1 → row table i = [[11; 12; 13; 14]%Z] !! i)
    ∧ (∀ i, i < 1 → row mask i = [replicate 4 one] !! i)
    ∧ vocab wv' = vocab cat_dog_wv.
Proof.
  apply (grow_appends_rows (λ z, z) (λ _ w, Ok ([], w)) (λ _ _, [])
           (λ _ _ _ _, 0%Z) cat_trainables cat_dog_wv cat_vocabulary 1
           float32 float32 float32 4 4 4 [[11; 12; 13; 14]%Z]
           [replicate 4 one] (replicate 3 (replicate 4 one))).
  - reflexivity.
  - reflexivity.
  - reflexivity.
  - vm_compute. reflexivity.
Defined.



(** * Further properties of the loaders *)

(** ** Truncated parameter block *)

Lemma header_truncated (st : io) :
  length (pending st) < header_size (pending st) →
  _load_model_params_header st = Raise StructError.
Proof.
  intros Hshort. unfold _load_model_params_header, mbind, M_bind, bind.
  destruct (decide (length (pending st) < 8)) as [Hlt | Hge].
  - by rewrite (struct_unpack_short "@2i" [c_i; c_i]).
  - rewrite (struct_unpack_ok "@2i" [c_i; c_i]) by (done || (cbn; lia)).
    change (unpack [c_i; c_i]) with
      (λ bs, [field bs (0, c_i); field bs (4, c_i)]).
    change (calcsize [c_i; c_i]) with 8. fields_of_stream.
    unfold header_size, int32_at in Hshort.
    destruct (le_sint (take 4 (drop 0 (pending st)))
              =? FASTTEXT_FILEFORMAT_MAGIC)%Z.
    + by rewrite (struct_unpack_short "@12i1d" (replicate 12 c_i ++ [c_d]))
        by (done || (cbn [pending]; rewrite length_drop;
                     change (calcsize (replicate 12 c_i ++ [c_d])) with 56; lia)).
    + by rewrite (struct_unpack_short "@10i1d" (replicate 10 c_i ++ [c_d]))
        by (done || (cbn [pending]; rewrite length_drop;
                     change (calcsize (replicate 10 c_i ++ [c_d])) with 48; lia)).
Qed.

(** X1. A file that ends inside its parameter block (fewer than 64 bytes
    after the magic number, fewer than 56 in the legacy format, or fewer
    than the first two integers) makes [_load_model_params_header] raise
    [struct.error], and [load_fasttext_format] raises it too: no model is
    returned. *)
Theorem truncated_header_raises (native_float_size : nat)
    (prepare_vocab :
       FastTextVocab → bool → Z → FastTextKeyedVectors → bool → Z →
       outcome (FastTextVocab * FastTextKeyedVectors))
    (init_ngrams_post_load :
       string → FastTextKeyedVectors → outcome FastTextKeyedVectors)
    (init_vectors_vocab : FastTextKeyedVectors → outcome FastTextKeyedVectors)
    (default_model : FastText) (model_file : string) (enc : codec)
    (content : list byte) :
  length content < header_size content →
  (∀ name lg, _load_model_params_header (IO name content lg) = Raise StructError)
  ∧ load_fasttext_format native_float_size prepare_vocab init_ngrams_post_load
      init_vectors_vocab default_model model_file enc content
    = Raise StructError.
Proof.
  intros Hshort. split.
  - intros. by apply header_truncated.
  - unfold load_fasttext_format, load_binary_data.
    unfold mbind at 1, M_bind at 1, bind at 1.
    unfold _load_model_params, mbind at 1, M_bind at 1, bind at 1.
    by rewrite header_truncated.
Qed.

Lemma truncated_header_raises_witness :
  load_fasttext_format 4 prepare_vocab_all (λ _ w, Ok w) (λ w, Ok w)
    blank_model "model" latin1 (take 40 new_header)
  = Raise StructError.
Proof.
  apply (truncated_header_raises 4 prepare_vocab_all (λ _ w, Ok w)
           (λ w, Ok w) blank_model "model" latin1 (take 40 new_header)).
  vm_compute. lia.
Defined.

(** ** Matrices: failures *)

Lemma assert_true (c : bool) (msg : string) : c = true → assert c msg = ret tt.
Proof. by intros ->. Qed.

(** X2. When an expected vector size is given and the column count stored
    in the file differs from it, [_load_matrix] raises [AssertionError]
    whatever the float size of the host and whatever follows the counts. *)
Theorem load_matrix_dimension_mismatch (native_float_size : nat)
    (new_format : bool) (expected : Z) (st : io) :
  let s := pending st in
  let o := if new_format then 1 else 0 in
  o + 16 ≤ length s →
  expected ≠ int64_at s (o + 8) →
  _load_matrix native_float_size new_format (Some expected) st
  = Raise (AssertionError
             "mismatch between vector size in model params and model vectors").
Proof.
  intros s o Hlen Hne.
  pose proof (load_matrix_counts new_format st Hlen) as Hcounts.
  cbv zeta in Hcounts. fold s o in Hcounts. unfold mbind, M_bind in Hcounts.
  unfold _load_matrix, mbind, M_bind.
  unfold bind at 1. unfold bind at 1 in Hcounts.
  destruct (if new_format then _struct_unpack "@?" else ret []) as [[a st1] | |];
    try discriminate.
  cbn beta iota. unfold bind at 1. rewrite Hcounts.
  apply Z.eqb_neq in Hne. rewrite Hne. reflexivity.
Qed.

Lemma load_matrix_dimension_mismatch_witness :
  _load_matrix 4 true (Some 3%Z) (on_file matrix_plain)
  = Raise (AssertionError
             "mismatch between vector size in model params and model vectors").
Proof.
  apply (load_matrix_dimension_mismatch 4 true 3 (on_file matrix_plain)).
  - vm_compute. lia.
  - vm_compute. discriminate.
Defined.

(** The element type chosen for a supported float size. *)
Lemma dtype_choice (native_float_size : nat) :
  native_float_size = 4 ∨ native_float_size = 8 →
  (if (native_float_size =? 4)%nat then ret float32
   else if (native_float_size =? 8)%nat then ret float64
   else raise (ValueError "Incompatible float size"))
  = (ret (dtype_of_size native_float_size) : M dtype)
  ∧ itemsize (dtype_of_size native_float_size) = native_float_size.
Proof. by intros [-> | ->]. Qed.

(** A matrix whose data are fewer than announced: the outcome of
    [_load_matrix] by the announced count. *)
Lemma load_matrix_short_data (native_float_size : nat)
    (new_format : bool) (expected_vector_size : option Z) (st : io) :
  let s := pending st in
  let o := if new_format then 1 else 0 in
  let num_vectors := int64_at s o in
  let dim := int64_at s (o + 8) in
  o + 16 ≤ length s →
  expected_vector_size = None ∨ expected_vector_size = Some dim →
  native_float_size = 4 ∨ native_float_size = 8 →
  (0 ≤ num_vectors)%Z → (0 ≤ dim)%Z →
  (Z.of_nat (length s - (o + 16)) < num_vectors * dim * Z.of_nat native_float_size)%Z →
  _load_matrix native_float_size new_format expected_vector_size st
  = if (2 ^ 63 <=? num_vectors * dim)%Z then Raise OverflowError
    else Raise (ValueError "cannot reshape array").
Proof.
  intros s o num_vectors dim Hlen Hexp Hsize Hrows Hcols Hdata.
  pose proof (load_matrix_counts new_format st Hlen) as Hcounts.
  cbv zeta in Hcounts. fold s o num_vectors dim in Hcounts.
  unfold mbind, M_bind in Hcounts.
  unfold _load_matrix, mbind, M_bind.
  unfold bind at 1. unfold bind at 1 in Hcounts.
  destruct (if new_format then _struct_unpack "@?" else ret []) as [[a st1] | |];
    try discriminate.
  cbn beta iota. unfold bind at 1. rewrite Hcounts. fold dim.
  rewrite assert_true
    by (destruct Hexp as [-> | ->]; [done | by rewrite Z.eqb_refl]).
  destruct (dtype_choice native_float_size Hsize) as [Hdtype Hitem].
  unfold bind at 1. unfold ret at 1. unfold bind at 1. rewrite Hdtype.
  unfold ret at 1. unfold bind at 1, np_fromfile. cbn [pending fname logged].
  rewrite Hitem.
  assert (Hpos : 0 < native_float_size) by (destruct Hsize; lia).
  set (avail := length (drop (o + 16) s) `div` native_float_size).
  assert (Havail : (Z.of_nat avail < num_vectors * dim)%Z).
  { subst avail. rewrite length_drop.
    pose proof (Nat.Div0.mul_div_le (length s - (o + 16)) native_float_size).
    nia. }
  replace (Z.of_nat avail <? num_vectors * dim)%Z with true
    by (symmetry; by apply Z.ltb_lt).
  replace (num_vectors * dim <? - 2 ^ 63)%Z with false
    by (symmetry; apply Z.ltb_ge; nia).
  rewrite andb_true_r. cbn [orb].
  destruct (2 ^ 63 <=? num_vectors * dim)%Z; [done |].
  replace (num_vectors * dim <? 0)%Z with false by (symmetry; apply Z.ltb_ge; nia).
  replace (Z.to_nat (Z.min (num_vectors * dim) (Z.of_nat avail))) with avail by lia.
  unfold reshape. rewrite length_map, length_chunks.
  replace (0 <=? num_vectors)%Z with true by (symmetry; by apply Z.leb_le).
  replace (0 <=? dim)%Z with true by (symmetry; by apply Z.leb_le).
  cbn [andb].
  by replace (num_vectors * dim =? Z.of_nat avail)%Z with false
    by (symmetry; apply Z.eqb_neq; lia).
Qed.

(** X3. When the file holds fewer floats than the row and column counts
    announce, [_load_matrix] never returns a matrix: it raises.  When the
    announced array has at most [2^31] bytes, [np.fromfile] reads what is
    there and the exception is the [ValueError] of [reshape]; when the
    announced number of floats does not fit a C [ssize_t] ([2^63] or more),
    it is the [OverflowError] of [np.fromfile]. *)
Theorem load_matrix_truncated_data (native_float_size : nat)
    (new_format : bool) (expected_vector_size : option Z) (st : io) :
  let s := pending st in
  let o := if new_format then 1 else 0 in
  let num_vectors := int64_at s o in
  let dim := int64_at s (o + 8) in
  o + 16 ≤ length s →
  expected_vector_size = None ∨ expected_vector_size = Some dim →
  native_float_size = 4 ∨ native_float_size = 8 →
  (0 ≤ num_vectors)%Z → (0 ≤ dim)%Z →
  (Z.of_nat (length s - (o + 16)) < num_vectors * dim * Z.of_nat native_float_size)%Z →
  (∃ e, _load_matrix native_float_size new_format expected_vector_size st
        = Raise e)
  ∧ ((num_vectors * dim * Z.of_nat native_float_size ≤ 2 ^ 31)%Z →
     _load_matrix native_float_size new_format expected_vector_size st
     = Raise (ValueError "cannot reshape array"))
  ∧ ((2 ^ 63 ≤ num_vectors * dim)%Z →
     _load_matrix native_float_size new_format expected_vector_size st
     = Raise OverflowError).
Proof.
  intros s o num_vectors dim Hlen Hexp Hsize Hrows Hcols Hdata.
  rewrite (load_matrix_short_data native_float_size new_format
             expected_vector_size st Hlen Hexp Hsize Hrows Hcols Hdata).
  fold s o num_vectors dim.
  repeat split.
  - destruct (2 ^ 63 <=? num_vectors * dim)%Z; by eexists.
  - intros Hsmall.
    replace (2 ^ 63 <=? num_vectors * dim)%Z with false; [done |].
    symmetry. apply Z.leb_gt. destruct Hsize as [-> | ->]; lia.
  - intros Hbig. by replace (2 ^ 63 <=? num_vectors * dim)%Z with true
      by (symmetry; by apply Z.leb_le).
Qed.

Lemma load_matrix_truncated_data_witness :
  (∃ e, _load_matrix 4 true None (on_file (take 21 matrix_plain)) = Raise e)
  ∧ _load_matrix 4 true None (on_file (take 21 matrix_plain))
    = Raise (ValueError "cannot reshape array")
  ∧ _load_matrix 4 true None (on_file matrix_huge) = Raise OverflowError.
Proof.
  pose proof (load_matrix_truncated_data 4 true None
                (on_file (take 21 matrix_plain))
                ltac:(vm_compute; lia) (or_introl eq_refl) (or_introl eq_refl)
                ltac:(vm_compute; discriminate) ltac:(vm_compute; discriminate)
                ltac:(vm_compute; reflexivity)) as (Hraises & Hsmall & _).
  pose proof (load_matrix_truncated_data 4 true None (on_file matrix_huge)
                ltac:(vm_compute; lia) (or_introl eq_refl) (or_introl eq_refl)
                ltac:(vm_compute; discriminate) ltac:(vm_compute; discriminate)
                ltac:(vm_compute; reflexivity)) as (_ & _ & Hbig).
  split; [exact Hraises |]. split.
  - apply Hsmall. vm_compute. discriminate.
  - apply Hbig. vm_compute. discriminate.
Defined.

(** ** The vocabulary section: entries that fail, tables that shrink *)

Lemma load_entries_app (enc : codec) (es : list entry) (n : nat)
    (raw : gmap string Z) (name : string) (rest : list byte)
    (lg : list log_entry) :
  Forall (entry_ok enc) es →
  load_entries enc (length es + n) raw
    (IO name (concat (entry_bytes <$> es) ++ rest) lg)
  = load_entries enc n (foldl (record_entry enc) raw es) (IO name rest lg).
Proof.
  revert raw. induction es as [| e es IH]; intros raw Hok; [done |].
  apply Forall_cons in Hok as [(Hnul & Hcnt & [w Hw]) Hes].
  cbn [length Nat.add load_entries fmap list_fmap concat foldl].
  unfold mbind at 1, M_bind at 1, bind at 1, read_word at 1.
  cbn [pending fname logged]. unfold entry_bytes at 1.
  rewrite <- !app_assoc. cbn [app].
  rewrite read_word_from_ok by done. cbn [app]. rewrite Hw.
  unfold mbind at 1, M_bind at 1, bind at 1.
  replace (e_count e ++ e_flag e :: concat (entry_bytes <$> es) ++ rest)
    with ((e_count e ++ [e_flag e]) ++ concat (entry_bytes <$> es) ++ rest)
    by (by rewrite <- app_assoc).
  rewrite (struct_unpack_prefix "@qb" [c_q; c_b])
    by (done || (rewrite length_app, Hcnt; done)).
  change (unpack [c_q; c_b]) with
    (λ bs, [field bs (0, c_q); field bs (8, c_b)]).
  cbn beta. unfold field at 1. cbn [fst snd sizeof decode drop].
  rewrite drop_0, <- Hcnt, take_app_length.
  rewrite IH by done.
  replace (record_entry enc raw e) with (<[w := le_sint (e_count e)]> raw);
    [done |].
  unfold record_entry, entry_word, entry_count. by rewrite Hw.
Qed.

(** What [_load_vocab] does once the fixed fields of the section are read. *)
Lemma load_vocab_enter (new_format : bool) (sample min_count : Z) (enc : codec)
    (name : string) (lg : list log_entry) (hdr tok pr body : list byte) :
  length hdr = 12 → length tok = 8 → length pr = 8 →
  (int32_at hdr 8 ≤ 0)%Z →
  _load_vocab new_format sample min_count enc
    (IO name (hdr ++ tok ++ (if new_format then pr else []) ++ body) lg)
  = match load_entries enc (Z.to_nat (int32_at hdr 0)) ∅
            (IO name body (lg ++ [loading_message (int32_at hdr 0) name])) with
    | Ok (raw, st1) =>
        match (if new_format then skip_pairs (Z.to_nat (le_sint pr))
               else ret tt) st1 with
        | Ok (_, st2) =>
            Ok (Vocabulary sample min_count (int32_at hdr 0) (int32_at hdr 4)
                  raw 0, st2)
        | Raise e => Raise e
        | Diverge => Diverge
        end
    | Raise e => Raise e
    | Diverge => Diverge
    end.
Proof.
  intros Hhdr Htok Hpr Hlabels.
  unfold _load_vocab, mbind at 1, M_bind at 1, bind at 1.
  rewrite (struct_unpack_prefix "@3i" [c_i; c_i; c_i]) by done.
  change (unpack [c_i; c_i; c_i]) with
    (λ bs, [field bs (0, c_i); field bs (4, c_i); field bs (8, c_i)]).
  cbn beta. unfold field. cbn [fst snd sizeof decode].
  fold (int32_at hdr 0) (int32_at hdr 4) (int32_at hdr 8).
  apply Z.ltb_ge in Hlabels. rewrite Hlabels.
  unfold mbind, M_bind, bind, handle_name, logger. cbn [pending fname logged].
  rewrite (struct_unpack_prefix "@1q" [c_q]) by done.
  destruct new_format.
  - rewrite (struct_unpack_prefix "@q" [c_q]) by done.
    change (unpack [c_q] pr) with [field pr (0, c_q)].
    unfold field. cbn [fst snd sizeof decode drop].
    rewrite <- Hpr at 1. rewrite firstn_all. unfold ret.
    fold (loading_message (int32_at hdr 0) name).
    destruct (load_entries enc _ ∅ _) as [[raw st1] | |]; try done;
      destruct (skip_pairs _ st1) as [[[] st2] | |]; done.
  - unfold ret. cbn [app]. fold (loading_message (int32_at hdr 0) name).
    destruct (load_entries enc _ ∅ _) as [[raw st1] | |]; done.
Qed.

(** X4. When the bytes of a word are not valid in the caller's encoding,
    [_load_vocab] raises [UnicodeDecodeError] at that entry, before it reads
    the count of the entry; the entries before it do not matter. *)
Theorem load_vocab_undecodable_word (new_format : bool) (sample min_count : Z)
    (enc : codec) (name : string) (lg : list log_entry)
    (hdr tok pr : list byte) (es : list entry) (w tail : list byte) :
  length hdr = 12 → length tok = 8 → length pr = 8 →
  (int32_at hdr 8 ≤ 0)%Z →
  length es < Z.to_nat (int32_at hdr 0) →
  Forall (entry_ok enc) es →
  x00 ∉ w →
  enc w = None →
  _load_vocab new_format sample min_count enc
    (IO name
       (hdr ++ tok ++ (if new_format then pr else []) ++
        concat (entry_bytes <$> es) ++ w ++ x00 :: tail) lg)
  = Raise UnicodeDecodeError.
Proof.
  intros Hhdr Htok Hpr Hlabels Hmore Hes Hnul Henc.
  rewrite load_vocab_enter by done.
  replace (Z.to_nat (int32_at hdr 0))
    with (length es + S (Z.to_nat (int32_at hdr 0) - S (length es))) by lia.
  rewrite load_entries_app by done. cbn [load_entries].
  unfold mbind at 1, M_bind at 1, bind at 1, read_word at 1.
  cbn [pending]. rewrite read_word_from_ok by done. cbn [app].
  by rewrite Henc.
Qed.

Lemma load_vocab_undecodable_word_witness :
  _load_vocab false 0 1 ascii_codec (on_file vocab_accent)
  = Raise UnicodeDecodeError.
Proof.
  apply (load_vocab_undecodable_word false 0 1 ascii_codec "model.bin" []
           (i32 2 ++ i32 2 ++ i32 0) (i64 12) (i64 0)
           [entry_of "a" 5] [xe9] (i64 7 ++ [x00])).
  - reflexivity.
  - reflexivity.
  - reflexivity.
  - vm_compute. discriminate.
  - vm_compute. lia.
  - repeat constructor; cbn.
    + intros Hin. apply list_elem_of_singleton in Hin. discriminate.
    + by eexists.
  - intros Hin. apply list_elem_of_singleton in Hin. discriminate.
  - reflexivity.
Defined.

(** X5. When the section holds fewer entries than its declared vocabulary
    size and no zero byte follows the last entry, [_load_vocab] never
    returns: at the end of the file [read(1)] yields [b''], which the word
    loop does not take for the terminator. *)
Theorem load_vocab_missing_entries_diverge (new_format : bool)
    (sample min_count : Z) (enc : codec) (name : string) (lg : list log_entry)
    (hdr tok pr : list byte) (es : list entry) (w : list byte) :
  length hdr = 12 → length tok = 8 → length pr = 8 →
  (int32_at hdr 8 ≤ 0)%Z →
  length es < Z.to_nat (int32_at hdr 0) →
  Forall (entry_ok enc) es →
  x00 ∉ w →
  _load_vocab new_format sample min_count enc
    (IO name
       (hdr ++ tok ++ (if new_format then pr else []) ++
        concat (entry_bytes <$> es) ++ w) lg)
  = Diverge.
Proof.
  intros Hhdr Htok Hpr Hlabels Hmore Hes Hnul.
  rewrite load_vocab_enter by done.
  replace (Z.to_nat (int32_at hdr 0))
    with (length es + S (Z.to_nat (int32_at hdr 0) - S (length es))) by lia.
  rewrite load_entries_app by done. cbn [load_entries].
  unfold mbind at 1, M_bind at 1, bind at 1, read_word at 1.
  cbn [pending]. by rewrite read_word_from_diverges.
Qed.

Lemma load_vocab_missing_entries_diverge_witness :
  _load_vocab false 0 1 latin1
    (on_file (i32 2 ++ i32 1 ++ i32 0 ++ i64 12 ++ entry_bytes (entry_of "a" 5)))
  = Diverge.
Proof.
  pose proof (load_vocab_missing_entries_diverge false 0 1 latin1 "model.bin" []
                (i32 2 ++ i32 1 ++ i32 0) (i64 12) (i64 0) [entry_of "a" 5] []
                eq_refl eq_refl eq_refl ltac:(vm_compute; discriminate)
                ltac:(vm_compute; lia) entry_of_a_ok (not_elem_of_nil x00))
    as Hrun.
  vm_compute in Hrun. vm_compute. exact Hrun.
Defined.

Lemma size_record_entry (enc : codec) (raw : gmap string Z) (e : entry) :
  size (record_entry enc raw e)
  = match raw !! entry_word enc e with
    | Some _ => size raw
    | None => S (size raw)
    end.
Proof.
  unfold record_entry. destruct (raw !! entry_word enc e) eqn:Hlook.
  - by rewrite map_size_insert_Some.
  - by rewrite map_size_insert_None.
Qed.

Lemma size_foldl_record_le (enc : codec) (es : list entry) (raw : gmap string Z) :
  size (foldl (record_entry enc) raw es) ≤ size raw + length es.
Proof.
  revert raw. induction es as [| e es IH]; intros raw; cbn; [lia |].
  specialize (IH (record_entry enc raw e)). rewrite size_record_entry in IH.
  destruct (raw !! entry_word enc e); lia.
Qed.

Lemma size_foldl_record_full (enc : codec) (es : list entry)
    (raw : gmap string Z) :
  size (foldl (record_entry enc) raw es) = size raw + length es
  ↔ NoDup (entry_word enc <$> es)
    ∧ ∀ e, e ∈ es → raw !! entry_word enc e = None.
Proof.
  revert raw. induction es as [| e es IH]; intros raw; cbn.
  - split; [intros _ | lia]. split; [constructor |]. intros e He.
    by apply not_elem_of_nil in He.
  - pose proof (size_foldl_record_le enc es (record_entry enc raw e)) as Hle.
    pose proof (size_record_entry enc raw e) as Hstep.
    split.
    + intros Hsize.
      destruct (raw !! entry_word enc e) eqn:Hlook; [lia |].
      assert (Hrest : size (foldl (record_entry enc) (record_entry enc raw e) es)
                      = size (record_entry enc raw e) + length es) by lia.
      apply IH in Hrest as [Hnodup Hfresh].
      assert (Hother : ∀ e', e' ∈ es → entry_word enc e' ≠ entry_word enc e).
      { intros e' He' Heq. specialize (Hfresh e' He').
        unfold record_entry in Hfresh. rewrite Heq in Hfresh.
        by rewrite lookup_insert_eq in Hfresh. }
      split.
      * constructor; [| done]. intros Hin.
        apply list_elem_of_fmap in Hin as (e' & Heq & He').
        by apply (Hother e' He').
      * intros e' He'. apply elem_of_cons in He' as [-> | He']; [done |].
        specialize (Hfresh e' He'). unfold record_entry in Hfresh.
        rewrite lookup_insert_ne in Hfresh; [done |].
        intros Heq. by apply (Hother e' He').
    + intros [Hnodup Hfresh]. apply NoDup_cons in Hnodup as [Hnotin Hnodup].
      assert (Hlook : raw !! entry_word enc e = None)
        by (apply Hfresh; left).
      rewrite Hlook in Hstep.
      assert (Hrest : size (foldl (record_entry enc) (record_entry enc raw e) es)
                      = size (record_entry enc raw e) + length es).
      { apply IH. split; [done |]. intros e' He'. unfold record_entry.
        rewrite lookup_insert_ne; [apply Hfresh; by right |].
        intros Heq. apply Hnotin. apply list_elem_of_fmap. by exists e'. }
      lia.
Qed.

(** X6. The table that [_load_vocab] returns never has more words than the
    section has entries, and it has exactly as many exactly when no two
    entries carry the same word: a repeated word is what makes the final
    vocabulary smaller than the declared size. *)
Theorem load_vocab_table_size (new_format : bool) (sample min_count : Z)
    (enc : codec) (name : string) (lg : list log_entry)
    (hdr tok pr : list byte) (es : list entry) (pairs rest : list byte) :
  length hdr = 12 → length tok = 8 → length pr = 8 →
  (int32_at hdr 8 ≤ 0)%Z →
  Z.to_nat (int32_at hdr 0) = length es →
  Forall (entry_ok enc) es →
  length pairs = 8 * Z.to_nat (le_sint pr) →
  ∃ v st',
    _load_vocab new_format sample min_count enc
      (IO name
         (hdr ++ tok ++ (if new_format then pr else []) ++
          concat (entry_bytes <$> es) ++
          (if new_format then pairs else []) ++ rest) lg)
    = Ok (v, st')
    ∧ size (raw_vocab v) ≤ Z.to_nat (vocab_size v)
    ∧ (size (raw_vocab v) = Z.to_nat (vocab_size v)
       ↔ NoDup (entry_word enc <$> es)).
Proof.
  intros Hhdr Htok Hpr Hlabels Hsize Hes Hpairs.
  eexists _, _. split; [by apply load_vocab_ok |].
  cbn [raw_vocab vocab_size]. rewrite Hsize.
  pose proof (size_foldl_record_le enc es ∅) as Hle.
  pose proof (size_foldl_record_full enc es ∅) as Hfull.
  rewrite map_size_empty in Hle, Hfull. cbn [Nat.add] in Hle, Hfull.
  split; [done |]. rewrite Hfull. split; [by intros [? _] |].
  intros Hnodup. split; [done |]. intros e _. apply lookup_empty.
Qed.

Lemma load_vocab_table_size_witness :
  ∃ v st',
    _load_vocab false 0 1 latin1 (on_file vocab_twice) = Ok (v, st')
    ∧ size (raw_vocab v) ≤ Z.to_nat (vocab_size v)
    ∧ (size (raw_vocab v) = Z.to_nat (vocab_size v)
       ↔ NoDup (entry_word latin1 <$> [entry_of "a" 5; entry_of "a" 7])).
Proof.
  change (on_file vocab_twice) with
    (IO "model.bin"
       ((i32 2 ++ i32 1 ++ i32 0) ++ i64 12 ++ [] ++
        concat (entry_bytes <$> [entry_of "a" 5; entry_of "a" 7]) ++ [] ++ [])
       []).
  apply (load_vocab_table_size false 0 1 latin1 "model.bin" []
           (i32 2 ++ i32 1 ++ i32 0) (i64 12) (i64 0)
           [entry_of "a" 5; entry_of "a" 7] [] []
           eq_refl eq_refl eq_refl ltac:(vm_compute; discriminate)
           eq_refl entries_twice_ok eq_refl).
Defined.

(** X7. [_load_vocab] does not refuse negative sizes.  With a declared
    vocabulary size that is zero or negative it reads no entry, with a
    pruned-index size that is zero or negative it skips no pair, and a
    negative label count passes for none: the call returns an empty table
    and leaves the handle right after the fixed fields. *)
Theorem load_vocab_negative_sizes (new_format : bool) (sample min_count : Z)
    (enc : codec) (name : string) (lg : list log_entry)
    (hdr tok pr rest : list byte) :
  length hdr = 12 → length tok = 8 → length pr = 8 →
  (int32_at hdr 0 ≤ 0)%Z →
  (int32_at hdr 8 ≤ 0)%Z →
  (le_sint pr ≤ 0)%Z →
  _load_vocab new_format sample min_count enc
    (IO name (hdr ++ tok ++ (if new_format then pr else []) ++ rest) lg)
  = Ok (Vocabulary sample min_count (int32_at hdr 0) (int32_at hdr 4) ∅ 0,
        IO name rest (lg ++ [loading_message (int32_at hdr 0) name])).
Proof.
  intros Hhdr Htok Hpr Hsize Hlabels Hprune.
  rewrite load_vocab_enter by done.
  replace (Z.to_nat (int32_at hdr 0)) with 0 by lia.
  replace (Z.to_nat (le_sint pr)) with 0 by lia.
  by destruct new_format.
Qed.

Lemma load_vocab_negative_sizes_witness :
  _load_vocab true 0 1 latin1
    (on_file (i32 (-3) ++ i32 9 ++ i32 (-1) ++ i64 12 ++ i64 (-2) ++ [x2a]))
  = Ok (Vocabulary 0 1 (-3) 9 ∅ 0,
        IO "model.bin" [x2a] [loading_message (-3) "model.bin"]).
Proof.
  apply (load_vocab_negative_sizes true 0 1 latin1 "model.bin" []
           (i32 (-3) ++ i32 9 ++ i32 (-1)) (i64 12) (i64 (-2)) [x2a]).
  - reflexivity.
  - reflexivity.
  - reflexivity.
  - vm_compute. discriminate.
  - vm_compute. discriminate.
  - vm_compute. discriminate.
Defined.

(** ** The size checks of [_load_model_params] *)

(** X8. When the vocabulary built from the file has both the declared word
    count and the declared vocabulary size, [_load_model_params] returns
    without logging anything after the vocabulary section, and the model
    carries the parameters of the file: the dimension, window, epochs and
    negatives as stored, hierarchical softmax exactly when the loss field
    is 1, skip-gram exactly when the model field is 2, and the bucket
    count in its trainables. *)
Theorem load_model_params_sizes_agree
    (prepare_vocab :
       FastTextVocab → bool → Z → FastTextKeyedVectors → bool → Z →
       outcome (FastTextVocab * FastTextKeyedVectors))
    (self : FastText) (enc : codec) (st st1 st2 : io) (p : model_params)
    (v v' : FastTextVocab) (wv1 : FastTextKeyedVectors) :
  _load_model_params_header st = Ok (p, st1) →
  _load_vocab (new_format p) (t p) (min_count p) enc st1 = Ok (v, st2) →
  prepare_vocab v (loss p =? 1)%Z (neg p)
    (KeyedVectors_new (dim p) (minn p) (maxn p) (bucket p) true) true
    (min_count p) = Ok (v', wv1) →
  Z.of_nat (size (vocab wv1)) = nwords v' →
  nwords v' = vocab_size v' →
  ∃ m,
    _load_model_params prepare_vocab self enc st = Ok (m, st2)
    ∧ wv m = wv1 ∧ vocabulary m = v'
    ∧ self_new_format m = new_format p
    ∧ self_vector_size m = dim p ∧ window m = ws p
    ∧ epochs m = epoch p ∧ negative m = neg p
    ∧ (hs m = true ↔ loss p = 1%Z)
    ∧ (sg m = true ↔ model p = 2%Z)
    ∧ tr_bucket (trainables m) = bucket p
    ∧ file_name m = file_name self.
Proof.
  intros Hheader Hvocab Hprepare Hwords Hsize.
  unfold _load_model_params, mbind, M_bind.
  unfold bind at 1. rewrite Hheader.
  unfold bind at 1. rewrite Hvocab.
  unfold bind at 1, lift at 1. rewrite Hprepare.
  rewrite Hwords, <- Hsize, Z.eqb_refl. cbn.
  eexists. split; [reflexivity |]. cbn.
  repeat split; try done; by apply Z.eqb_eq.
Qed.

Lemma load_model_params_sizes_agree_witness :
  ∃ m,
    _load_model_params prepare_vocab_all blank_model latin1 (on_file whole_file)
    = Ok (m, IO "model.bin" (whole_input ++ whole_output)
               [loading_message 1 "model.bin"])
    ∧ wv m = whole_wv ∧ vocabulary m = vocabulary whole_model
    ∧ self_new_format m = true
    ∧ self_vector_size m = 4%Z ∧ window m = 5%Z
    ∧ epochs m = 5%Z ∧ negative m = 5%Z
    ∧ (hs m = true ↔ 2%Z = 1%Z)
    ∧ (sg m = true ↔ 1%Z = 2%Z)
    ∧ tr_bucket (trainables m) = 10%Z
    ∧ file_name m = file_name blank_model.
Proof.
  eapply (load_model_params_sizes_agree prepare_vocab_all blank_model latin1
            (on_file whole_file) _ _
            (ModelParams true 4 5 5 1 5 2 1 10 3 3 sample_t)).
  - vm_compute. reflexivity.
  - vm_compute. reflexivity.
  - vm_compute. reflexivity.
  - vm_compute. reflexivity.
  - vm_compute. reflexivity.
Defined.

(** X9. When the vocabulary built from the file does not have the declared
    word count, [_load_model_params] raises [AssertionError]; that mismatch
    is fatal. *)
Theorem load_model_params_word_count_mismatch
    (prepare_vocab :
       FastTextVocab → bool → Z → FastTextKeyedVectors → bool → Z →
       outcome (FastTextVocab * FastTextKeyedVectors))
    (self : FastText) (enc : codec) (st st1 st2 : io) (p : model_params)
    (v v' : FastTextVocab) (wv1 : FastTextKeyedVectors) :
  _load_model_params_header st = Ok (p, st1) →
  _load_vocab (new_format p) (t p) (min_count p) enc st1 = Ok (v, st2) →
  prepare_vocab v (loss p =? 1)%Z (neg p)
    (KeyedVectors_new (dim p) (minn p) (maxn p) (bucket p) true) true
    (min_count p) = Ok (v', wv1) →
  Z.of_nat (size (vocab wv1)) ≠ nwords v' →
  _load_model_params prepare_vocab self enc st
  = Raise (AssertionError
             "mismatch between final vocab size and expected number of words").
Proof.
  intros Hheader Hvocab Hprepare Hwords.
  unfold _load_model_params, mbind, M_bind.
  unfold bind at 1. rewrite Hheader.
  unfold bind at 1. rewrite Hvocab.
  unfold bind at 1, lift at 1. rewrite Hprepare.
  apply Z.eqb_neq in Hwords. by rewrite Hwords.
Qed.

Lemma load_model_params_word_count_mismatch_witness :
  _load_model_params prepare_vocab_all blank_model latin1
    (on_file (new_header ++ i32 2 ++ i32 2 ++ i32 0 ++ i64 12 ++ i64 0 ++
              entry_bytes (entry_of "a" 5) ++ entry_bytes (entry_of "a" 7)))
  = Raise (AssertionError
             "mismatch between final vocab size and expected number of words").
Proof.
  eapply (load_model_params_word_count_mismatch prepare_vocab_all blank_model
            latin1).
  - vm_compute. reflexivity.
  - vm_compute. reflexivity.
  - vm_compute. reflexivity.
  - vm_compute. discriminate.
Defined.

(** ** The two matrices of a file *)

(** A matrix whose counts are not negative and whose floats are all there
    is read whole. *)
Lemma load_matrix_ok (native_float_size : nat) (new_format : bool)
    (expected_vector_size : option Z) (st : io) :
  let s := pending st in
  let o := if new_format then 1 else 0 in
  let num_vectors := int64_at s o in
  let dim := int64_at s (o + 8) in
  let count := Z.to_nat (num_vectors * dim) in
  o + 16 ≤ length s →
  expected_vector_size = None ∨ expected_vector_size = Some dim →
  native_float_size = 4 ∨ native_float_size = 8 →
  (0 ≤ num_vectors)%Z → (0 ≤ dim)%Z →
  o + 16 + count * native_float_size ≤ length s →
  _load_matrix native_float_size new_format expected_vector_size st
  = Ok (Arr2 (dtype_of_size native_float_size) (Z.to_nat dim)
          (chunks (Z.to_nat num_vectors) (Z.to_nat dim)
             (map le_uint (chunks count native_float_size (drop (o + 16) s)))),
        IO (fname st) (drop (o + 16 + count * native_float_size) s)
          (logged st)).
Proof.
  intros s o num_vectors dim count Hlen Hexp Hsize Hrows Hcols Hdata.
  pose proof (load_matrix_counts new_format st Hlen) as Hcounts.
  cbv zeta in Hcounts. fold s o num_vectors dim in Hcounts.
  unfold mbind, M_bind in Hcounts.
  unfold _load_matrix, mbind, M_bind.
  unfold bind at 1. unfold bind at 1 in Hcounts.
  destruct (if new_format then _struct_unpack "@?" else ret []) as [[a st1] | |];
    try discriminate.
  cbn beta iota. unfold bind at 1. rewrite Hcounts. fold dim.
  rewrite assert_true
    by (destruct Hexp as [-> | ->]; [done | by rewrite Z.eqb_refl]).
  destruct (dtype_choice native_float_size Hsize) as [Hdtype Hitem].
  unfold bind at 1. unfold ret at 1. unfold bind at 1. rewrite Hdtype.
  unfold ret at 1. unfold bind at 1, np_fromfile. cbn [pending fname logged].
  rewrite Hitem.
  replace (num_vectors * dim <? 0)%Z with false by (symmetry; apply Z.ltb_ge; nia).
  assert (Havail : count ≤ length (drop (o + 16) s) `div` native_float_size).
  { apply Nat.div_le_lower_bound; [destruct Hsize; lia |].
    rewrite length_drop. lia. }
  replace (Z.of_nat (length (drop (o + 16) s) `div` native_float_size)
           <? num_vectors * dim)%Z
    with false by (symmetry; apply Z.ltb_ge; unfold count in Havail; nia).
  replace (num_vectors * dim <? - 2 ^ 63)%Z with false
    by (symmetry; apply Z.ltb_ge; nia).
  rewrite andb_false_r. cbn [orb].
  replace (Z.to_nat (Z.min (num_vectors * dim)
             (Z.of_nat (length (drop (o + 16) s) `div` native_float_size))))
    with count by (unfold count; lia).
  unfold reshape. rewrite length_map, length_chunks.
  replace (0 <=? num_vectors)%Z with true by (symmetry; by apply Z.leb_le).
  replace (0 <=? dim)%Z with true by (symmetry; by apply Z.leb_le).
  cbn [andb].
  replace (num_vectors * dim =? Z.of_nat count)%Z with true
    by (symmetry; apply Z.eqb_eq; unfold count; nia).
  unfold ret. by rewrite drop_drop.
Qed.

Section InputMatrix.

Variable native_float_size : nat.
Variable self : FastText.
Variable st : io.

Let s := pending st.
Let o := if self_new_format self then 1 else 0.
Let num_vectors := int64_at s o.
Let dim := int64_at s (o + 8).
Let count := Z.to_nat (num_vectors * dim).
Let matrix :=
  Arr2 (dtype_of_size native_float_size) (Z.to_nat dim)
    (chunks (Z.to_nat num_vectors) (Z.to_nat dim)
       (map le_uint (chunks count native_float_size (drop (o + 16) s)))).

Hypothesis Hcounts : o + 16 ≤ length s.
Hypothesis Hdim : vector_size (wv self) = dim.
Hypothesis Hsize : native_float_size = 4 ∨ native_float_size = 8.
Hypothesis Hrows : (0 ≤ num_vectors)%Z.
Hypothesis Hcols : (0 ≤ dim)%Z.
Hypothesis Hdata : o + 16 + count * native_float_size ≤ length s.

Lemma load_vectors_matrix :
  _load_matrix native_float_size (self_new_format self)
    (Some (vector_size (wv self))) st
  = Ok (matrix,
        IO (fname st) (drop (o + 16 + count * native_float_size) s) (logged st)).
Proof.
  apply load_matrix_ok; try done. right. by rewrite Hdim.
Qed.

Lemma load_vectors_shape : Z.of_nat <$> shape matrix = [num_vectors; dim].
Proof.
  unfold matrix. cbn [shape fmap list_fmap].
  by rewrite length_chunks, !Z2Nat.id.
Qed.

(** X10. [_load_vectors] accepts an input matrix of exactly
    bucket + vocabulary-size rows and model-dimension columns: it stores the
    matrix as [wv.vectors_ngrams], records its row count as
    [num_original_vectors] and leaves the handle after the last float. *)
Theorem load_vectors_accepts :
  num_vectors
  = (tr_bucket (trainables self) + Z.of_nat (size (vocab (wv self))))%Z →
  ∃ self',
    _load_vectors native_float_size self st
    = Ok (self',
          IO (fname st) (drop (o + 16 + count * native_float_size) s)
            (logged st))
    ∧ vectors_ngrams (wv self') = Some matrix
    ∧ num_original_vectors self' = Z.to_nat num_vectors
    ∧ vocab (wv self') = vocab (wv self)
    ∧ vocabulary self' = vocabulary self
    ∧ trainables self' = trainables self.
Proof.
  intros Hshape. unfold _load_vectors, mbind, M_bind.
  unfold bind at 1. rewrite load_vectors_matrix.
  cbn [wv trainables with_wv with_num_original_vectors with_vectors_ngrams
       vocab vector_size].
  rewrite load_vectors_shape, Hdim, <- Hshape.
  rewrite bool_decide_eq_true_2 by done. cbn.
  eexists. split; [reflexivity |]. cbn. unfold matrix.
  by rewrite length_chunks.
Qed.

(** X11. With any other row count the whole matrix is read first and
    [_load_vectors] then raises [AssertionError]. *)
Theorem load_vectors_rejects :
  num_vectors
  ≠ (tr_bucket (trainables self) + Z.of_nat (size (vocab (wv self))))%Z →
  _load_vectors native_float_size self st
  = Raise (AssertionError
             "mismatch between actual weight matrix shape and expected shape").
Proof.
  intros Hshape. unfold _load_vectors, mbind, M_bind.
  unfold bind at 1. rewrite load_vectors_matrix.
  cbn [wv trainables with_wv with_num_original_vectors with_vectors_ngrams
       vocab vector_size].
  rewrite load_vectors_shape, Hdim.
  rewrite bool_decide_eq_false_2; [done |]. congruence.
Qed.

End InputMatrix.

Lemma load_vectors_accepts_witness :
  ∃ self' st',
    _load_vectors 4 whole_model (on_file (whole_input ++ whole_output))
    = Ok (self', st')
    ∧ pending st' = whole_output
    ∧ num_original_vectors self' = 11
    ∧ shape <$> vectors_ngrams (wv self') = Some [11; 4].
Proof.
  destruct (load_vectors_accepts 4 whole_model
              (on_file (whole_input ++ whole_output))
              ltac:(vm_compute; lia) eq_refl (or_introl eq_refl)
              ltac:(vm_compute; discriminate) ltac:(vm_compute; discriminate)
              ltac:(vm_compute; lia) eq_refl)
    as (self' & Hrun & Hmatrix & Hrows & _).
  eexists self', _. split; [exact Hrun |].
  rewrite Hmatrix, Hrows. vm_compute. done.
Defined.

Lemma load_vectors_rejects_witness :
  _load_vectors 4 whole_model (on_file whole_output)
  = Raise (AssertionError
             "mismatch between actual weight matrix shape and expected shape").
Proof.
  apply (load_vectors_rejects 4 whole_model (on_file whole_output)
           ltac:(vm_compute; lia) eq_refl (or_introl eq_refl)
           ltac:(vm_compute; discriminate) ltac:(vm_compute; discriminate)
           ltac:(vm_compute; lia)).
  vm_compute. discriminate.
Defined.

(** ** Masks after a load: [init_post_load] *)

Lemma init_post_load_ok (self : FastTextTrainables) (model : FastText)
    (hidden_output : ndarray) (st : io) (v : ndarray) :
  vectors (wv model) = Some v →
  0 < len v →
  0 < size (vocab (wv model)) →
  (0 ≤ vector_size (wv model))%Z →
  init_post_load self model hidden_output st
  = Ok (Trainables (seed self) (tr_bucket self)
          (Some (ones1 (len v)))
          (Some (ones2 (size (vocab (wv model)))
                   (Z.to_nat (vector_size (wv model)))))
          (Some (ones2 (len v) (Z.to_nat (vector_size (wv model)))))
          (if hs model then Some hidden_output else syn1 self)
          (if negb (negative model =? 0)%Z then Some hidden_output
           else syn1neg self)
          (vector_size (wv model)) (old_hash2index_len self),
        IO (fname st) (pending st)
          (logged st ++
           [LogEntry CRITICAL "len(self.wv.vocab): %r"
              [LInt (Z.of_nat (size (vocab (wv model))))]] ++
           [LogEntry CRITICAL "self.wv.vector_size: %r"
              [LInt (vector_size (wv model))]])).
Proof.
  intros Hv Hrows Hwords Hdim.
  unfold init_post_load, mbind, M_bind.
  unfold bind at 1, lift at 1. rewrite Hv. cbn [attr].
  unfold assert.
  replace (0 <? Z.of_nat (len v))%Z with true by (symmetry; apply Z.ltb_lt; lia).
  replace (0 <? Z.of_nat (size (vocab (wv model))))%Z with true
    by (symmetry; apply Z.ltb_lt; lia).
  unfold np_ones1, np_ones2.
  replace (Z.of_nat (len v) <? 0)%Z with false by (symmetry; apply Z.ltb_ge; lia).
  replace (Z.of_nat (size (vocab (wv model))) <? 0)%Z with false
    by (symmetry; apply Z.ltb_ge; lia).
  replace (vector_size (wv model) <? 0)%Z with false
    by (symmetry; apply Z.ltb_ge; lia).
  cbn. rewrite !Nat2Z.id. by rewrite <- app_assoc.
Qed.

(** X12. On a model that has vocabulary vectors and a vocabulary,
    [init_post_load] allocates three all-ones masks: a one-dimensional one
    with an entry per row of [wv.vectors], a vocabulary mask with a row of
    [vector_size] ones per vocabulary word, and an n-gram mask with a row
    per row of [wv.vectors].  The hidden matrix becomes [syn1] when [hs] is
    set and [syn1neg] when [negative] is not zero, both when both hold;
    [layer1_size] becomes the vector size; two records are logged at level
    CRITICAL and the file handle is not touched. *)
Theorem init_post_load_result (self : FastTextTrainables) (model : FastText)
    (hidden_output : ndarray) (st : io) (v : ndarray) :
  vectors (wv model) = Some v →
  0 < len v →
  0 < size (vocab (wv model)) →
  (0 ≤ vector_size (wv model))%Z →
  ∃ tr st',
    init_post_load self model hidden_output st = Ok (tr, st')
    ∧ vectors_lockf tr = Some (ones1 (len v))
    ∧ vectors_vocab_lockf tr
      = Some (ones2 (size (vocab (wv model)))
                (Z.to_nat (vector_size (wv model))))
    ∧ vectors_ngrams_lockf tr
      = Some (ones2 (len v) (Z.to_nat (vector_size (wv model))))
    ∧ syn1 tr = (if hs model then Some hidden_output else syn1 self)
    ∧ syn1neg tr = (if (negative model =? 0)%Z then syn1neg self
                    else Some hidden_output)
    ∧ layer1_size tr = vector_size (wv model)
    ∧ pending st' = pending st
    ∧ lvl <$> drop (length (logged st)) (logged st') = [CRITICAL; CRITICAL].
Proof.
  intros Hv Hrows Hwords Hdim.
  eexists _, _. split; [by apply init_post_load_ok |].
  cbn [vectors_lockf vectors_vocab_lockf vectors_ngrams_lockf syn1 syn1neg
       layer1_size pending logged].
  repeat split; try done.
  - by destruct (negative model =? 0)%Z.
  - by rewrite drop_app_length.
Qed.

Lemma init_post_load_result_witness :
  ∃ tr st',
    init_post_load (trainables cat_model) cat_model cat_hidden_output
      (on_file []) = Ok (tr, st')
    ∧ vectors_lockf tr = Some (ones1 1)
    ∧ vectors_vocab_lockf tr = Some (ones2 1 4)
    ∧ vectors_ngrams_lockf tr = Some (ones2 1 4)
    ∧ syn1 tr = None
    ∧ syn1neg tr = Some cat_hidden_output
    ∧ layer1_size tr = 4%Z
    ∧ pending st' = []
    ∧ lvl <$> drop 0 (logged st') = [CRITICAL; CRITICAL].
Proof.
  apply (init_post_load_result (trainables cat_model) cat_model
           cat_hidden_output (on_file []) (Arr2 float32 4 [[11; 12; 13; 14]%Z])).
  - reflexivity.
  - cbn. lia.
  - vm_compute. lia.
  - vm_compute. discriminate.
Defined.

(** X13. [init_post_load] refuses a model without vocabulary vectors and a
    model without vocabulary: when [wv.vectors] has no row, or has rows
    while the vocabulary is empty, it raises [AssertionError] and sets no
    mask. *)
Theorem init_post_load_needs_vectors_and_vocabulary
    (self : FastTextTrainables) (model : FastText) (hidden_output : ndarray)
    (st : io) (v : ndarray) :
  vectors (wv model) = Some v →
  (len v = 0 →
   init_post_load self model hidden_output st
   = Raise (AssertionError "expected num_vectors to be initialized already"))
  ∧ (0 < len v → size (vocab (wv model)) = 0 →
     init_post_load self model hidden_output st
     = Raise (AssertionError "expected vocab_size to be initialized already")).
Proof.
  intros Hv. split.
  - intros Hrows. unfold init_post_load, mbind, M_bind, bind, lift.
    rewrite Hv. cbn [attr]. by rewrite Hrows.
  - intros Hrows Hwords. unfold init_post_load, mbind, M_bind, bind, lift.
    rewrite Hv. cbn [attr]. rewrite Hwords. unfold assert.
    by replace (0 <? Z.of_nat (len v))%Z with true
      by (symmetry; apply Z.ltb_lt; lia).
Qed.

Lemma init_post_load_needs_vectors_and_vocabulary_witness :
  init_post_load (trainables blank_model) no_rows_model cat_hidden_output
    (on_file [])
  = Raise (AssertionError "expected num_vectors to be initialized already")
  ∧ init_post_load (trainables blank_model) no_words_model cat_hidden_output
      (on_file [])
    = Raise (AssertionError "expected vocab_size to be initialized already").
Proof.
  split.
  - apply (proj1 (init_post_load_needs_vectors_and_vocabulary
                    (trainables blank_model) no_rows_model cat_hidden_output
                    (on_file []) (ones2 0 4) eq_refl)).
    reflexivity.
  - apply (proj2 (init_post_load_needs_vectors_and_vocabulary
                    (trainables blank_model) no_words_model cat_hidden_output
                    (on_file []) (ones2 2 4) eq_refl)).
    + cbn. lia.
    + reflexivity.
Defined.

(** ** The output matrix and the end of the file: [_load_trainables] *)

Section OutputMatrix.

Variable native_float_size : nat.
Variable init_ngrams_post_load :
  string → FastTextKeyedVectors → outcome FastTextKeyedVectors.
Variable init_vectors_vocab : FastTextKeyedVectors → outcome FastTextKeyedVectors.
Variable self : FastText.
Variable st : io.
Variable wv1 : FastTextKeyedVectors.

Let s := pending st.
Let o := if self_new_format self then 1 else 0.
Let num_vectors := int64_at s o.
Let dim := int64_at s (o + 8).
Let count := Z.to_nat (num_vectors * dim).
Let hidden_output :=
  Arr2 (dtype_of_size native_float_size) (Z.to_nat dim)
    (chunks (Z.to_nat num_vectors) (Z.to_nat dim)
       (map le_uint (chunks count native_float_size (drop (o + 16) s)))).

Hypothesis Hngrams : init_ngrams_post_load (file_name self) (wv self) = Ok wv1.
Hypothesis Hcounts : o + 16 ≤ length s.
Hypothesis Hdim : vector_size wv1 = dim.
Hypothesis Hsize : native_float_size = 4 ∨ native_float_size = 8.
Hypothesis Hrows : (0 ≤ num_vectors)%Z.
Hypothesis Hcols : (0 ≤ dim)%Z.

Lemma load_trainables_matrix :
  o + 16 + count * native_float_size ≤ length s →
  _load_matrix native_float_size (self_new_format self) (Some (vector_size wv1)) st
  = Ok (hidden_output,
        IO (fname st) (drop (o + 16 + count * native_float_size) s) (logged st)).
Proof.
  intros Hdata. apply load_matrix_ok; try done. right. by rewrite Hdim.
Qed.

(** X14. When bytes remain after the output matrix, [_load_trainables]
    raises [AssertionError]: the file must end with the last float. *)
Theorem load_trainables_trailing_data :
  o + 16 + count * native_float_size < length s →
  _load_trainables native_float_size init_ngrams_post_load init_vectors_vocab
    self st
  = Raise (AssertionError "expected to have reached EOF").
Proof.
  intros Hdata. unfold _load_trainables, mbind, M_bind.
  unfold bind at 1, lift at 1. rewrite Hngrams.
  cbn [with_wv wv self_new_format].
  unfold bind at 1. rewrite load_trainables_matrix by lia.
  unfold bind at 1, read_all. cbn [pending fname logged].
  rewrite bool_decide_eq_false_2; [done |].
  intros Hnil. apply (f_equal length) in Hnil.
  rewrite length_drop in Hnil. cbn in Hnil. lia.
Qed.

(** X15. When the file ends with the output matrix and the tables of the
    model can be filled, [_load_trainables] returns the model with its
    masks set by [init_post_load]: the vocabulary mask has a row of ones
    per vocabulary word, and the output matrix is [syn1neg] when [negative]
    is not zero and [syn1] when [hs] is set. *)
Theorem load_trainables_completes (wv2 : FastTextKeyedVectors) (v : ndarray) :
  o + 16 + count * native_float_size = length s →
  init_vectors_vocab wv1 = Ok wv2 →
  vectors wv2 = Some v →
  0 < len v →
  0 < size (vocab wv2) →
  (0 ≤ vector_size wv2)%Z →
  ∃ m st',
    _load_trainables native_float_size init_ngrams_post_load init_vectors_vocab
      self st
    = Ok (m, st')
    ∧ pending st' = []
    ∧ wv m = wv2
    ∧ vectors_vocab_lockf (trainables m)
      = Some (ones2 (size (vocab wv2)) (Z.to_nat (vector_size wv2)))
    ∧ syn1 (trainables m)
      = (if hs self then Some hidden_output else syn1 (trainables self))
    ∧ syn1neg (trainables m)
      = (if (negative self =? 0)%Z then syn1neg (trainables self)
         else Some hidden_output)
    ∧ layer1_size (trainables m) = vector_size wv2.
Proof.
  intros Hdata Hvocab Hv Hlen Hwords Hvs.
  unfold _load_trainables, mbind, M_bind.
  unfold bind at 1, lift at 1. rewrite Hngrams.
  cbn [with_wv wv self_new_format].
  unfold bind at 1. rewrite load_trainables_matrix by lia.
  unfold bind at 1, read_all. cbn [pending fname logged].
  rewrite drop_ge by lia. rewrite bool_decide_eq_true_2 by done.
  unfold assert, bind at 1, ret at 1.
  unfold bind at 1, lift at 1. rewrite Hvocab.
  unfold bind at 1.
  rewrite (init_post_load_ok _ _ _ _ v) by done.
  eexists _, _. split; [reflexivity |].
  cbn. repeat split; try done.
  by destruct (negative self =? 0)%Z.
Qed.

End OutputMatrix.

Lemma load_trainables_trailing_data_witness :
  _load_trainables 4 (λ _, fill_vocab_tables) fill_vocab_tables whole_model
    (on_file (whole_output ++ [x2a]))
  = Raise (AssertionError "expected to have reached EOF").
Proof.
  apply (load_trainables_trailing_data 4 (λ _, fill_vocab_tables)
           fill_vocab_tables whole_model (on_file (whole_output ++ [x2a]))
           whole_filled_wv
           ltac:(vm_compute; reflexivity) ltac:(vm_compute; lia) eq_refl (or_introl eq_refl)
           ltac:(vm_compute; discriminate) ltac:(vm_compute; discriminate)).
  vm_compute. lia.
Defined.

Lemma load_trainables_completes_witness :
  ∃ m st',
    _load_trainables 4 (λ _, fill_vocab_tables) fill_vocab_tables whole_model
      (on_file whole_output)
    = Ok (m, st')
    ∧ pending st' = []
    ∧ vectors_vocab_lockf (trainables m) = Some (ones2 1 4)
    ∧ syn1 (trainables m) = None
    ∧ syn1neg (trainables m) = Some (Arr2 float32 4 [[51; 52; 53; 54]%Z])
    ∧ layer1_size (trainables m) = 4%Z.
Proof.
  destruct (load_trainables_completes 4 (λ _, fill_vocab_tables)
              fill_vocab_tables whole_model (on_file whole_output)
              whole_filled_wv
              ltac:(vm_compute; reflexivity) ltac:(vm_compute; lia) eq_refl (or_introl eq_refl)
              ltac:(vm_compute; discriminate) ltac:(vm_compute; discriminate)
              whole_filled_wv
              (Arr2 float32 4 [[0; 0; 0; 0]%Z])
              ltac:(vm_compute; reflexivity) eq_refl eq_refl
              ltac:(cbn; lia) ltac:(vm_compute; lia)
              ltac:(vm_compute; discriminate))
    as (m & st' & Hrun & Hrest & Hwv & Hmask & Hsyn1 & Hneg & Hlayer).
  exists m, st'. split; [exact Hrun |].
  rewrite Hrest, Hmask, Hsyn1, Hneg, Hlayer. vm_compute. done.
Defined.

(** ** Masks at the first allocation: [init_ngrams_weights] without update *)

Lemma take_rows_ones (r c : nat) (indices : list nat) :
  Forall (λ i, i < r) indices →
  take_rows (ones2 r c) indices = Ok (ones2 (length indices) c).
Proof.
  intros Hin. unfold take_rows, ones2.
  assert (Hpick : mapM (λ i, replicate r (replicate c one) !! i) indices
                  = Some (replicate (length indices) (replicate c one))).
  { induction Hin as [| i l Hi _ IH]; [done |].
    cbn. rewrite lookup_replicate_2 by done. cbn. by rewrite IH. }
  by rewrite Hpick.
Qed.

Lemma take_rows_out_of_range (r c : nat) (indices : list nat) :
  Exists (λ i, r ≤ i) indices →
  take_rows (ones2 r c) indices = Raise IndexError.
Proof.
  intros Hout. unfold take_rows, ones2.
  assert (Hpick : mapM (λ i, replicate r (replicate c one) !! i) indices = None).
  { apply mapM_None_2. eapply Exists_impl; [exact Hout |].
    intros i Hi. apply lookup_ge_None. by rewrite length_replicate. }
  by rewrite Hpick.
Qed.

Section FirstAllocation.

Variable widen : Z → Z.
Variable wv_init_ngrams_weights :
  Z → FastTextKeyedVectors → outcome (list nat * FastTextKeyedVectors).
Variable bucket_indices : FastTextKeyedVectors → string → list Z.
Variable uniform : dtype → Z → nat → nat → Z.

(** X16. The first allocation ([update=False]) gives the vocabulary mask one
    row of [vector_size] ones per vocabulary word and the n-gram mask one
    row of ones per index that [wv.init_ngrams_weights] returned, provided
    each index is below the bucket count; the other attributes of the
    trainables are untouched. *)
Theorem init_ngrams_weights_allocates_ones (self : FastTextTrainables)
    (wv wv' : FastTextKeyedVectors) (vocabulary : FastTextVocab)
    (ngram_indices : list nat) :
  wv_init_ngrams_weights (seed self) wv = Ok (ngram_indices, wv') →
  (0 ≤ tr_bucket self)%Z →
  (0 ≤ vector_size wv')%Z →
  Forall (λ i, i < Z.to_nat (tr_bucket self)) ngram_indices →
  init_ngrams_weights widen wv_init_ngrams_weights bucket_indices uniform
    self wv false vocabulary
  = Ok (Trainables (seed self) (tr_bucket self) (vectors_lockf self)
          (Some (ones2 (size (vocab wv')) (Z.to_nat (vector_size wv'))))
          (Some (ones2 (length ngram_indices) (Z.to_nat (vector_size wv'))))
          (syn1 self) (syn1neg self) (layer1_size self)
          (old_hash2index_len self),
        wv').
Proof.
  intros Hinit Hbucket Hdim Hin.
  rewrite init_ngrams_weights_value. cbn [negb].
  unfold mbind, outcome_bind. rewrite Hinit. unfold np_ones2.
  replace (Z.of_nat (size (vocab wv')) <? 0)%Z with false
    by (symmetry; apply Z.ltb_ge; lia).
  replace (vector_size wv' <? 0)%Z with false by (symmetry; apply Z.ltb_ge; lia).
  replace (tr_bucket self <? 0)%Z with false by (symmetry; apply Z.ltb_ge; lia).
  cbn [orb]. rewrite take_rows_ones by done. by rewrite Nat2Z.id.
Qed.

(** X17. When [wv.init_ngrams_weights] returns an index that is not below
    the bucket count, the first allocation raises [IndexError] at [take].
    Both masks are assigned by then and stay: the vocabulary mask has one
    row of ones per word, the n-gram mask one row of ones per bucket, not
    yet reduced to the rows of the indices. *)
Theorem init_ngrams_weights_index_out_of_range (self : FastTextTrainables)
    (wv wv' : FastTextKeyedVectors) (vocabulary : FastTextVocab)
    (ngram_indices : list nat) :
  wv_init_ngrams_weights (seed self) wv = Ok (ngram_indices, wv') →
  (0 ≤ tr_bucket self)%Z →
  (0 ≤ vector_size wv')%Z →
  Exists (λ i, Z.to_nat (tr_bucket self) ≤ i) ngram_indices →
  init_ngrams_weights_state widen wv_init_ngrams_weights bucket_indices
    uniform self wv false vocabulary
  = (Raise IndexError,
     (Trainables (seed self) (tr_bucket self) (vectors_lockf self)
        (Some (ones2 (size (vocab wv')) (Z.to_nat (vector_size wv'))))
        (Some (ones2 (Z.to_nat (tr_bucket self)) (Z.to_nat (vector_size wv'))))
        (syn1 self) (syn1neg self) (layer1_size self)
        (old_hash2index_len self),
      wv')).
Proof.
  intros Hinit Hbucket Hdim Hout.
  unfold init_ngrams_weights_state. cbn [negb].
  rewrite Hinit. unfold np_ones2. cbn [carry].
  replace (Z.of_nat (size (vocab wv')) <? 0)%Z with false
    by (symmetry; apply Z.ltb_ge; lia).
  replace (vector_size wv' <? 0)%Z with false by (symmetry; apply Z.ltb_ge; lia).
  cbn [orb carry with_vectors_vocab_lockf tr_bucket].
  replace (tr_bucket self <? 0)%Z with false by (symmetry; apply Z.ltb_ge; lia).
  cbn [orb carry]. rewrite take_rows_out_of_range by done.
  cbn. by rewrite Nat2Z.id.
Qed.

(** ** Padding a mask: [_pad_ones] *)

Lemma pad_ones_ok (d : dtype) (c : nat) (rows : list (list Z)) (k : Z) :
  (0 ≤ k)%Z →
  _pad_ones widen (Arr2 d c rows) k
  = Ok (Arr2 d c (rows ++ replicate (Z.to_nat k) (replicate c (pad_value widen d)))).
Proof.
  intros Hk. unfold _pad_ones. cbn [shape]. unfold np_ones2.
  replace (k <? 0)%Z with false by (symmetry; apply Z.ltb_ge; lia).
  replace (Z.of_nat c <? 0)%Z with false by (symmetry; apply Z.ltb_ge; lia).
  cbn. rewrite Nat2Z.id, Nat.eqb_refl.
  destruct d; cbn; [done |].
  by rewrite !fmap_replicate.
Qed.

(** X18. [_pad_ones] keeps the rows and the column count of a matrix and
    appends [new_rows] rows that hold the value one in every column (the
    float 1.0 for a mask of 4-byte floats, its widening for a mask of 8-byte
    floats). *)
Theorem pad_ones_appends_ones (d : dtype) (c : nat) (rows : list (list Z))
    (new_rows : Z) :
  (0 ≤ new_rows)%Z →
  ∃ suffix,
    _pad_ones widen (Arr2 d c rows) new_rows = Ok (Arr2 d c (rows ++ suffix))
    ∧ length suffix = Z.to_nat new_rows
    ∧ Forall (λ r, r = replicate c (pad_value widen d)) suffix.
Proof.
  intros Hk. eexists. split; [by apply pad_ones_ok |].
  split; [by rewrite length_replicate |].
  apply Forall_forall. intros r Hr.
  by apply elem_of_replicate in Hr as [-> _].
Qed.

(** X19. [_pad_ones] raises [ValueError] on a one-dimensional array, whose
    shape does not unpack into rows and columns, and on a negative number
    of new rows. *)
Theorem pad_ones_refuses (m : ndarray) (new_rows : Z) :
  (length (shape m) = 1 → _pad_ones widen m new_rows = Raise UnpackError)
  ∧ (length (shape m) = 2 → (new_rows < 0)%Z →
     _pad_ones widen m new_rows
     = Raise (ValueError "negative dimensions are not allowed")).
Proof.
  destruct m as [d v | d c rows]; cbn; split; try done; try lia.
  intros _ Hneg. unfold _pad_ones. cbn [shape]. unfold np_ones2.
  apply Z.ltb_lt in Hneg. by rewrite Hneg.
Qed.

(** X20. Padding in two steps is padding once by the sum: growing a mask by
    [a] rows and then by [b] rows gives the mask grown by [a + b] rows. *)
Theorem pad_ones_twice (m : ndarray) (a b : Z) :
  (0 ≤ a)%Z → (0 ≤ b)%Z →
  (m1 ← _pad_ones widen m a; _pad_ones widen m1 b)
  = _pad_ones widen m (a + b).
Proof.
  intros Ha Hb. destruct m as [d v | d c rows]; [done |].
  rewrite !pad_ones_ok by lia. cbn [mbind outcome_bind].
  rewrite pad_ones_ok by lia.
  by rewrite <- app_assoc, <- replicate_add, Z2Nat.inj_add.
Qed.

End FirstAllocation.

Lemma init_ngrams_weights_allocates_ones_witness :
  init_ngrams_weights (λ z, z) (λ _ w, Ok ([2; 5; 7], w)) (λ _ _, [])
    (λ _ _ _ _, 0%Z) (trainables cat_model) cat_wv false cat_vocabulary
  = Ok (Trainables 1 10 None (Some (ones2 1 4)) (Some (ones2 3 4)) None None
          100 0, cat_wv).
Proof.
  etransitivity.
  - apply (init_ngrams_weights_allocates_ones (λ z, z)
             (λ _ w, Ok ([2; 5; 7], w)) (λ _ _, []) (λ _ _ _ _, 0%Z)
             (trainables cat_model) cat_wv cat_wv cat_vocabulary [2; 5; 7]).
    + reflexivity.
    + vm_compute. discriminate.
    + vm_compute. discriminate.
    + repeat constructor; vm_compute; lia.
  - vm_compute. reflexivity.
Defined.

Lemma init_ngrams_weights_index_out_of_range_witness :
  init_ngrams_weights_state (λ z, z) (λ _ w, Ok ([2; 12], w)) (λ _ _, [])
    (λ _ _ _ _, 0%Z) (trainables cat_model) cat_wv false cat_vocabulary
  = (Raise IndexError,
     (Trainables 1 10 None (Some (ones2 1 4)) (Some (ones2 10 4)) None None
        100 0, cat_wv)).
Proof.
  etransitivity.
  - apply (init_ngrams_weights_index_out_of_range (λ z, z)
             (λ _ w, Ok ([2; 12], w)) (λ _ _, []) (λ _ _ _ _, 0%Z)
             (trainables cat_model) cat_wv cat_wv cat_vocabulary [2; 12]).
    + reflexivity.
    + vm_compute. discriminate.
    + vm_compute. discriminate.
    + apply Exists_cons_tl, Exists_cons_hd. vm_compute. lia.
  - vm_compute. reflexivity.
Defined.

Lemma pad_ones_appends_ones_witness :
  ∃ suffix,
    _pad_ones (λ z, z) (Arr2 float32 4 [[0; 1; 0; 1]%Z]) 2
    = Ok (Arr2 float32 4 ([[0; 1; 0; 1]%Z] ++ suffix))
    ∧ length suffix = 2
    ∧ Forall (λ r, r = replicate 4 one) suffix.
Proof.
  apply (pad_ones_appends_ones (λ z, z) float32 4 [[0; 1; 0; 1]%Z] 2).
  lia.
Defined.

Lemma pad_ones_refuses_witness :
  _pad_ones (λ z, z) (ones1 3) 2 = Raise UnpackError
  ∧ _pad_ones (λ z, z) (ones2 3 4) (-1)
    = Raise (ValueError "negative dimensions are not allowed").
Proof.
  split.
  - apply (proj1 (pad_ones_refuses (λ z, z) (ones1 3) 2)). reflexivity.
  - apply (proj2 (pad_ones_refuses (λ z, z) (ones2 3 4) (-1)));
      [reflexivity | lia].
Defined.

Lemma pad_ones_twice_witness :
  (m1 ← _pad_ones (λ z, z) (ones2 1 4) 2; _pad_ones (λ z, z) m1 3)
  = _pad_ones (λ z, z) (ones2 1 4) 5.
Proof.
  apply (pad_ones_twice (λ z, z) (ones2 1 4) 2 3); lia.
Defined.

(** ** The checks of [_check_model] *)

(** X21. [_check_model] returns without logging anything when the n-gram
    matrix and the matrix [syn1neg] both have [vector_size] columns and the
    vocabulary has both the declared word count and the declared vocabulary
    size. *)
Theorem check_model_passes (m : FastText) (st : io) (d d' : dtype)
    (rows rows' : list (list Z)) :
  (0 ≤ vector_size (wv m))%Z →
  vectors_ngrams (wv m) = Some (Arr2 d (Z.to_nat (vector_size (wv m))) rows) →
  syn1neg (trainables m)
  = Some (Arr2 d' (Z.to_nat (vector_size (wv m))) rows') →
  Z.of_nat (size (vocab (wv m))) = nwords (vocabulary m) →
  nwords (vocabulary m) = vocab_size (vocabulary m) →
  _check_model m st = Ok (tt, st).
Proof.
  intros Hdim Hngrams Hneg Hwords Hsize.
  unfold _check_model, mbind, M_bind.
  unfold bind at 1, lift at 1. rewrite Hngrams. cbn [attr shape].
  rewrite Z2Nat.id, Z.eqb_refl by done. rewrite Hwords, <- Hsize, Z.eqb_refl.
  rewrite Hneg. cbn.
  rewrite Z2Nat.id, Z.eqb_refl by done. cbn. by destruct st.
Qed.

Lemma check_model_passes_witness :
  _check_model whole_loaded_model (on_file []) = Ok (tt, on_file []).
Proof.
  apply (check_model_passes whole_loaded_model (on_file []) float32 float32
           (replicate 11 (replicate 4 one)) [[51; 52; 53; 54]%Z]).
  - vm_compute. discriminate.
  - reflexivity.
  - reflexivity.
  - vm_compute. reflexivity.
  - reflexivity.
Defined.

(** X22. [_check_model] refuses a model in this order.  It raises
    [AssertionError] when the n-gram matrix does not have [vector_size]
    columns.  When it has them, it raises [AttributeError] if [syn1neg] was
    never assigned and [AssertionError] if [syn1neg] is a matrix of another
    column count.  When both matrices have [vector_size] columns, it raises
    [AssertionError] if the vocabulary does not have the declared word
    count. *)
Theorem check_model_refuses (m : FastText) (st : io) (d : dtype) (c : nat)
    (rows : list (list Z)) :
  vectors_ngrams (wv m) = Some (Arr2 d c rows) →
  (vector_size (wv m) ≠ Z.of_nat c →
   _check_model m st
   = Raise (AssertionError
              "mismatch between vector size in model params and model vectors"))
  ∧ (vector_size (wv m) = Z.of_nat c →
     syn1neg (trainables m) = None →
     _check_model m st = Raise (AttributeError "syn1neg"))
  ∧ (∀ d' c' rows',
       vector_size (wv m) = Z.of_nat c →
       syn1neg (trainables m) = Some (Arr2 d' c' rows') →
       vector_size (wv m) ≠ Z.of_nat c' →
       _check_model m st
       = Raise (AssertionError
                  "mismatch between vector size in model params and trainables"))
  ∧ (∀ d' rows',
       vector_size (wv m) = Z.of_nat c →
       syn1neg (trainables m) = Some (Arr2 d' c rows') →
       Z.of_nat (size (vocab (wv m))) ≠ nwords (vocabulary m) →
       _check_model m st
       = Raise (AssertionError
                  "mismatch between final vocab size and expected number of words")).
Proof.
  intros Hngrams. repeat split.
  - intros Hne. unfold _check_model, mbind, M_bind, bind, lift.
    rewrite Hngrams. cbn [attr shape].
    apply Z.eqb_neq in Hne. by rewrite Hne.
  - intros Heq Hneg. unfold _check_model, mbind, M_bind, bind, lift.
    rewrite Hngrams. cbn [attr shape].
    by rewrite Heq, Z.eqb_refl, Hneg.
  - intros d' c' rows' Heq Hneg Hne.
    unfold _check_model, mbind, M_bind, bind, lift.
    rewrite Hngrams. cbn [attr shape].
    rewrite Hneg. apply Z.eqb_neq in Hne. rewrite Hne.
    by rewrite Heq, Z.eqb_refl.
  - intros d' rows' Heq Hneg Hwords.
    unfold _check_model, mbind, M_bind, bind, lift.
    rewrite Hngrams. cbn [attr shape].
    rewrite Heq, Z.eqb_refl, Hneg. cbn. rewrite ?Heq, Z.eqb_refl. cbn.
    apply Z.eqb_neq in Hwords. by rewrite Hwords.
Qed.

Lemma check_model_refuses_witness :
  _check_model
    (with_wv (with_vectors_ngrams (ones2 11 3) whole_filled_wv) whole_model)
    (on_file [])
  = Raise (AssertionError
             "mismatch between vector size in model params and model vectors")
  ∧ _check_model
      (with_wv (with_vectors_ngrams (ones2 11 4) whole_filled_wv) whole_model)
      (on_file [])
    = Raise (AttributeError "syn1neg")
  ∧ _check_model
      (with_wv (with_wv_compatible_hash true
                  (KeyedVectors (vocab whole_filled_wv) ["a"%string] 5 3 3 10
                     true None None (Some (ones2 11 5)) ∅))
         whole_loaded_model)
      (on_file [])
    = Raise (AssertionError
               "mismatch between vector size in model params and trainables")
  ∧ _check_model
      (with_vocabulary (Vocabulary sample_t 1 2 2 ∅ 0) whole_loaded_model)
      (on_file [])
    = Raise (AssertionError
               "mismatch between final vocab size and expected number of words").
Proof.
  split; [| split; [| split]].
  - apply (proj1 (check_model_refuses
                    (with_wv (with_vectors_ngrams (ones2 11 3) whole_filled_wv)
                       whole_model)
                    (on_file []) float32 3 (replicate 11 (replicate 3 one))
                    eq_refl)).
    vm_compute. discriminate.
  - apply (proj1 (proj2 (check_model_refuses
                    (with_wv (with_vectors_ngrams (ones2 11 4) whole_filled_wv)
                       whole_model)
                    (on_file []) float32 4 (replicate 11 (replicate 4 one))
                    eq_refl))).
    + reflexivity.
    + reflexivity.
  - apply (proj1 (proj2 (proj2 (check_model_refuses
                    (with_wv (with_wv_compatible_hash true
                                (KeyedVectors (vocab whole_filled_wv)
                                   ["a"%string] 5 3 3 10 true None None
                                   (Some (ones2 11 5)) ∅))
                       whole_loaded_model)
                    (on_file []) float32 5 (replicate 11 (replicate 5 one))
                    eq_refl)))
             float32 4 [[51; 52; 53; 54]%Z]).
    + reflexivity.
    + reflexivity.
    + vm_compute. discriminate.
  - apply (proj2 (proj2 (proj2 (check_model_refuses
                    (with_vocabulary (Vocabulary sample_t 1 2 2 ∅ 0)
                       whole_loaded_model)
                    (on_file []) float32 4 (replicate 11 (replicate 4 one))
                    eq_refl)))
             float32 [[51; 52; 53; 54]%Z]).
    + reflexivity.
    + reflexivity.
    + vm_compute. discriminate.
Defined.

(** X30. [_check_model] has the slip of [_load_model_params]: when the
    vocabulary has the declared word count but not the declared vocabulary
    size, the call that should log a warning reads the unbound name
    [vocabulary], and [_check_model] raises [NameError] without logging. *)
Theorem check_model_vocab_size_mismatch (m : FastText) (st : io) (d : dtype)
    (rows : list (list Z)) :
  (0 ≤ vector_size (wv m))%Z →
  vectors_ngrams (wv m) = Some (Arr2 d (Z.to_nat (vector_size (wv m))) rows) →
  (∃ d' rows',
     syn1neg (trainables m)
     = Some (Arr2 d' (Z.to_nat (vector_size (wv m))) rows')) →
  Z.of_nat (size (vocab (wv m))) = nwords (vocabulary m) →
  nwords (vocabulary m) ≠ vocab_size (vocabulary m) →
  _check_model m st = Raise (NameError "vocabulary").
Proof.
  intros Hdim Hngrams Hneg Hwords Hsize.
  unfold _check_model, mbind, M_bind.
  unfold bind at 1, lift at 1. rewrite Hngrams. cbn [attr shape].
  rewrite Z2Nat.id, Z.eqb_refl by done. rewrite Hwords, Z.eqb_refl.
  apply Z.eqb_neq in Hsize.
  destruct Hneg as (d' & rows' & ->); cbn.
  rewrite Z2Nat.id, Z.eqb_refl by done. cbn. by rewrite Hsize.
Qed.

Lemma check_model_vocab_size_mismatch_witness :
  _check_model
    (with_vocabulary (Vocabulary sample_t 1 2 1 ∅ 0) whole_loaded_model)
    (on_file [])
  = Raise (NameError "vocabulary").
Proof.
  apply (check_model_vocab_size_mismatch
           (with_vocabulary (Vocabulary sample_t 1 2 1 ∅ 0) whole_loaded_model)
           (on_file []) float32 (replicate 11 (replicate 4 one))).
  - vm_compute. discriminate.
  - reflexivity.
  - by exists float32, [[51; 52; 53; 54]%Z].
  - vm_compute. reflexivity.
  - vm_compute. discriminate.
Defined.

(** ** The name of the file *)

Lemma substring_whole (s : string) : substring 0 (String.length s) s = s.
Proof. induction s as [| a s IH]; cbn; [done | by rewrite IH]. Qed.

Lemma substring_suffix (s suffix : string) :
  substring (String.length s) (String.length suffix) (s ++ suffix)%string = suffix.
Proof. induction s as [| a s IH]; cbn; [apply substring_whole | exact IH]. Qed.

Lemma length_append (s suffix : string) :
  String.length (s ++ suffix)%string = String.length s + String.length suffix.
Proof. induction s as [| a s IH]; simpl; [done | by f_equal]. Qed.

Lemma endswith_append (s suffix : string) :
  endswith (s ++ suffix)%string suffix = true.
Proof.
  unfold endswith. cbv zeta. rewrite length_append.
  replace (String.length s + String.length suffix - String.length suffix)
    with (String.length s) by lia.
  rewrite substring_suffix, String.eqb_refl.
  by rewrite (proj2 (Nat.leb_le _ _)) by lia.
Qed.

(** X23. The suffix ".bin" of the model file is optional: for a name that
    does not end with ".bin", [load_fasttext_format] does what it does for
    the name with ".bin" appended, and a name that ends with ".bin" is not
    extended again. *)
Theorem load_fasttext_format_suffix (native_float_size : nat)
    (prepare_vocab :
       FastTextVocab → bool → Z → FastTextKeyedVectors → bool → Z →
       outcome (FastTextVocab * FastTextKeyedVectors))
    (init_ngrams_post_load :
       string → FastTextKeyedVectors → outcome FastTextKeyedVectors)
    (init_vectors_vocab : FastTextKeyedVectors → outcome FastTextKeyedVectors)
    (default_model : FastText) (model_file : string) (enc : codec)
    (content : list byte) :
  endswith model_file ".bin" = false →
  load_fasttext_format native_float_size prepare_vocab init_ngrams_post_load
    init_vectors_vocab default_model model_file enc content
  = load_fasttext_format native_float_size prepare_vocab init_ngrams_post_load
      init_vectors_vocab default_model (model_file ++ ".bin")%string enc content.
Proof.
  intros Hno. unfold load_fasttext_format.
  by rewrite Hno, endswith_append.
Qed.

Lemma load_fasttext_format_suffix_witness :
  load_fasttext_format 4 prepare_vocab_all (λ _, fill_vocab_tables)
    fill_vocab_tables blank_model "model" latin1 whole_file
  = load_fasttext_format 4 prepare_vocab_all (λ _, fill_vocab_tables)
      fill_vocab_tables blank_model "model.bin" latin1 whole_file.
Proof.
  apply (load_fasttext_format_suffix 4 prepare_vocab_all (λ _, fill_vocab_tables)
           fill_vocab_tables blank_model "model" latin1 whole_file).
  reflexivity.
Defined.

(** ** Reviving a saved model *)

Lemma with_trainables_same (m : FastText) : with_trainables (trainables m) m = m.
Proof. by destruct m. Qed.

(** X24. A saved model that has a vocabulary table but no vocabulary mask
    gets from [FastText.load] a mask that is a one-dimensional array of
    ones with one entry per row of [trainables.vectors]; such a mask cannot
    be grown, [_pad_ones] raises [ValueError] on it for every number of new
    rows. *)
Theorem load_fallback_mask (base_load : outcome unpickled)
    (load_old_fasttext : outcome revived) (st : io) (u : unpickled)
    (v : ndarray) :
  base_load = Ok u →
  vectors_vocab_lockf (trainables (u_model u)) = None →
  hasattr (vectors_vocab (wv (u_model u))) = true →
  u_trainables_vectors u = Some v →
  ∃ r st' mask,
    load base_load load_old_fasttext st = Ok (r, st')
    ∧ vectors_vocab_lockf (trainables (r_model r)) = Some mask
    ∧ mask = ones1 (len v)
    ∧ ∀ widen new_rows, _pad_ones widen mask new_rows = Raise UnpackError.
Proof.
  intros Hload Hmask Htable Hvectors.
  unfold load, load_try, mbind, M_bind.
  unfold bind at 1, lift at 1. rewrite Hload.
  rewrite Hmask, Htable, Hvectors. cbn [hasattr negb andb attr].
  unfold bind at 1. unfold bind at 1, lift at 1.
  unfold ret at 1. unfold bind at 1.
  cbn [with_vectors_vocab_lockf vectors_ngrams_lockf].
  destruct (negb (hasattr (vectors_ngrams_lockf (trainables (u_model u))))
            && hasattr (vectors_ngrams (wv (u_model u))));
    destruct (u_compatible_hash u);
    cbn; eexists _, _, _; (split; [reflexivity |]); cbn; done.
Qed.

Lemma load_fallback_mask_witness :
  ∃ r st' mask,
    load (Ok old_pickle) (Raise (RuntimeError "unused")) (on_file [])
    = Ok (r, st')
    ∧ vectors_vocab_lockf (trainables (r_model r)) = Some mask
    ∧ mask = ones1 7
    ∧ ∀ widen new_rows, _pad_ones widen mask new_rows = Raise UnpackError.
Proof.
  apply (load_fallback_mask (Ok old_pickle) (Raise (RuntimeError "unused"))
           (on_file []) old_pickle (ones2 7 4));
    reflexivity.
Defined.

(** X25. When the base class's [load] raises [AttributeError], or returns a
    model that needs a vocabulary mask while its trainables have no
    [vectors], [FastText.load] logs one record at level INFO and returns
    what [load_old_fasttext] returns or raises. *)
Theorem load_falls_back_to_old_loader (base_load : outcome unpickled)
    (load_old_fasttext : outcome revived) (st : io) :
  (∃ name, base_load = Raise (AttributeError name))
  ∨ (∃ u, base_load = Ok u
          ∧ vectors_vocab_lockf (trainables (u_model u)) = None
          ∧ hasattr (vectors_vocab (wv (u_model u))) = true
          ∧ u_trainables_vectors u = None) →
  load base_load load_old_fasttext st
  = match load_old_fasttext with
    | Ok r =>
        Ok (r, IO (fname st) (pending st)
                 (logged st ++
                  [LogEntry INFO
                     "Model saved using code from earlier Gensim Version. Re-loading old model in a compatible way."
                     []]))
    | Raise e => Raise e
    | Diverge => Diverge
    end.
Proof.
  intros [[name Hload] | (u & Hload & Hmask & Htable & Hvectors)];
    unfold load, load_try, mbind, M_bind.
  - unfold bind at 1, lift at 1. rewrite Hload.
    unfold bind, logger, lift. by destruct load_old_fasttext.
  - unfold bind at 1, lift at 1. rewrite Hload.
    rewrite Hmask, Htable, Hvectors. cbn [hasattr negb andb attr].
    unfold bind at 1. unfold bind at 1, lift at 1.
    unfold bind, logger, lift. by destruct load_old_fasttext.
Qed.

Lemma load_falls_back_to_old_loader_witness :
  load (Ok older_pickle) (Ok (Revived blank_model None None)) (on_file [])
  = Ok (Revived blank_model None None,
        IO "model.bin" []
          [LogEntry INFO
             "Model saved using code from earlier Gensim Version. Re-loading old model in a compatible way."
             []]).
Proof.
  apply (load_falls_back_to_old_loader (Ok older_pickle)
           (Ok (Revived blank_model None None)) (on_file [])).
  right. exists older_pickle. repeat split; reflexivity.
Defined.

(** X26. A saved model that has both masks and a [compatible_hash] is
    returned by [FastText.load] as it was unpickled, and nothing is
    logged. *)
Theorem load_current_model_unchanged (base_load : outcome unpickled)
    (load_old_fasttext : outcome revived) (st : io) (u : unpickled) (b : bool) :
  base_load = Ok u →
  hasattr (vectors_vocab_lockf (trainables (u_model u))) = true →
  hasattr (vectors_ngrams_lockf (trainables (u_model u))) = true →
  u_compatible_hash u = Some b →
  load base_load load_old_fasttext st = Ok (Revived (u_model u) (Some b) None, st).
Proof.
  intros Hload Hvocab Hngrams Hhash.
  unfold load, load_try, mbind, M_bind.
  unfold bind at 1, lift at 1. rewrite Hload.
  rewrite Hvocab. cbn [negb andb]. unfold bind at 1, ret at 1.
  rewrite Hngrams. cbn [negb andb]. unfold bind at 1, ret at 1.
  rewrite Hhash. cbn [hasattr negb]. unfold ret.
  by rewrite with_trainables_same.
Qed.

Lemma load_current_model_unchanged_witness :
  load (Ok current_pickle) (Raise (RuntimeError "unused")) (on_file [])
  = Ok (Revived (with_trainables cat_trainables cat_model) (Some true) None,
        on_file []).
Proof.
  apply (load_current_model_unchanged (Ok current_pickle)
           (Raise (RuntimeError "unused")) (on_file []) current_pickle true);
    reflexivity.
Defined.

(** ** The memory estimate *)

Section Estimate.

Variable _compute_ngrams : string → Z → Z → list string.
Variable _ft_hash : string → hashed.
Variable _ft_hash_broken : string → hashed.

(** With a bucket count other than zero every remainder is defined. *)
Lemma mapM_remainder (hash_fn : string → hashed) (bucket : Z)
    (ngrams : list string) :
  bucket ≠ 0%Z →
  mapM (λ ng, remainder (hash_fn ng) bucket) ngrams
  = Some ((λ ng, hash_value (hash_fn ng) `mod` bucket)%Z <$> ngrams).
Proof.
  intros Hbucket. induction ngrams as [| ng ngrams IH]; [done |].
  cbn. rewrite IH. unfold remainder.
  by replace (bucket =? 0)%Z with false by (symmetry; by apply Z.eqb_neq).
Qed.

(** The scan of the words with a bucket count other than zero: the buckets
    of every n-gram of every word are added, and the n-grams counted. *)
Lemma scan_words_buckets (hash_fn : string → hashed) (min_n max_n bucket : Z)
    (words : list string) (buckets : gset Z) (num_ngrams : Z) :
  bucket ≠ 0%Z →
  scan_words _compute_ngrams hash_fn min_n max_n bucket words buckets
    num_ngrams
  = Some (buckets
          ∪ list_to_set
              (words ≫= λ word,
                 (λ ng, hash_value (hash_fn ng) `mod` bucket)%Z
                 <$> _compute_ngrams word min_n max_n),
          (num_ngrams
           + Z.of_nat (length (words ≫= λ word,
                                 _compute_ngrams word min_n max_n)))%Z).
Proof.
  intros Hbucket. revert buckets num_ngrams.
  induction words as [| word words IH]; intros buckets num_ngrams.
  - cbn. by rewrite (right_id_L ∅ (∪)), Z.add_0_r.
  - cbn [scan_words]. unfold update_buckets.
    rewrite mapM_remainder by done. rewrite IH. cbn [mbind list_bind].
    rewrite list_to_set_app_L, (assoc_L (∪)), length_app.
    do 2 f_equal. lia.
Qed.

(** With a bucket count of zero and hashes that are Python ints the first
    n-gram stops the scan. *)
Lemma scan_words_zero_bucket (hash_fn : string → hashed) (min_n max_n : Z)
    (words : list string) (buckets : gset Z) (num_ngrams : Z) :
  (∀ ng, ∃ h, hash_fn ng = PyInt h) →
  Exists (λ word, _compute_ngrams word min_n max_n ≠ []) words →
  scan_words _compute_ngrams hash_fn min_n max_n 0 words buckets num_ngrams
  = None.
Proof.
  intros Hint Hsome. revert buckets num_ngrams.
  assert (Hstop : ∀ ng ngs,
            mapM (λ ng, remainder (hash_fn ng) 0) (ng :: ngs) = None).
  { intros ng ngs. cbn. destruct (Hint ng) as [h ->]. done. }
  induction Hsome as [word words Hword | word words _ IH];
    intros buckets num_ngrams; cbn [scan_words]; unfold update_buckets.
  - destruct (_compute_ngrams word min_n max_n) as [| ng ngs]; [done |].
    by rewrite Hstop.
  - destruct (_compute_ngrams word min_n max_n) as [| ng ngs].
    + cbn. apply IH.
    + by rewrite Hstop.
Qed.

(** With a bucket count of zero and hashes that are numpy integers every
    n-gram falls into bucket 0. *)
Lemma scan_words_zero_bucket_numpy (hash_fn : string → hashed)
    (min_n max_n : Z) (words : list string) (buckets : gset Z)
    (num_ngrams : Z) :
  (∀ ng, ∃ h, hash_fn ng = Uint32 h) →
  ∃ found num_ngrams',
    scan_words _compute_ngrams hash_fn min_n max_n 0 words buckets num_ngrams
    = Some (found, num_ngrams')
    ∧ buckets ⊆ found
    ∧ found ⊆ buckets ∪ {[ 0%Z ]}
    ∧ (Exists (λ word, _compute_ngrams word min_n max_n ≠ []) words →
       0%Z ∈ found).
Proof.
  intros Hnumpy. revert buckets num_ngrams.
  assert (Hzero : ∀ ngs,
            mapM (λ ng, remainder (hash_fn ng) 0) ngs
            = Some (replicate (length ngs) 0%Z)).
  { intros ngs. apply mapM_Some.
    induction ngs as [| ng ngs IH]; [constructor |].
    cbn. constructor; [| done]. by destruct (Hnumpy ng) as [h ->]. }
  induction words as [| word words IH]; intros buckets num_ngrams.
  - cbn. eexists _, _. split; [reflexivity |].
    split; [done |]. split; [apply union_subseteq_l |]. by intros ?%Exists_nil.
  - cbn [scan_words]. unfold update_buckets. rewrite Hzero.
    set (ngs := _compute_ngrams word min_n max_n).
    destruct (IH (buckets ∪ list_to_set (replicate (length ngs) 0%Z))
                (num_ngrams + Z.of_nat (length ngs))%Z)
      as (found & num & -> & Hlow & Hhigh & Hhit).
    eexists _, _. split; [reflexivity |].
    assert (Hrep : list_to_set (replicate (length ngs) 0%Z) ⊆@{gset Z} {[ 0%Z ]}).
    { intros b Hb%elem_of_list_to_set. apply elem_of_replicate in Hb as [-> _].
      by apply elem_of_singleton. }
    split; [| split].
    + etransitivity; [apply union_subseteq_l | exact Hlow].
    + etransitivity; [exact Hhigh |].
      apply union_least; [| apply union_subseteq_r].
      apply union_least; [apply union_subseteq_l |].
      etransitivity; [exact Hrep | apply union_subseteq_r].
    + intros [Hword | Hrest]%Exists_cons; [| by apply Hhit].
      apply Hlow, elem_of_union_r, elem_of_list_to_set, elem_of_replicate.
      split; [done |]. fold ngs in Hword. by destruct ngs.
Qed.


(** X27. With a positive bucket count that fits the 32 bits of a hash,
    subword information enabled and a vocabulary, [estimate_memory] returns
    a report whose [syn0_ngrams] entry is the number of distinct buckets
    times the size of a vector.  A bucket is counted exactly when it is the
    hash, modulo the bucket count, of an n-gram of a vocabulary word.  The
    number of buckets counted never exceeds the bucket count, and it is the
    number that the one record logged reports. *)
Theorem estimate_memory_bucket_bound (self : FastText) (word_ngrams : Z)
    (compatible_hash : bool) (vocab_size : option Z) (report : gmap string Z) :
  let hash_fn := if compatible_hash then _ft_hash else _ft_hash_broken in
  (0 < tr_bucket (trainables self) < 2 ^ 32)%Z →
  (0 < word_ngrams)%Z →
  size (vocab (wv self)) ≠ 0 →
  ∃ report' (buckets : gset Z),
    estimate_memory _compute_ngrams _ft_hash _ft_hash_broken self word_ngrams
      compatible_hash vocab_size report
    = Estimated report'
        [LogEntry INFO
           "estimated required memory for %i words, %i buckets and %i dimensions: %i bytes"
           [LInt (Z.of_nat (size (vocab (wv self))));
            LInt (Z.of_nat (size buckets)); LInt (self_vector_size self);
            LInt (default 0%Z (report' !! "total"%string))]]
    ∧ (∀ b, b ∈ buckets ↔
            ∃ word ng,
              is_Some (vocab (wv self) !! word)
              ∧ ng ∈ _compute_ngrams word (min_n (wv self)) (max_n (wv self))
              ∧ b = (hash_value (hash_fn ng)
                     `mod` tr_bucket (trainables self))%Z)
    ∧ report' !! "syn0_ngrams"%string
      = Some (Z.of_nat (size buckets) * (self_vector_size self * 4))%Z
    ∧ (Z.of_nat (size buckets) ≤ tr_bucket (trainables self))%Z.
Proof.
  intros hash_fn Hbucket Hngrams Hwords. unfold estimate_memory.
  replace (0 <? word_ngrams)%Z with true by (symmetry; by apply Z.ltb_lt).
  replace (size (vocab (wv self)) =? 0)%nat with false
    by (symmetry; by apply Nat.eqb_neq).
  cbn [andb negb]. fold hash_fn.
  rewrite scan_words_buckets by lia.
  set (buckets := (∅ ∪ list_to_set _ : gset Z)).
  assert (Hmem : ∀ b, b ∈ buckets ↔
            ∃ word ng,
              is_Some (vocab (wv self) !! word)
              ∧ ng ∈ _compute_ngrams word (min_n (wv self)) (max_n (wv self))
              ∧ b = (hash_value (hash_fn ng)
                     `mod` tr_bucket (trainables self))%Z).
  { intros b. subst buckets.
    rewrite (left_id_L ∅ (∪)), elem_of_list_to_set, list_elem_of_bind.
    split.
    - intros (word & Hb & Hword).
      apply list_elem_of_fmap in Hb as (ng & -> & Hng).
      apply list_elem_of_fmap in Hword as ([word' item] & -> & Hitem).
      apply elem_of_map_to_list in Hitem.
      exists word', ng. by rewrite Hitem.
    - intros (word & ng & [item Hitem] & Hng & ->).
      exists word. split.
      + apply list_elem_of_fmap. by exists ng.
      + apply list_elem_of_fmap. exists (word, item).
        split; [done |]. by apply elem_of_map_to_list. }
  eexists _, buckets. split; [reflexivity |]. split; [exact Hmem |]. split.
  - rewrite lookup_insert_ne by done. rewrite lookup_insert_ne by done.
    apply lookup_insert_eq.
  - assert (Hin : buckets ⊆ list_to_set (seqZ 0 (tr_bucket (trainables self)))).
    { intros b (word & ng & _ & _ & ->)%Hmem.
      apply elem_of_list_to_set, elem_of_seqZ.
      pose proof (Z.mod_pos_bound (hash_value (hash_fn ng))
                    (tr_bucket (trainables self))). lia. }
    apply subseteq_size in Hin.
    rewrite size_list_to_set, length_seqZ in Hin by apply NoDup_seqZ. lia.
Qed.

(** X28. With a bucket count of zero, subword information enabled and a
    vocabulary word that has an n-gram, the outcome of [estimate_memory]
    depends on what the hash function returns.  With Python ints the
    remainder raises [ZeroDivisionError].  With [numpy.uint32] values every
    remainder is 0 and [estimate_memory] returns a report that counts one
    bucket. *)
Theorem estimate_memory_zero_bucket (self : FastText) (word_ngrams : Z)
    (compatible_hash : bool) (vocab_size : option Z) (report : gmap string Z)
    (word : string) (item : Vocab) :
  let hash_fn := if compatible_hash then _ft_hash else _ft_hash_broken in
  tr_bucket (trainables self) = 0%Z →
  (0 < word_ngrams)%Z →
  vocab (wv self) !! word = Some item →
  _compute_ngrams word (min_n (wv self)) (max_n (wv self)) ≠ [] →
  ((∀ ng, ∃ h, hash_fn ng = PyInt h) →
   estimate_memory _compute_ngrams _ft_hash _ft_hash_broken self word_ngrams
     compatible_hash vocab_size report
   = ZeroDivisionError)
  ∧ ((∀ ng, ∃ h, hash_fn ng = Uint32 h) →
     ∃ report' records,
       estimate_memory _compute_ngrams _ft_hash _ft_hash_broken self
         word_ngrams compatible_hash vocab_size report
       = Estimated report' records
       ∧ report' !! "syn0_ngrams"%string
         = Some (1 * (self_vector_size self * 4))%Z).
Proof.
  intros hash_fn Hbucket Hngrams Hword Hsome.
  assert (Hwords : (size (vocab (wv self)) =? 0)%nat = false).
  { apply Nat.eqb_neq. intros Hempty.
    apply map_size_empty_iff in Hempty. rewrite Hempty in Hword.
    by rewrite lookup_empty in Hword. }
  assert (Hexists :
    Exists (λ word, _compute_ngrams word (min_n (wv self)) (max_n (wv self))
                    ≠ [])
      (map_to_list (vocab (wv self))).*1).
  { apply Exists_exists. exists word. split; [| done].
    apply list_elem_of_fmap. exists (word, item). split; [done |].
    by apply elem_of_map_to_list. }
  split; intros Hhash; unfold estimate_memory; fold hash_fn;
    replace (0 <? word_ngrams)%Z with true by (symmetry; by apply Z.ltb_lt);
    rewrite Hwords; cbn [andb negb]; rewrite Hbucket.
  - by rewrite scan_words_zero_bucket.
  - destruct (scan_words_zero_bucket_numpy hash_fn (min_n (wv self))
                (max_n (wv self)) (map_to_list (vocab (wv self))).*1 ∅ 0%Z
                Hhash)
      as (found & num & -> & _ & Hhigh & Hhit).
    eexists _, _. split; [reflexivity |].
    rewrite lookup_insert_ne by done. rewrite lookup_insert_ne by done.
    rewrite lookup_insert_eq. do 2 f_equal.
    assert (Hfound : found = {[ 0%Z ]}).
    { apply set_eq. intros b. specialize (Hhit Hexists).
      rewrite elem_of_singleton. split.
      - intros Hb%Hhigh. rewrite (left_id_L ∅ (∪)) in Hb.
        by apply elem_of_singleton in Hb.
      - by intros ->. }
    by rewrite Hfound, size_singleton.
Qed.


End Estimate.

Lemma estimate_memory_bucket_bound_witness :
  ∃ report' (buckets : gset Z),
    estimate_memory letters first_byte first_byte cat_model 1 true None ∅
    = Estimated report'
        [LogEntry INFO
           "estimated required memory for %i words, %i buckets and %i dimensions: %i bytes"
           [LInt (Z.of_nat (size (vocab (wv cat_model))));
            LInt (Z.of_nat (size buckets)); LInt 4;
            LInt (default 0%Z (report' !! "total"%string))]]
    ∧ (∀ b, b ∈ buckets ↔
            ∃ word ng,
              is_Some (vocab (wv cat_model) !! word)
              ∧ ng ∈ letters word 3 3
              ∧ b = (hash_value (first_byte ng) `mod` 10)%Z)
    ∧ report' !! "syn0_ngrams"%string
      = Some (Z.of_nat (size buckets) * (4 * 4))%Z
    ∧ (Z.of_nat (size buckets) ≤ 10)%Z.
Proof.
  apply (estimate_memory_bucket_bound letters first_byte first_byte cat_model
           1 true None ∅).
  - vm_compute. split; reflexivity.
  - lia.
  - vm_compute. discriminate.
Defined.

Lemma estimate_memory_zero_bucket_witness :
  estimate_memory letters first_byte_int first_byte_int cat_model_no_bucket 1
    true None ∅
  = ZeroDivisionError
  ∧ ∃ report' records,
      estimate_memory letters first_byte first_byte cat_model_no_bucket 1 true
        None ∅
      = Estimated report' records
      ∧ report' !! "syn0_ngrams"%string = Some (1 * (4 * 4))%Z.
Proof.
  split.
  - apply (proj1 (estimate_memory_zero_bucket letters first_byte_int
                    first_byte_int cat_model_no_bucket 1 true None ∅ "cat"
                    (VocabItem 5 0) eq_refl ltac:(lia)
                    ltac:(vm_compute; reflexivity)
                    ltac:(vm_compute; discriminate))).
    intros ng. by eexists.
  - apply (proj2 (estimate_memory_zero_bucket letters first_byte first_byte
                    cat_model_no_bucket 1 true None ∅ "cat" (VocabItem 5 0)
                    eq_refl ltac:(lia) ltac:(vm_compute; reflexivity)
                    ltac:(vm_compute; discriminate))).
    intros ng. unfold first_byte.
    destruct (list_byte_of_string ng); by eexists.
Defined.

